(** * GameRadar: country inference, profile validation, skill vectors and
      the Bronze/Silver/Gold pipeline

    A shallow embedding of the decision logic of the GameRadar ingestion
    pipeline (country_detector.py, models.py, skill_vector_embeddings.py,
    scrapers.py, bronze_ingestion.py, supabase_client.py, pipeline.py).

    Conventions of the embedding.
    - A Python [str] is the list of its Unicode code points ([list N]);
      the tables of country_detector.py are written with the code points
      found in the source file.
    - A Python [dict] that is only read through [.get] / [[]] is a
      [gmap string PyVal]; the three lookup tables of country_detector.py,
      whose iteration order decides the result, are association lists in
      source order.
    - A Python [float] is an exact rational or one of the three special
      values (two infinities, NaN); rounding error of binary64 arithmetic
      is not represented.
    - Code that can raise returns a [result]; the exception class is kept.
    - The collaborators behind the pipeline (browser adapter, Supabase,
      Airtable) are the fields of a record of oracles; every call made to
      them is appended to a trace. *)

From Stdlib Require Import ZArith NArith QArith Qround List String Ascii Lia Bool.
From stdpp Require Import base list strings gmap.

Import ListNotations.
Local Open Scope Z_scope.

(* ===================================================================== *)
(** ** Python strings *)
(* ===================================================================== *)

Module PyStr.

(** A code point; a [str] is a sequence of them. *)
Definition codepoint := N.
Definition str := list codepoint.

(** The code points of an ASCII literal. *)
Fixpoint lit (s : string) : str :=
  match s with
  | EmptyString => []
  | String a rest => N_of_ascii a :: lit rest
  end.

Definition cp_eqb (a b : codepoint) : bool := N.eqb a b.

Fixpoint str_eqb (a b : str) : bool :=
  match a, b with
  | [], [] => true
  | x :: a', y :: b' => cp_eqb x y && str_eqb a' b'
  | _, _ => false
  end.

(** [s.startswith(p)]. *)
Fixpoint startswith (p s : str) : bool :=
  match p, s with
  | [], _ => true
  | _ :: _, [] => false
  | x :: p', y :: s' => cp_eqb x y && startswith p' s'
  end.

(** [needle in hay]: some suffix of [hay] starts with [needle]. *)
Fixpoint contains (needle hay : str) : bool :=
  startswith needle hay ||
  match hay with
  | [] => false
  | _ :: hay' => contains needle hay'
  end.

(** Truth value of a [str]: non-empty. *)
Definition truthy (s : str) : bool :=
  match s with [] => false | _ :: _ => true end.

(** Truth value of an [Optional[str]]. *)
Definition opt_truthy (s : option str) : bool :=
  match s with None => false | Some t => truthy t end.

(** The characters [str.strip()] removes: those for which
    [str.isspace] holds. *)
Definition is_space (c : codepoint) : bool :=
  ((9 <=? c) && (c <=? 13) || (28 <=? c) && (c <=? 32) ||
   (c =? 133) || (c =? 160) || (c =? 5760) ||
   (8192 <=? c) && (c <=? 8202) || (c =? 8232) || (c =? 8233) ||
   (c =? 8239) || (c =? 8287) || (c =? 12288))%N.

Fixpoint lstrip (s : str) : str :=
  match s with
  | c :: s' => if is_space c then lstrip s' else s
  | [] => []
  end.

Definition rstrip (s : str) : str := rev (lstrip (rev s)).

Definition strip (s : str) : str := rstrip (lstrip s).

Definition is_ascii (c : codepoint) : bool := (c <? 128)%N.

(** Lower-casing of one ASCII character: [A-Z] to [a-z]. *)
Definition ascii_lower (c : codepoint) : codepoint :=
  if ((65 <=? c) && (c <=? 90))%N then (c + 32)%N else c.

Definition ascii_upper (c : codepoint) : codepoint :=
  if ((97 <=? c) && (c <=? 122))%N then (c - 32)%N else c.

Section Casing.
(** [str.lower] and [str.upper] follow the Unicode character
    database, which is part of the interpreter and not of the
    repository: on a text with a non-ASCII character they are the
    functions below; on an ASCII text they are the ASCII mappings. *)
Variable unicode_lower : str -> str.

Definition lower (s : str) : str :=
  if forallb is_ascii s then map ascii_lower s else unicode_lower s.
End Casing.

End PyStr.

Import PyStr.

(* ===================================================================== *)
(** ** models.py: the enumerations *)
(* ===================================================================== *)

Inductive CountryCode :=
  | INDIA | KOREA | VIETNAM | CHINA | PHILIPPINES
  | THAILAND | JAPAN | TAIWAN | INDONESIA | UNKNOWN.

(** [CountryCode(str, Enum)]: the value of each member. *)
Definition country_value (c : CountryCode) : string :=
  match c with
  | INDIA => "IN" | KOREA => "KR" | VIETNAM => "VN" | CHINA => "CN"
  | PHILIPPINES => "PH" | THAILAND => "TH" | JAPAN => "JP"
  | TAIWAN => "TW" | INDONESIA => "ID" | UNKNOWN => "XX"
  end.

Definition all_countries : list CountryCode :=
  [INDIA; KOREA; VIETNAM; CHINA; PHILIPPINES; THAILAND; JAPAN; TAIWAN;
   INDONESIA; UNKNOWN].

Definition country_eqb (a b : CountryCode) : bool :=
  String.eqb (country_value a) (country_value b).

(** An enumeration mixed with [str] takes its truth value from the mixed-in
    type: a member is true when its value is a non-empty string. *)
Definition country_truthy (c : CountryCode) : bool :=
  negb (String.eqb (country_value c) "").

Inductive GameTitle :=
  | LEAGUE_OF_LEGENDS | VALORANT | DOTA2 | CSGO | MOBILE_LEGENDS | PUBG_MOBILE.

Definition game_value (g : GameTitle) : string :=
  match g with
  | LEAGUE_OF_LEGENDS => "LOL" | VALORANT => "VAL" | DOTA2 => "DOTA2"
  | CSGO => "CSGO" | MOBILE_LEGENDS => "MLBB" | PUBG_MOBILE => "PUBGM"
  end.

Definition all_games : list GameTitle :=
  [LEAGUE_OF_LEGENDS; VALORANT; DOTA2; CSGO; MOBILE_LEGENDS; PUBG_MOBILE].

(* ===================================================================== *)
(** ** country_detector.py *)
(* ===================================================================== *)

Module CountryDetector.

(** The three tables, in source order. *)
Definition SERVER_TO_COUNTRY : list (str * CountryCode) :=
  [ (lit "kr", KOREA); (lit "vn", VIETNAM); (lit "ph", PHILIPPINES);
    (lit "sg", VIETNAM); (lit "th", THAILAND); (lit "tw", TAIWAN);
    (lit "jp", JAPAN); (lit "in", INDIA);
    (lit "korea", KOREA); (lit "mumbai", INDIA);
    (lit "singapore", VIETNAM); (lit "hongkong", CHINA);
    (lit "tokyo", JAPAN);
    (lit "sea", VIETNAM); (lit "asia", UNKNOWN) ].

(** A flag glyph is a pair of regional-indicator code points. *)
Definition FLAG_TO_COUNTRY : list (str * CountryCode) :=
  [ ([0x1F1EE; 0x1F1F3]%N, INDIA);
    ([0x1F1F0; 0x1F1F7]%N, KOREA);
    ([0x1F1FB; 0x1F1F3]%N, VIETNAM);
    ([0x1F1E8; 0x1F1F3]%N, CHINA);
    ([0x1F1F5; 0x1F1ED]%N, PHILIPPINES);
    ([0x1F1F9; 0x1F1ED]%N, THAILAND);
    ([0x1F1EF; 0x1F1F5]%N, JAPAN);
    ([0x1F1F9; 0x1F1FC]%N, TAIWAN);
    ([0x1F1EE; 0x1F1E9]%N, INDONESIA) ].

Definition COUNTRY_NAME_TO_CODE : list (str * CountryCode) :=
  [ (lit "india", INDIA); (lit "korea", KOREA);
    (lit "south korea", KOREA); (lit "vietnam", VIETNAM);
    (lit "china", CHINA); (lit "philippines", PHILIPPINES);
    (lit "thailand", THAILAND); (lit "japan", JAPAN);
    (lit "taiwan", TAIWAN); (lit "indonesia", INDONESIA);
    ([0x92D; 0x93E; 0x930; 0x924]%N, INDIA);
    ([0xD55C; 0xAD6D]%N, KOREA);
    ([0x76; 0x69; 0x1EC7; 0x74; 0x20; 0x6E; 0x61; 0x6D]%N, VIETNAM);
    ([0x4E2D; 0x56FD]%N, CHINA) ].

(** [for key, value in table.items(): if key in text: return value]
    and [return None] after the loop. *)
Fixpoint first_contained (table : list (str * CountryCode)) (text : str)
  : option CountryCode :=
  match table with
  | [] => None
  | (key, value) :: rest =>
      if contains key text then Some value else first_contained rest text
  end.

(** [table.get(key)]. *)
Fixpoint dict_get (table : list (str * CountryCode)) (key : str)
  : option CountryCode :=
  match table with
  | [] => None
  | (k, value) :: rest =>
      if str_eqb k key then Some value else dict_get rest key
  end.

Definition detect_country_from_flag (text : str) : option CountryCode :=
  first_contained FLAG_TO_COUNTRY text.

(** [if a in u or b in u: return c], the shape of each branch of
    [detect_country_from_url]. *)
Definition url_marker (a b : string) (u : str) : bool :=
  contains (lit a) u || contains (lit b) u.

Section WithCasing.
Variable unicode_lower : str -> str.

Let lower := PyStr.lower unicode_lower.

Definition detect_country_from_server (server : str) : option CountryCode :=
  let server_lower := strip (lower server) in
  dict_get SERVER_TO_COUNTRY server_lower.

Definition detect_country_from_url (url : str) : option CountryCode :=
  let url_lower := lower url in
  if url_marker "/kr/" "kr.op.gg" url_lower then Some KOREA
  else if url_marker "/vn/" "vn.op.gg" url_lower then Some VIETNAM
  else if url_marker "/in/" ".in/" url_lower then Some INDIA
  else if url_marker "/cn/" ".cn/" url_lower then Some CHINA
  else if url_marker "/jp/" ".jp/" url_lower then Some JAPAN
  else None.

Definition detect_country_from_name (text : str) : option CountryCode :=
  let text_lower := strip (lower text) in
  first_contained COUNTRY_NAME_TO_CODE text_lower.

(** [country = f(x); if country: return country], followed by the
    rest of the function. *)
Definition return_if_found (country : option CountryCode)
           (rest : CountryCode) : CountryCode :=
  match country with
  | Some c => if country_truthy c then c else rest
  | None => rest
  end.

(** [if x: <body>], where the body may return, followed by the rest of
    the function. *)
Definition when_given (x : option str)
           (body : str -> CountryCode -> CountryCode)
           (rest : CountryCode) : CountryCode :=
  match x with
  | Some t => if truthy t then body t rest else rest
  | None => rest
  end.

Definition detect_country
           (profile_text server url additional_text : option str)
  : CountryCode :=
  when_given profile_text
    (fun t rest =>
       return_if_found (detect_country_from_flag t)
         (return_if_found (detect_country_from_name t) rest))
  (when_given server
    (fun s rest => return_if_found (detect_country_from_server s) rest)
  (when_given url
    (fun u rest => return_if_found (detect_country_from_url u) rest)
  (when_given additional_text
    (fun t rest =>
       return_if_found (detect_country_from_flag t)
         (return_if_found (detect_country_from_name t) rest))
  UNKNOWN))).

(** The countries whose flag occurs in a text, in table order. *)
Definition flags_in (text : str) : list CountryCode :=
  map snd (List.filter (fun fc => contains (fst fc) text) FLAG_TO_COUNTRY).


End WithCasing.

End CountryDetector.

(* ===================================================================== *)
(** ** Python values, floats and exceptions *)
(* ===================================================================== *)

(** The exception classes the modelled code can raise; all of them derive
    from [Exception]. *)
Inductive exn :=
  | TypeError | ValueError | ZeroDivisionError | OverflowError
  | KeyError | AttributeError | ValidationError | CollaboratorError.

Inductive result (A : Type) :=
  | Ok (a : A)
  | Raise (e : exn).
Arguments Ok {A} a.
Arguments Raise {A} e.

Definition rbind {A B} (r : result A) (k : A -> result B) : result B :=
  match r with
  | Ok a => k a
  | Raise e => Raise e
  end.

(** [try: body except Exception: handler]. *)
Definition try_except {A} (body : result A) (handler : exn -> result A)
  : result A :=
  match body with
  | Ok a => Ok a
  | Raise e => handler e
  end.

Declare Scope result_scope.
Delimit Scope result_scope with result.
Notation "'let!' x ':=' r 'in' k" := (rbind r (fun x => k))
  (at level 10, x name, r at level 100, k at level 200) : result_scope.

Module PyNum.

(** A [float]: the rational it denotes, or a special value. *)
Inductive pyfloat :=
  | Fin (q : Q)
  | PosInf
  | NegInf
  | NaN.

Definition Qltb (a b : Q) : bool := negb (Qle_bool b a).

(** [x < y] and [x <= y]; every comparison with NaN is false. *)
Definition flt (x y : pyfloat) : bool :=
  match x, y with
  | NaN, _ | _, NaN => false
  | Fin a, Fin b => Qltb a b
  | NegInf, NegInf => false
  | NegInf, _ => true
  | PosInf, _ => false
  | Fin _, PosInf => true
  | Fin _, NegInf => false
  end.

Definition fle (x y : pyfloat) : bool :=
  match x, y with
  | NaN, _ | _, NaN => false
  | Fin a, Fin b => Qle_bool a b
  | NegInf, _ => true
  | _, PosInf => true
  | PosInf, _ => false
  | Fin _, NegInf => false
  end.

Definition fgt (x y : pyfloat) : bool := flt y x.
Definition fge (x y : pyfloat) : bool := fle y x.

Definition is_zero (x : pyfloat) : bool :=
  match x with
  | Fin q => Qeq_bool q 0
  | _ => false
  end.

Definition Qneg_b (q : Q) : bool := Qltb q 0.

(** [x + y]. *)
Definition fadd (x y : pyfloat) : pyfloat :=
  match x, y with
  | NaN, _ | _, NaN => NaN
  | Fin a, Fin b => Fin (Qred (a + b))
  | PosInf, NegInf | NegInf, PosInf => NaN
  | PosInf, _ | _, PosInf => PosInf
  | NegInf, _ | _, NegInf => NegInf
  end.

(** [x / y]: a zero divisor raises, whatever the dividend. *)
Definition fdiv (x y : pyfloat) : result pyfloat :=
  if is_zero y then Raise ZeroDivisionError
  else Ok
    match x, y with
    | NaN, _ | _, NaN => NaN
    | Fin a, Fin b => Fin (Qred (a / b))
    | Fin _, (PosInf | NegInf) => Fin 0
    | PosInf, Fin b => if Qneg_b b then NegInf else PosInf
    | NegInf, Fin b => if Qneg_b b then PosInf else NegInf
    | (PosInf | NegInf), (PosInf | NegInf) => NaN
    end.

(** [max(a, b)] and [min(a, b)] keep the first argument unless the
    second is strictly greater (smaller). *)
Definition pymax (a b : pyfloat) : pyfloat := if fgt b a then b else a.
Definition pymin (a b : pyfloat) : pyfloat := if flt b a then b else a.

(** Nearest integer, ties to even. *)
Definition round_half_even (q : Q) : Z :=
  let f := Qfloor q in
  let r := (q - inject_Z f)%Q in
  if Qltb r (1 # 2) then f
  else if Qltb (1 # 2) r then f + 1
  else if Z.even f then f else f + 1.

(** [round(x, ndigits)] on a float. *)
Definition round_ndigits (x : pyfloat) (ndigits : nat) : pyfloat :=
  match x with
  | Fin q =>
      let scale := inject_Z (10 ^ Z.of_nat ndigits) in
      Fin (Qred (inject_Z (round_half_even (q * scale)) / scale))
  | _ => x
  end.

(** Integers from this magnitude on are too large for [float(int)]. *)
Definition float_overflow_bound : Z := 2 ^ 1024 - 2 ^ 970.

Definition float_of_int (z : Z) : result pyfloat :=
  if Z.abs z <? float_overflow_bound then Ok (Fin (inject_Z z))
  else Raise OverflowError.

Definition float_of_nat (n : nat) : pyfloat := Fin (inject_Z (Z.of_nat n)).

Definition zero : pyfloat := Fin 0.
Definition one : pyfloat := Fin 1.

(** The value lies in the closed interval [0, 1]. *)
Definition in_unit (x : pyfloat) : bool := fle zero x && fle x one.

End PyNum.

Import PyNum.

#[local] Set Warnings "-register-all".

(** A Python value as the JSON decoder and the modelled code produce
    them. *)
Inductive PyVal :=
  | PNone
  | PBool (b : bool)
  | PInt (z : Z)
  | PFloat (x : pyfloat)
  | PStr (s : str)
  | PList (items : list PyVal)
  | PDict (d : gmap string PyVal).

Definition is_none (v : option PyVal) : bool :=
  match v with
  | None | Some PNone => true
  | _ => false
  end.

(* ===================================================================== *)
(** ** skill_vector_embeddings.py *)
(* ===================================================================== *)

Module SkillVector.

Section WithFloatParser.
(** [float(s)] on a string follows the float-literal grammar of the
    interpreter: [Some x] when [s] denotes [x], [None] for a
    [ValueError]. *)
Variable float_of_str : str -> option pyfloat.

(** The builtin [float(v)]. *)
Definition py_float (v : PyVal) : result pyfloat :=
  match v with
  | PNone => Raise TypeError
  | PBool b => Ok (if b then one else zero)
  | PInt z => float_of_int z
  | PFloat x => Ok x
  | PStr s =>
      match float_of_str s with
      | Some x => Ok x
      | None => Raise ValueError
      end
  | PList _ | PDict _ => Raise TypeError
  end.

Definition clamp (value min_value max_value : pyfloat) : pyfloat :=
  pymax min_value (pymin max_value value).

(** [clamp(value)] with the default bounds [0.0] and [1.0]. *)
Definition clamp01 (value : pyfloat) : pyfloat := clamp value zero one.

Definition _get_stat (stats : gmap string PyVal) (key : string)
           (default : pyfloat) : pyfloat :=
  match
    try_except
      (let raw := stats !! key in
       match raw with
       | Some PNone => Ok default
       | Some v => py_float v
       | None => Ok default
       end)
      (fun _ => Ok default)
  with
  | Ok x => x
  | Raise _ => default
  end.

(** Division by a constant float different from zero. *)
Definition div_const (x : pyfloat) (c : Q) : result pyfloat :=
  fdiv x (Fin c).

Definition compute_skill_vector (stats : gmap string PyVal)
           (top_champions : PyVal) : result (list pyfloat) :=
  (let win_rate := _get_stat stats "win_rate" zero in
   let kda := _get_stat stats "kda" zero in
   let! aggressiveness :=
     (if is_none (stats !! "aggressiveness") then
        let kills_avg := _get_stat stats "kills_avg" zero in
        let deaths_avg := _get_stat stats "deaths_avg" zero in
        if fgt kills_avg zero then
          let! a := fdiv kills_avg (fadd deaths_avg one) in Ok (PFloat a)
        else Ok (PFloat zero)
      else Ok (default PNone (stats !! "aggressiveness"))) in
   let! versatility :=
     (if is_none (stats !! "versatility") then
        let diversity :=
          match top_champions with
          | PList items => length items
          | _ => 0%nat
          end in
        if (0 <? diversity)%nat then
          let! v := div_const (float_of_nat diversity) 3 in Ok (PFloat v)
        else Ok (PFloat zero)
      else Ok (default PNone (stats !! "versatility"))) in
   let! win_rate_100 := div_const win_rate 100 in
   let win_rate_norm := clamp01 win_rate_100 in
   let! kda_10 := div_const kda 10 in
   let kda_norm := clamp01 kda_10 in
   let! aggressiveness_f := py_float aggressiveness in
   let! aggressiveness_5 := div_const aggressiveness_f 5 in
   let aggressiveness_norm := clamp01 aggressiveness_5 in
   let! versatility_f := py_float versatility in
   let versatility_norm := clamp01 versatility_f in
   Ok [ round_ndigits kda_norm 6;
        round_ndigits win_rate_norm 6;
        round_ndigits aggressiveness_norm 6;
        round_ndigits versatility_norm 6 ])%result.

(** *** When the function raises *)

Definition is_raise {A} (r : result A) : bool :=
  match r with
  | Ok _ => false
  | Raise _ => true
  end.





End WithFloatParser.

End SkillVector.

(* ===================================================================== *)
(** ** UTF-8, as [str.encode('utf-8')] and [bytes.decode('utf-8')] *)
(* ===================================================================== *)

Module Utf8.

Local Open Scope N_scope.

Definition is_surrogate (c : codepoint) : bool :=
  (0xD800 <=? c) && (c <=? 0xDFFF).

(** The bytes of one code point; [None] stands for [UnicodeEncodeError]
    (a surrogate; values above U+10FFFF are no code points). *)
Definition encode_cp (c : codepoint) : option (list N) :=
  if c <? 0x80 then Some [c]
  else if c <? 0x800 then Some [0xC0 + c / 64; 0x80 + c mod 64]
  else if c <? 0x10000 then
    if is_surrogate c then None
    else Some [0xE0 + c / 4096; 0x80 + (c / 64) mod 64; 0x80 + c mod 64]
  else if c <? 0x110000 then
    Some [0xF0 + c / 262144; 0x80 + (c / 4096) mod 64;
          0x80 + (c / 64) mod 64; 0x80 + c mod 64]
  else None.

Fixpoint encode (s : str) : option (list N) :=
  match s with
  | [] => Some []
  | c :: rest =>
      match encode_cp c, encode rest with
      | Some b, Some bs => Some (b ++ bs)
      | _, _ => None
      end
  end.

(** A code point UTF-8 can carry. *)
Definition scalar (c : codepoint) : bool :=
  (c <? 0x110000) && negb (is_surrogate c).

(** A continuation byte, [10xxxxxx]. *)
Definition is_cont (b : N) : bool := (0x80 <=? b) && (b <=? 0xBF).

Definition cons_opt (c : codepoint) (r : option str) : option str :=
  match r with
  | Some s => Some (c :: s)
  | None => None
  end.

(** Strict decoding; [None] stands for [UnicodeDecodeError] (stray or
    missing continuation bytes, overlong forms, surrogates, values
    above U+10FFFF). *)
Fixpoint decode (bs : list N) : option str :=
  match bs with
  | [] => Some []
  | b0 :: rest =>
      if b0 <? 0x80 then cons_opt b0 (decode rest)
      else if (0xC2 <=? b0) && (b0 <=? 0xDF) then
        match rest with
        | b1 :: rest1 =>
            if is_cont b1
            then cons_opt ((b0 - 0xC0) * 64 + (b1 - 0x80)) (decode rest1)
            else None
        | _ => None
        end
      else if (0xE0 <=? b0) && (b0 <=? 0xEF) then
        match rest with
        | b1 :: b2 :: rest2 =>
            let c := (b0 - 0xE0) * 4096 + (b1 - 0x80) * 64 + (b2 - 0x80) in
            if is_cont b1 && is_cont b2 && (0x800 <=? c)
               && negb (is_surrogate c)
            then cons_opt c (decode rest2)
            else None
        | _ => None
        end
      else if (0xF0 <=? b0) && (b0 <=? 0xF4) then
        match rest with
        | b1 :: b2 :: b3 :: rest3 =>
            let c := (b0 - 0xF0) * 262144 + (b1 - 0x80) * 4096
                     + (b2 - 0x80) * 64 + (b3 - 0x80) in
            if is_cont b1 && is_cont b2 && is_cont b3
               && (0x10000 <=? c) && (c <? 0x110000)
            then cons_opt c (decode rest3)
            else None
        | _ => None
        end
      else None
  end.

End Utf8.

(* ===================================================================== *)
(** ** models.py: validated records *)
(* ===================================================================== *)

Module Models.

Record Champion := mkChampion {
  champ_name : str;
  champ_games_played : Z;
  champ_win_rate : pyfloat
}.

Record PlayerStats := mkPlayerStats {
  stat_win_rate : pyfloat;
  stat_kda : pyfloat;
  stat_kills_avg : option pyfloat;
  stat_deaths_avg : option pyfloat;
  stat_assists_avg : option pyfloat;
  stat_games_analyzed : Z
}.

(** [Config.use_enum_values] stores the value of an enumeration member
    in the field; the record holds the member that has this value. A
    [datetime] is an instant on the UTC time line. *)
Record PlayerProfile := mkPlayerProfile {
  nickname : str;
  game : GameTitle;
  country : CountryCode;
  server : str;
  rank : str;
  rank_numeric : option Z;
  stats : PlayerStats;
  top_champions : list Champion;
  profile_url : str;
  scraped_at : Z;
  data_quality_score : pyfloat
}.

(** Truth value of a Python value. *)
Definition py_truthy (v : PyVal) : bool :=
  match v with
  | PNone => false
  | PBool b => b
  | PInt z => negb (z =? 0)
  | PFloat x => negb (is_zero x)
  | PStr s => truthy s
  | PList items => match items with [] => false | _ => true end
  | PDict d => negb (bool_decide (d = ∅))
  end.

(** [v[:n]]. *)
Definition slice_to {A} (n : nat) (v : list A) : list A := firstn n v.

(** [@validator('top_champions')]. *)
Definition validate_top_champions (v : list Champion)
  : result (list Champion) :=
  if (3 <? length v)%nat then Ok (slice_to 3 v) else Ok v.

(** [@validator('nickname')]. *)
Definition validate_unicode_support (v : str) : result str :=
  if negb (truthy v) then Raise ValueError
  else
    match Utf8.encode v with
    | Some bytes =>
        match Utf8.decode bytes with
        | Some _ => Ok v
        | None => Raise ValueError
        end
    | None => Raise ValueError
    end.

(** A computation that raises nothing but [ValidationError]. *)
Definition only_validation_error {A} (r : result A) : Prop :=
  forall e, r = Raise e -> e = ValidationError.

Section Validation.
(** What the validation library does with a string, or with any value,
    handed to a numeric or a datetime field belongs to the library:
    [Some] is the coerced value, [None] a rejection. *)
Variable lax_float_of_str : str -> option pyfloat.
Variable lax_int_of_str : str -> option Z.
Variable lax_datetime : PyVal -> option Z.
(** [datetime.isoformat()]. *)
Variable isoformat : Z -> str.

(** A failure inside a field validator, of any class, makes the
    construction fail with a [ValidationError]. *)
Definition as_validation_error {A} (r : result A) : result A :=
  try_except r (fun _ => Raise ValidationError).

Definition of_option {A} (o : option A) : result A :=
  match o with
  | Some a => Ok a
  | None => Raise ValidationError
  end.

Definition check (b : bool) : result unit :=
  if b then Ok tt else Raise ValidationError.

(** Field of type [str]. *)
Definition validate_str (v : PyVal) : result str :=
  match v with
  | PStr s => Ok s
  | _ => Raise ValidationError
  end.

(** Field of type [float]. *)
Definition validate_float (v : PyVal) : result pyfloat :=
  match v with
  | PFloat x => Ok x
  | PInt z => as_validation_error (float_of_int z)
  | PBool b => Ok (if b then one else zero)
  | PStr s => of_option (lax_float_of_str s)
  | _ => Raise ValidationError
  end.

(** Field of type [int]: a float is taken when it has no fractional
    part. *)
Definition validate_int (v : PyVal) : result Z :=
  match v with
  | PInt z => Ok z
  | PBool b => Ok (if b then 1 else 0)
  | PFloat (Fin q) =>
      if Qeq_bool q (inject_Z (Qfloor q)) then Ok (Qfloor q)
      else Raise ValidationError
  | PStr s => of_option (lax_int_of_str s)
  | _ => Raise ValidationError
  end.

(** [Field(..., ge=lo, le=hi)] on a float; an absent bound is [None]. *)
Definition float_bounds (lo hi : option pyfloat) (x : pyfloat) : bool :=
  match lo with Some l => fge x l | None => true end &&
  match hi with Some h => fle x h | None => true end.

Definition validate_float_in (lo hi : option pyfloat) (v : PyVal)
  : result pyfloat :=
  (let! x := validate_float v in
   let! _ := check (float_bounds lo hi x) in
   Ok x)%result.

Definition int_bounds (lo hi : option Z) (z : Z) : bool :=
  match lo with Some l => l <=? z | None => true end &&
  match hi with Some h => z <=? h | None => true end.

Definition validate_int_in (lo hi : option Z) (v : PyVal) : result Z :=
  (let! z := validate_int v in
   let! _ := check (int_bounds lo hi z) in
   Ok z)%result.

(** A required field: missing from the arguments is an error. *)
Definition required {A} (validate : PyVal -> result A)
           (arg : option PyVal) : result A :=
  match arg with
  | Some v => validate v
  | None => Raise ValidationError
  end.

(** [Optional[T] = Field(None, ...)]. *)
Definition optional {A} (validate : PyVal -> result A)
           (arg : option PyVal) : result (option A) :=
  match arg with
  | None | Some PNone => Ok None
  | Some v => (let! a := validate v in Ok (Some a))%result
  end.

(** A field with a default, which is taken as it is. *)
Definition with_default {A} (validate : PyVal -> result A) (dflt : A)
           (arg : option PyVal) : result A :=
  match arg with
  | Some v => validate v
  | None => Ok dflt
  end.

(** A member of an enumeration, looked up by value. *)
Fixpoint enum_by_value {E} (value : E -> string) (members : list E)
         (s : str) : result E :=
  match members with
  | [] => Raise ValidationError
  | m :: rest =>
      if str_eqb (lit (value m)) s then Ok m
      else enum_by_value value rest s
  end.

Definition validate_enum {E} (value : E -> string) (members : list E)
           (v : PyVal) : result E :=
  match v with
  | PStr s => enum_by_value value members s
  | _ => Raise ValidationError
  end.

Definition hundred : pyfloat := Fin 100.

(** The constructor [Champion], on its keyword arguments. *)
Definition Champion_new (d : gmap string PyVal) : result Champion :=
  (let! name := required validate_str (d !! "name") in
   let! games_played :=
     required (validate_int_in (Some 0) None) (d !! "games_played") in
   let! win_rate :=
     required (validate_float_in (Some zero) (Some hundred))
              (d !! "win_rate") in
   Ok (mkChampion name games_played win_rate))%result.

(** The constructor [PlayerStats], on its keyword arguments. *)
Definition PlayerStats_new (d : gmap string PyVal) : result PlayerStats :=
  (let! win_rate :=
     required (validate_float_in (Some zero) (Some hundred))
              (d !! "win_rate") in
   let! kda := required (validate_float_in (Some zero) None) (d !! "kda") in
   let! kills_avg :=
     optional (validate_float_in (Some zero) None) (d !! "kills_avg") in
   let! deaths_avg :=
     optional (validate_float_in (Some zero) None) (d !! "deaths_avg") in
   let! assists_avg :=
     optional (validate_float_in (Some zero) None) (d !! "assists_avg") in
   let! games_analyzed :=
     with_default (validate_int_in (Some 1) (Some 100)) 100
                  (d !! "games_analyzed") in
   Ok (mkPlayerStats win_rate kda kills_avg deaths_avg assists_avg
                     games_analyzed))%result.

(** A field whose type is a model takes a mapping of its fields. *)
Definition validate_model {A} (new : gmap string PyVal -> result A)
           (v : PyVal) : result A :=
  match v with
  | PDict d => new d
  | _ => Raise ValidationError
  end.

Fixpoint validate_each {A} (validate : PyVal -> result A)
         (items : list PyVal) : result (list A) :=
  match items with
  | [] => Ok []
  | v :: rest =>
      (let! a := validate v in
       let! others := validate_each validate rest in
       Ok (a :: others))%result
  end.

(** [List[T] = Field(..., min_items=lo, max_items=hi)]: the items are
    validated and the length is checked against the declared
    bounds. *)
Definition validate_list_in {A} (validate : PyVal -> result A)
           (min_items max_items : nat) (v : PyVal) : result (list A) :=
  match v with
  | PList items =>
      (let! l := validate_each validate items in
       let! _ := check ((min_items <=? length l)%nat
                        && (length l <=? max_items)%nat) in
       Ok l)%result
  | _ => Raise ValidationError
  end.

(** The field [nickname]: the declared type and constraints first, the
    class validator after them. *)
Definition field_nickname (arg : option PyVal) : result str :=
  (let! s := required validate_str arg in
   let! _ := check ((1 <=? length s)%nat && (length s <=? 100)%nat) in
   as_validation_error (validate_unicode_support s))%result.

(** The field [top_champions]: the declared type and constraints
    first, the class validator after them. *)
Definition field_top_champions (arg : option PyVal)
  : result (list Champion) :=
  (let! l := required (validate_list_in (validate_model Champion_new) 1 3)
                      arg in
   as_validation_error (validate_top_champions l))%result.

(** The constructor [PlayerProfile], on its keyword arguments, at
    instant [now]. *)
Definition PlayerProfile_new (now : Z) (kwargs : gmap string PyVal)
  : result PlayerProfile :=
  (let! nickname := field_nickname (kwargs !! "nickname") in
   let! game :=
     required (validate_enum game_value all_games) (kwargs !! "game") in
   let! country :=
     required (validate_enum country_value all_countries)
              (kwargs !! "country") in
   let! server := required validate_str (kwargs !! "server") in
   let! rank := required validate_str (kwargs !! "rank") in
   let! rank_numeric := optional validate_int (kwargs !! "rank_numeric") in
   let! stats :=
     required (validate_model PlayerStats_new) (kwargs !! "stats") in
   let! top_champions := field_top_champions (kwargs !! "top_champions") in
   let! profile_url := required validate_str (kwargs !! "profile_url") in
   let! scraped_at :=
     with_default (fun v => of_option (lax_datetime v)) now
                  (kwargs !! "scraped_at") in
   let! data_quality_score :=
     with_default (validate_float_in (Some zero) (Some one)) one
                  (kwargs !! "data_quality_score") in
   Ok (mkPlayerProfile nickname game country server rank rank_numeric
                       stats top_champions profile_url scraped_at
                       data_quality_score))%result.

(** *** [model_dump(mode='json')] *)

Definition dump_opt_float (x : option pyfloat) : PyVal :=
  match x with
  | Some f => PFloat f
  | None => PNone
  end.

Definition dump_opt_int (z : option Z) : PyVal :=
  match z with
  | Some i => PInt i
  | None => PNone
  end.

Definition Champion_dump (c : Champion) : gmap string PyVal :=
  {[ "name" := PStr (champ_name c);
     "games_played" := PInt (champ_games_played c);
     "win_rate" := PFloat (champ_win_rate c) ]}.

Definition PlayerStats_dump (s : PlayerStats) : gmap string PyVal :=
  {[ "win_rate" := PFloat (stat_win_rate s);
     "kda" := PFloat (stat_kda s);
     "kills_avg" := dump_opt_float (stat_kills_avg s);
     "deaths_avg" := dump_opt_float (stat_deaths_avg s);
     "assists_avg" := dump_opt_float (stat_assists_avg s);
     "games_analyzed" := PInt (stat_games_analyzed s) ]}.

Definition model_dump (p : PlayerProfile) : gmap string PyVal :=
  {[ "nickname" := PStr (nickname p);
     "game" := PStr (lit (game_value (game p)));
     "country" := PStr (lit (country_value (country p)));
     "server" := PStr (server p);
     "rank" := PStr (rank p);
     "rank_numeric" := dump_opt_int (rank_numeric p);
     "stats" := PDict (PlayerStats_dump (stats p));
     "top_champions" :=
       PList (map (fun c => PDict (Champion_dump c)) (top_champions p));
     "profile_url" := PStr (profile_url p);
     "scraped_at" := PStr (isoformat (scraped_at p));
     "data_quality_score" := PFloat (data_quality_score p) ]}.

End Validation.

End Models.

(* ===================================================================== *)
(** ** bronze_ingestion.py: the ranking-table collector *)
(* ===================================================================== *)

Module BronzeIngestion.

Import Models.

Local Open Scope N_scope.

Definition in_range (lo hi c : codepoint) : bool := (lo <=? c) && (c <=? hi).

Definition korean_pattern (c : codepoint) : bool :=
  in_range 0xAC00 0xD7AF c || in_range 0x1100 0x11FF c
  || in_range 0x3130 0x318F c.

Definition chinese_pattern (c : codepoint) : bool :=
  in_range 0x4E00 0x9FFF c || in_range 0x3400 0x4DBF c.

Definition japanese_pattern (c : codepoint) : bool :=
  in_range 0x3040 0x309F c || in_range 0x30A0 0x30FF c.

(** [bool(pattern.search(text))] for a one-character class. *)
Definition search (pattern : codepoint -> bool) (text : str) : bool :=
  existsb pattern text.

Definition detect_asian_characters (text : str) : gmap string PyVal :=
  {[ "has_korean" := PBool (search korean_pattern text);
     "has_chinese" := PBool (search chinese_pattern text);
     "has_japanese" := PBool (search japanese_pattern text);
     "has_asian" := PBool (search korean_pattern text
                           || search chinese_pattern text
                           || search japanese_pattern text) ]}.

Local Open Scope Z_scope.

(** What the page gives for one table row: the cell query raises, or it
    yields [cells] cells from which [_extract_player_from_cells] returns
    a field map or [None] (it catches its own failures). *)
Inductive row_outcome :=
  | QueryRaises
  | Cells (cells : nat) (extracted : option (gmap string PyVal)).

Record collector := mkCollector {
  players_data : list (gmap string PyVal);
  scraped_count : Z;
  error_count : Z
}.

(** The body of the [try] of one iteration. *)
Definition row_body (o : row_outcome) (st : collector) : result collector :=
  match o with
  | QueryRaises => Raise CollaboratorError
  | Cells cells extracted =>
      if (cells <? 2)%nat then Ok st
      else
        match extracted with
        | Some player_data =>
            if py_truthy (PDict player_data) then
              match default (PStr []) (player_data !! "nickname") with
              | PStr nick =>
                  let char_info := detect_asian_characters nick in
                  let player_data' :=
                    <["character_detection" := PDict char_info]> player_data in
                  Ok (mkCollector (players_data st ++ [player_data'])
                                  (scraped_count st + 1)
                                  (error_count st))
              | _ => Raise TypeError
              end
            else Ok st
        | None => Ok st
        end
  end.

(** One iteration: [try: ... except Exception: self.error_count += 1]. *)
Definition process_row (o : row_outcome) (st : collector) : collector :=
  match row_body o st with
  | Ok st' => st'
  | Raise _ =>
      mkCollector (players_data st) (scraped_count st) (error_count st + 1)
  end.

(** [for i, row in enumerate(rows[1:], 1)]. *)
Definition process_rows (rows : list row_outcome) (st : collector)
  : collector :=
  fold_left (fun s o => process_row o s) rows st.

(** What the page gives as a whole. *)
Inductive page_outcome :=
  | PageFails
  | NoTables
  | Table (rows : list row_outcome).

(** [scrape_liquipedia_ranking]: the returned list and the counters of
    the scraper after the call. *)
Definition scrape_liquipedia_ranking (page : page_outcome) (st : collector)
  : list (gmap string PyVal) * collector :=
  match page with
  | PageFails | NoTables => ([], st)
  | Table rows =>
      let st0 := mkCollector [] (scraped_count st) (error_count st) in
      let st' := process_rows (tail rows) st0 in
      (players_data st', st')
  end.

(** A row the collector accepts, and the record it appends for it. *)
Definition accepted (o : row_outcome) : option (gmap string PyVal) :=
  match row_body o (mkCollector [] 0 0) with
  | Ok st' => head (players_data st')
  | Raise _ => None
  end.

(** A row whose processing raises. *)
Definition raises (o : row_outcome) : bool :=
  match row_body o (mkCollector [] 0 0) with
  | Ok _ => false
  | Raise _ => true
  end.

End BronzeIngestion.

(* ===================================================================== *)
(** ** scrapers.py, supabase_client.py, pipeline.py: the orchestration *)
(* ===================================================================== *)

Module Pipeline.

Import Models.

Inductive log_level := DEBUG | INFO | SUCCESS | WARNING | ERROR.

(** The enrichment note of a promotion, [f"Auto-promoted: WR
    {win_rate}%"]: the metric value it quotes. *)
Inductive note := AutoPromoted (win_rate : PyVal).

(** A call to a collaborator, a pause, or a log line. *)
Inductive event :=
  | EScrape (i : nat) (identifier : str)
  | ESleep (seconds : Z)
  | EInsertBronze (raw_data : gmap string PyVal) (source source_url : str)
  | EQuery (country : string) (game : option string) (limit : nat)
  | EPromote (silver_id : PyVal) (enrichment_notes : note)
             (verified_by : string)
  | ESendBatch (profiles : list PlayerProfile)
  | ELog (level : log_level).

(** What [scrape_player] does on one identifier. *)
Inductive scrape_outcome :=
  | ScrapeRaises
  | ScrapeNone
  | ScrapeProfile (p : PlayerProfile).

(** The collaborators. The content of the normalized table and the
    clock depend on what happened before. A [false] answer of a store
    or sink call stands for the call raising. *)
Record World := mkWorld {
  scrape_player : nat -> str -> scrape_outcome;
  rate_limit_delay : Z;
  insert_bronze_ok : gmap string PyVal -> bool;
  silver_table : list event -> result (list (gmap string PyVal));
  promote_ok : PyVal -> bool;
  send_batch_ok : list PlayerProfile -> bool;
  utcnow : list event -> Z
}.

(** *** Computations with a trace and exceptions *)

Definition M (A : Type) : Type := list event -> result A * list event.

Definition ret {A} (a : A) : M A := fun tr => (Ok a, tr).

Definition raise {A} (e : exn) : M A := fun tr => (Raise e, tr).

Definition bind {A B} (m : M A) (k : A -> M B) : M B :=
  fun tr =>
    match m tr with
    | (Ok a, tr') => k a tr'
    | (Raise e, tr') => (Raise e, tr')
    end.

(** [try: body except Exception as e: handler]. *)
Definition try_catch {A} (body : M A) (handler : exn -> M A) : M A :=
  fun tr =>
    match body tr with
    | (Ok a, tr') => (Ok a, tr')
    | (Raise e, tr') => handler e tr'
    end.

Definition emit (e : event) : M unit := fun tr => (Ok tt, tr ++ [e]).

Definition log (level : log_level) : M unit := emit (ELog level).

Definition lift {A} (r : result A) : M A := fun tr => (r, tr).

Definition history : M (list event) := fun tr => (Ok tr, tr).

(** The trace of a computation only grows. *)
Definition extends {A} (m : M A) : Prop :=
  forall tr, exists d, snd (m tr) = tr ++ d.



Declare Scope pipe_scope.
Delimit Scope pipe_scope with pipe.
Notation "'let*' x ':=' m 'in' k" := (bind m (fun x => k))
  (at level 10, x name, m at level 100, k at level 200) : pipe_scope.
Notation "m ';;' k" := (bind m (fun _ => k))
  (at level 100, k at level 200, right associativity) : pipe_scope.

Local Open Scope pipe_scope.

(** [for x in items: s = body(x, s)]. *)
Fixpoint for_each {A S} (items : list A) (body : A -> S -> M S) (s : S)
  : M S :=
  match items with
  | [] => ret s
  | x :: rest => let* s' := body x s in for_each rest body s'
  end.

(** [enumerate(items)]. *)
Definition enumerate {A} (items : list A) : list (nat * A) :=
  combine (seq 0 (length items)) items.

(** [range(0, stop, step)], for a positive step. *)
Definition range_step (stop step : nat) : list nat :=
  map (fun k => (k * step)%nat) (seq 0 ((stop + step - 1) / step)).

(** [items[i:j]]. *)
Definition slice {A} (items : list A) (i j : nat) : list A :=
  firstn (j - i) (skipn i items).

(** [d[key]]. *)
Definition getitem (d : gmap string PyVal) (key : string) : result PyVal :=
  match d !! key with
  | Some v => Ok v
  | None => Raise KeyError
  end.

(** [v.get(key, dflt)]. *)
Definition get_method (v : PyVal) (key : string) (dflt : PyVal)
  : result PyVal :=
  match v with
  | PDict d => Ok (default dflt (d !! key))
  | _ => Raise AttributeError
  end.

(** [v >= x] for a float [x]: numbers compare by value, anything else
    is a [TypeError]. *)
Definition py_ge (v : PyVal) (x : pyfloat) : result bool :=
  match v with
  | PInt z => Ok (fge (Fin (inject_Z z)) x)
  | PBool b => Ok (fge (if b then one else zero) x)
  | PFloat y => Ok (fge y x)
  | _ => Raise TypeError
  end.

(** [a or b]. *)
Definition py_or (a b : PyVal) : PyVal := if py_truthy a then a else b.

(** *** supabase_client.py *)

Definition column_is (row : gmap string PyVal) (column value : string)
  : bool :=
  match row !! column with
  | Some (PStr s) => str_eqb s (lit value)
  | _ => false
  end.

(** The sort key of [order("rank_numeric", desc=True)]: a missing rank
    is a null, and nulls come first in a descending order. *)
Definition rank_key (row : gmap string PyVal) : option Z :=
  match row !! "rank_numeric" with
  | Some (PInt z) => Some z
  | _ => None
  end.

Definition key_lt (a b : option Z) : bool :=
  match a, b with
  | None, _ => false
  | Some _, None => true
  | Some x, Some y => x <? y
  end.

Fixpoint insert_desc (row : gmap string PyVal)
         (sorted : list (gmap string PyVal)) : list (gmap string PyVal) :=
  match sorted with
  | [] => [row]
  | s :: rest =>
      if key_lt (rank_key s) (rank_key row) then row :: s :: rest
      else s :: insert_desc row rest
  end.

Definition order_desc (rows : list (gmap string PyVal))
  : list (gmap string PyVal) :=
  fold_left (fun sorted row => insert_desc row sorted) rows [].

Definition string_truthy (s : string) : bool :=
  negb (String.eqb s "").

(** The rows the query of [get_players_by_country] selects. *)
Definition select_players (table : list (gmap string PyVal))
           (country : string) (game : option string) (limit : nat)
  : list (gmap string PyVal) :=
  let by_country := List.filter (fun row => column_is row "country" country)
                           table in
  let by_game :=
    match game with
    | Some g =>
        if string_truthy g
        then List.filter (fun row => column_is row "game" g) by_country
        else by_country
    | None => by_country
    end in
  firstn limit (order_desc by_game).

Section WithWorld.
Variable lax_float_of_str : str -> option pyfloat.
Variable lax_int_of_str : str -> option Z.
Variable lax_datetime : PyVal -> option Z.
Variable isoformat : Z -> str.
Variable unicode_lower : str -> str.
Variable w : World.

Let new_profile :=
  PlayerProfile_new lax_float_of_str lax_int_of_str lax_datetime.

Definition get_players_by_country (country : string)
           (game : option string) (limit : nat)
  : M (list (gmap string PyVal)) :=
  emit (EQuery country game limit) ;;
  let* tr := history in
  try_catch
    (let* table := lift (silver_table w tr) in
     ret (select_players table country game limit))
    (fun e => log ERROR ;; raise e).

Definition insert_bronze_raw (raw_data : gmap string PyVal)
           (source source_url : str) : M unit :=
  emit (EInsertBronze raw_data source source_url) ;;
  if insert_bronze_ok w raw_data then log SUCCESS
  else (log ERROR ;; raise CollaboratorError).

Definition promote_to_gold (silver_id : PyVal) (enrichment_notes : note)
           (verified_by : string) : M unit :=
  emit (EPromote silver_id enrichment_notes verified_by) ;;
  if promote_ok w silver_id then log SUCCESS
  else (log ERROR ;; raise CollaboratorError).

(** *** airtable_client.py, seen from the pipeline *)

Definition send_players_batch (profiles : list PlayerProfile) : M unit :=
  emit (ESendBatch profiles) ;;
  if send_batch_ok w profiles then log SUCCESS
  else (log ERROR ;; raise CollaboratorError).

(** *** scrapers.py *)

(** One iteration of the loop of [scrape_players] over [total]
    identifiers. *)
Definition scrape_one (total : nat) (item : nat * str)
           (profiles : list PlayerProfile) : M (list PlayerProfile) :=
  let i := fst item in
  let identifier := snd item in
  log INFO ;;
  let* profiles' :=
    try_catch
      (emit (EScrape i identifier) ;;
       match scrape_player w i identifier with
       | ScrapeRaises => raise CollaboratorError
       | ScrapeNone => ret profiles
       | ScrapeProfile profile =>
           log SUCCESS ;; ret (profiles ++ [profile])
       end)
      (fun _ => log ERROR ;; ret profiles) in
  (if Z.of_nat i <? Z.of_nat total - 1
   then emit (ESleep (rate_limit_delay w))
   else ret tt) ;;
  ret profiles'.

Definition scrape_players (identifiers : list str)
  : M (list PlayerProfile) :=
  let* profiles :=
    for_each (enumerate identifiers) (scrape_one (length identifiers))
             [] in
  log INFO ;;
  ret profiles.

(** [ScraperFactory.create_scraper]: the source names it knows. *)
Definition create_scraper (source : str) : result unit :=
  let name := PyStr.lower unicode_lower source in
  if str_eqb name (lit "liquipedia") || str_eqb name (lit "opgg")
  then Ok tt
  else Raise ValueError.

(** *** pipeline.py *)

(** One iteration of the insertion loop. *)
Definition insert_profile (source : str) (profile : PlayerProfile)
           (inserted_count : Z) : M Z :=
  try_catch
    (let raw_data := model_dump isoformat profile in
     insert_bronze_raw raw_data source (profile_url profile) ;;
     ret (inserted_count + 1))
    (fun _ => log ERROR ;; ret inserted_count).

Definition run_scraping_to_bronze (source : str) (identifiers : list str)
  : M Z :=
  log INFO ;;
  lift (create_scraper source) ;;
  log INFO ;;
  let* profiles := scrape_players identifiers in
  let* inserted_count := for_each profiles (insert_profile source) 0 in
  log INFO ;;
  log SUCCESS ;;
  ret inserted_count.

Definition opt_truthy_string (s : option string) : bool :=
  match s with
  | Some t => string_truthy t
  | None => false
  end.

(** The summary line of one player. *)
Definition log_player (player : gmap string PyVal) (_ : unit) : M unit :=
  lift (getitem player "nickname") ;;
  lift (getitem player "country") ;;
  lift (getitem player "rank") ;;
  let* stats := lift (getitem player "stats") in
  lift (get_method stats "win_rate" (PInt 0)) ;;
  log INFO.

Definition verify_silver_data (country game : option string)
  : M (list (gmap string PyVal)) :=
  log INFO ;;
  let* players :=
    if opt_truthy_string country && opt_truthy_string game
    then get_players_by_country (default "" country) game 100
    else if opt_truthy_string country
    then get_players_by_country (default "" country) None 100
    else get_players_by_country "KR" None 100 in
  log SUCCESS ;;
  for_each (slice players 0 5) log_player tt ;;
  ret players.

(** [player['stats'].get('win_rate', 0)]. *)
Definition win_rate_of (player : gmap string PyVal) : result PyVal :=
  (let! stats := getitem player "stats" in
   get_method stats "win_rate" (PInt 0))%result.

(** One iteration of the promotion loop. *)
Definition promote_player (min_win_rate : pyfloat)
           (player : gmap string PyVal) (promoted_count : Z) : M Z :=
  let* win_rate := lift (win_rate_of player) in
  let* reaches := lift (py_ge win_rate min_win_rate) in
  if reaches : bool then
    try_catch
      (let* silver_id := lift (getitem player "id") in
       promote_to_gold silver_id (AutoPromoted win_rate) "system" ;;
       ret (promoted_count + 1))
      (fun _ =>
         lift (getitem player "nickname") ;;
         log ERROR ;;
         ret promoted_count)
  else ret promoted_count.

Definition promote_best_to_gold (min_win_rate : pyfloat) (limit : nat)
  : M Z :=
  log INFO ;;
  let* players := get_players_by_country "KR" None limit in
  let* promoted_count :=
    for_each players (promote_player min_win_rate) 0 in
  log SUCCESS ;;
  ret promoted_count.

(** The keyword arguments of the [PlayerProfile(...)] call of
    [sync_to_airtable]. *)
Definition profile_kwargs (player_data : gmap string PyVal)
  : result (gmap string PyVal) :=
  (let! nickname := getitem player_data "nickname" in
   let! game := getitem player_data "game" in
   let! country := getitem player_data "country" in
   let! server := getitem player_data "server" in
   let! rank := getitem player_data "rank" in
   let! stats := getitem player_data "stats" in
   let! top_champions := getitem player_data "top_champions" in
   let! profile_url := getitem player_data "profile_url" in
   Ok ({[ "nickname" := nickname;
          "game" := game;
          "country" := country;
          "server" := server;
          "rank" := py_or rank (PStr (lit "Unknown"));
          "stats" := stats;
          "top_champions" := top_champions;
          "profile_url" := profile_url ]} : gmap string PyVal))%result.

(** The [PlayerProfile(...)] call of [sync_to_airtable]. *)
Definition rebuild_profile (player_data : gmap string PyVal)
  : M PlayerProfile :=
  let* kwargs := lift (profile_kwargs player_data) in
  let* tr := history in
  lift (new_profile (utcnow w tr) kwargs).

(** One iteration of the conversion loop of a batch. *)
Definition convert_row (player_data : gmap string PyVal)
           (profiles : list PlayerProfile) : M (list PlayerProfile) :=
  try_catch
    (let* profile := rebuild_profile player_data in
     ret (profiles ++ [profile]))
    (fun _ => log ERROR ;; ret profiles).

Definition batch_size : nat := 10.

(** One iteration of the batch loop: the rows from index [i] on. *)
Definition export_batch (players : list (gmap string PyVal)) (i : nat)
           (synced_count : Z) : M Z :=
  let batch := slice players i (i + batch_size) in
  let* profiles := for_each batch convert_row [] in
  match profiles with
  | [] => ret synced_count
  | _ :: _ =>
      try_catch
        (send_players_batch profiles ;;
         ret (synced_count + Z.of_nat (length profiles)))
        (fun _ => log ERROR ;; ret synced_count)
  end.

Definition sync_to_airtable (country game : option string) (limit : nat)
  : M Z :=
  log INFO ;;
  let* players :=
    get_players_by_country
      (if opt_truthy_string country then default "" country else "KR")
      game limit in
  let* synced_count :=
    for_each (range_step (length players) batch_size)
             (export_batch players) 0 in
  log SUCCESS ;;
  ret synced_count.

(** The figures of the closing summary. *)
Record summary := mkSummary {
  bronze_count : Z;
  silver_count : nat;
  gold_count : Z;
  airtable_count : option Z
}.

(** The stages that follow the collecting and inserting stage. *)
Definition later_stages (bronze : Z) (to_airtable : bool) : M summary :=
  emit (ESleep 2) ;;
  let* silver_players := verify_silver_data None None in
  let* gold := promote_best_to_gold (Fin 55) 50 in
  let* airtable :=
    if to_airtable
    then let* n := sync_to_airtable None None 50 in ret (Some n)
    else ret None in
  log INFO ;; log SUCCESS ;; log INFO ;;
  log INFO ;; log INFO ;; log INFO ;;
  (if to_airtable then log INFO else ret tt) ;;
  log INFO ;;
  ret (mkSummary bronze (length silver_players) gold airtable).

Definition run_full_pipeline (source : str) (identifiers : list str)
           (to_airtable : bool) : M summary :=
  log INFO ;; log INFO ;; log INFO ;;
  try_catch
    (let* bronze := run_scraping_to_bronze source identifiers in
     later_stages bronze to_airtable)
    (fun e => log ERROR ;; raise e).

(** *** Observations on rows *)

(** The columns [sync_to_airtable] reads from a row. *)
Definition export_columns : list string :=
  [ "nickname"; "game"; "country"; "server"; "rank"; "stats";
    "top_champions"; "profile_url" ].

(** A row from which [sync_to_airtable] gets a profile, at whatever
    instant. *)
Definition rebuilds (player_data : gmap string PyVal) : Prop :=
  exists kwargs,
    profile_kwargs player_data = Ok kwargs
    /\ forall now, exists profile, new_profile now kwargs = Ok profile.

(** The outcome of the test [win_rate >= min_win_rate] on a row. *)
Definition reaches (min_win_rate : pyfloat) (player : gmap string PyVal)
  : result bool :=
  (let! win_rate := win_rate_of player in
   py_ge win_rate min_win_rate)%result.

Definition qualifies (min_win_rate : pyfloat)
           (player : gmap string PyVal) : bool :=
  match reaches min_win_rate player with
  | Ok b => b
  | Raise _ => false
  end.

Definition id_of (player : gmap string PyVal) : PyVal :=
  default PNone (player !! "id").

(** A row the loop submits and the store accepts. *)
Definition promoted_one (min_win_rate : pyfloat)
           (player : gmap string PyVal) : bool :=
  qualifies min_win_rate player && promote_ok w (id_of player).

(** A row on which the promotion loop cannot raise: its win rate
    compares with a float and it has the columns the loop reads. *)
Definition comparable (min_win_rate : pyfloat)
           (player : gmap string PyVal) : bool :=
  negb (SkillVector.is_raise (reaches min_win_rate player))
  && bool_decide (is_Some (player !! "id"))
  && bool_decide (is_Some (player !! "nickname")).


(** *** Observations on a trace *)


Definition is_insert (e : event) : bool :=
  match e with EInsertBronze _ _ _ => true | _ => false end.
Definition is_query (e : event) : bool :=
  match e with EQuery _ _ _ => true | _ => false end.
Definition is_promote (e : event) : bool :=
  match e with EPromote _ _ _ => true | _ => false end.
Definition is_send (e : event) : bool :=
  match e with ESendBatch _ => true | _ => false end.
Definition is_scrape (e : event) : bool :=
  match e with EScrape _ _ => true | _ => false end.


(** The identifiers handed to the adapter, in call order. *)
Definition scraped (tr : list event) : list str :=
  flat_map (fun e => match e with
                     | EScrape _ identifier => [identifier]
                     | _ => []
                     end) tr.

(** The row ids submitted for promotion, in call order. *)
Definition promoted_ids (tr : list event) : list PyVal :=
  flat_map (fun e => match e with
                     | EPromote silver_id _ _ => [silver_id]
                     | _ => []
                     end) tr.

End WithWorld.

End Pipeline.

(* ===================================================================== *)
(** ** country_detector.py: the region of a country, the signals in order *)
(* ===================================================================== *)

Module CountryRegions.

Import CountryDetector.

(** [country in [a, b, ...]]. *)
Definition country_in (country : CountryCode) (members : list CountryCode)
  : bool :=
  existsb (country_eqb country) members.

Definition get_server_region (country : CountryCode) : string :=
  if country_in country [KOREA; JAPAN] then "East Asia"
  else if country_in country [CHINA; TAIWAN] then "Greater China"
  else if country_in country [INDIA] then "South Asia"
  else if country_in country [VIETNAM; PHILIPPINES; THAILAND; INDONESIA]
  then "Southeast Asia"
  else "Asia Pacific".

(** The first answer in a list of answers. *)
Fixpoint first_some (answers : list (option CountryCode))
  : option CountryCode :=
  match answers with
  | [] => None
  | Some c :: _ => Some c
  | None :: rest => first_some rest
  end.

(** A step applied to an input that may be absent. *)
Definition on_input (step : str -> option CountryCode) (x : option str)
  : option CountryCode :=
  match x with
  | Some t => step t
  | None => None
  end.

(** The six signals of [detect_country], in the order it reads them. *)
Definition signals (unicode_lower : str -> str)
           (profile_text server url additional_text : option str)
  : list (option CountryCode) :=
  [ on_input detect_country_from_flag profile_text;
    on_input (detect_country_from_name unicode_lower) profile_text;
    on_input (detect_country_from_server unicode_lower) server;
    on_input (detect_country_from_url unicode_lower) url;
    on_input detect_country_from_flag additional_text;
    on_input (detect_country_from_name unicode_lower) additional_text ].

(** A white-space character of the ASCII range. *)
Definition ascii_space (c : codepoint) : bool := is_ascii c && is_space c.

End CountryRegions.

(* ===================================================================== *)
(** ** supabase_client.py: what a player query selects *)
(* ===================================================================== *)

Module Queries.

Import Pipeline.

(** The filters of [get_players_by_country]: the country always, the
    game when one is given and is not the empty string. *)
Definition matches (country : string) (game : option string)
           (row : gmap string PyVal) : bool :=
  column_is row "country" country &&
  match game with
  | Some g => if string_truthy g then column_is row "game" g else true
  | None => true
  end.

(** [a] does not come after [b] in the descending order of ranks, in
    which a row without a rank comes before every ranked row. *)
Definition not_after (a b : gmap string PyVal) : bool :=
  negb (key_lt (rank_key a) (rank_key b)).

(** Every row comes before, or ties with, all the rows behind it. *)
Fixpoint descending (rows : list (gmap string PyVal)) : bool :=
  match rows with
  | [] => true
  | a :: rest => forallb (not_after a) rest && descending rest
  end.

End Queries.

(* ===================================================================== *)
(** ** models.py: the bounds the fields declare *)
(* ===================================================================== *)

Module ProfileShape.

Import Models.

(** [ge=0]. *)
Definition nonneg (x : pyfloat) : bool := fle zero x.

(** [ge=0, le=100]. *)
Definition percentage (x : pyfloat) : bool := fle zero x && fle x hundred.

Definition opt_nonneg (x : option pyfloat) : bool :=
  match x with
  | Some y => nonneg y
  | None => true
  end.

Definition champion_in_bounds (c : Champion) : bool :=
  (0 <=? champ_games_played c) && percentage (champ_win_rate c).

Definition stats_in_bounds (s : PlayerStats) : bool :=
  percentage (stat_win_rate s) && nonneg (stat_kda s)
  && opt_nonneg (stat_kills_avg s) && opt_nonneg (stat_deaths_avg s)
  && opt_nonneg (stat_assists_avg s)
  && (1 <=? stat_games_analyzed s) && (stat_games_analyzed s <=? 100).

Definition nickname_in_bounds (s : str) : bool :=
  (1 <=? length s)%nat && (length s <=? 100)%nat && forallb Utf8.scalar s.

Definition profile_in_bounds (p : PlayerProfile) : bool :=
  nickname_in_bounds (nickname p)
  && stats_in_bounds (stats p)
  && (1 <=? length (top_champions p))%nat
  && (length (top_champions p) <=? 3)%nat
  && forallb champion_in_bounds (top_champions p)
  && in_unit (data_quality_score p).

(** The fields of [PlayerProfile] declared with [Field(...)] and no
    default. *)
Definition required_fields : list string :=
  [ "nickname"; "game"; "country"; "server"; "rank"; "stats";
    "top_champions"; "profile_url" ].

End ProfileShape.

(* ===================================================================== *)
(** ** pipeline.py, scrapers.py: observations on the stages *)
(* ===================================================================== *)

Module Footprint.

Import Models Pipeline.

Definition is_sleep (e : event) : bool :=
  match e with ESleep _ => true | _ => false end.

Definition is_log (e : event) : bool :=
  match e with ELog _ => true | _ => false end.

(** Every event a computation adds to the trace is an allowed one. *)
Definition only {A} (allowed : event -> bool) (m : M A) : Prop :=
  forall tr, exists d, snd (m tr) = tr ++ d /\ forallb allowed d = true.

(** The events of each stage. *)
Definition collecting (e : event) : bool :=
  is_scrape e || is_sleep e || is_insert e || is_log e.

Definition reading (e : event) : bool := is_query e || is_log e.

Definition promoting (e : event) : bool :=
  is_query e || is_promote e || is_log e.

Definition exporting (e : event) : bool :=
  is_query e || is_send e || is_log e.

Definition not_send (e : event) : bool := negb (is_send e).

(** The adapter calls and the pauses of a trace, in order. *)
Definition paced (tr : list event) : list event :=
  List.filter (fun e => is_scrape e || is_sleep e) tr.

(** One adapter call per numbered identifier, and a pause between two
    calls. *)
Fixpoint pacing (delay : Z) (items : list (nat * str)) : list event :=
  match items with
  | [] => []
  | item :: rest =>
      EScrape (fst item) (snd item)
      :: match rest with
         | [] => []
         | _ :: _ => ESleep delay :: pacing delay rest
         end
  end.

(** The records handed to the raw store, with the source and the url
    they are filed under, in call order. *)
Definition submitted (tr : list event)
  : list (gmap string PyVal * str * str) :=
  flat_map (fun e => match e with
                     | EInsertBronze raw_data source source_url =>
                         [(raw_data, source, source_url)]
                     | _ => []
                     end) tr.

(** The batches handed to the sink, in call order. *)
Definition sent_batches (tr : list event) : list (list PlayerProfile) :=
  flat_map (fun e => match e with
                     | ESendBatch profiles => [profiles]
                     | _ => []
                     end) tr.

(** The number of profiles in the batches the sink accepted. *)
Definition delivered (w : World) (tr : list event) : Z :=
  Z.of_nat (list_sum (map (@length PlayerProfile)
                          (List.filter (send_batch_ok w)
                                       (sent_batches tr)))).


Section WithOracles.
Variable lax_float_of_str : str -> option pyfloat.
Variable lax_int_of_str : str -> option Z.
Variable lax_datetime : PyVal -> option Z.

(** The profile [sync_to_airtable] gets from a row at instant [now],
    if it gets one. *)
Definition rebuilt (now : Z) (player_data : gmap string PyVal)
  : option PlayerProfile :=
  match profile_kwargs player_data with
  | Ok kwargs =>
      match PlayerProfile_new lax_float_of_str lax_int_of_str
                              lax_datetime now kwargs with
      | Ok profile => Some profile
      | Raise _ => None
      end
  | Raise _ => None
  end.

(** A row from which [sync_to_airtable] gets a profile. *)
Definition converts (player_data : gmap string PyVal) : bool :=
  match rebuilt 0 player_data with
  | Some _ => true
  | None => false
  end.
End WithOracles.

(** A row the summary lines of [verify_silver_data] can be written
    for. *)
Definition loggable (player : gmap string PyVal) : bool :=
  bool_decide (is_Some (player !! "nickname"))
  && bool_decide (is_Some (player !! "country"))
  && bool_decide (is_Some (player !! "rank"))
  && match player !! "stats" with
     | Some (PDict _) => true
     | _ => false
     end.

(** The country and the game [verify_silver_data] queries for: the
    game counts only beside a country, and without a country the
    query is for KR. *)
Definition verified_country (country : option string) : string :=
  if opt_truthy_string country then default "" country else "KR".

Definition verified_game (country game : option string) : option string :=
  if opt_truthy_string country && opt_truthy_string game then game
  else None.

End Footprint.

(* ===================================================================== *)
(** ** skill_vector_embeddings.py: the literal of a vector and the job *)
(* ===================================================================== *)

(** Computations with a trace of events of any kind, and exceptions. *)
Module Eff.

Section WithEvent.
Context {E : Type}.

Definition T (A : Type) : Type := list E -> result A * list E.

Definition ret {A} (a : A) : T A := fun tr => (Ok a, tr).

Definition raise {A} (e : exn) : T A := fun tr => (Raise e, tr).

Definition bind {A B} (m : T A) (k : A -> T B) : T B :=
  fun tr =>
    match m tr with
    | (Ok a, tr') => k a tr'
    | (Raise e, tr') => (Raise e, tr')
    end.

(** [try: body except Exception as e: handler]. *)
Definition try_catch {A} (body : T A) (handler : exn -> T A) : T A :=
  fun tr =>
    match body tr with
    | (Ok a, tr') => (Ok a, tr')
    | (Raise e, tr') => handler e tr'
    end.

Definition emit (e : E) : T unit := fun tr => (Ok tt, tr ++ [e]).

Definition lift {A} (r : result A) : T A := fun tr => (r, tr).

(** [for x in items: s = body(x, s)]. *)
Fixpoint for_each {A S} (items : list A) (body : A -> S -> T S) (s : S)
  : T S :=
  match items with
  | [] => ret s
  | x :: rest => bind (body x s) (fun s' => for_each rest body s')
  end.
End WithEvent.

Declare Scope eff_scope.
Delimit Scope eff_scope with eff.
Notation "'let+' x ':=' m 'in' k" := (bind m (fun x => k))
  (at level 10, x name, m at level 100, k at level 200) : eff_scope.
Notation "m ';;;' k" := (bind m (fun _ => k))
  (at level 100, k at level 200, right associativity) : eff_scope.

End Eff.

Module SkillJob.

Import Models SkillVector.

(** *** [format_pgvector] *)

(** The character of a decimal digit. *)
Definition digit (d : Z) : codepoint := Z.to_N (48 + d).

(** The last [width] decimal digits of a natural number. *)
Fixpoint fixed_digits (width : nat) (n : Z) : str :=
  match width with
  | O => []
  | S w => fixed_digits w (n / 10) ++ [digit (n mod 10)]
  end.

Fixpoint uint_digits (u : Decimal.uint) : str :=
  match u with
  | Decimal.Nil => []
  | Decimal.D0 r => digit 0 :: uint_digits r
  | Decimal.D1 r => digit 1 :: uint_digits r
  | Decimal.D2 r => digit 2 :: uint_digits r
  | Decimal.D3 r => digit 3 :: uint_digits r
  | Decimal.D4 r => digit 4 :: uint_digits r
  | Decimal.D5 r => digit 5 :: uint_digits r
  | Decimal.D6 r => digit 6 :: uint_digits r
  | Decimal.D7 r => digit 7 :: uint_digits r
  | Decimal.D8 r => digit 8 :: uint_digits r
  | Decimal.D9 r => digit 9 :: uint_digits r
  end.

(** A natural number in decimal, without leading zeros. *)
Definition decimal (n : Z) : str := uint_digits (N.to_uint (Z.to_N n)).

Definition million : Z := 1000000.

(** [f"{v:.6f}"]: the sign, the integer part, a point and six
    decimals, the value being rounded to the nearest millionth, ties to
    even; the special values print as words. *)
Definition format_6f (v : pyfloat) : str :=
  match v with
  | Fin q =>
      let magnitude := if Qneg_b q then Qopp q else q in
      let scaled := round_half_even (magnitude * inject_Z million) in
      (if Qneg_b q then lit "-" else [])
        ++ decimal (scaled / million) ++ lit "."
        ++ fixed_digits 6 (scaled mod million)
  | PosInf => lit "inf"
  | NegInf => lit "-inf"
  | NaN => lit "nan"
  end.

(** [sep.join(parts)]. *)
Fixpoint join (sep : str) (parts : list str) : str :=
  match parts with
  | [] => []
  | p :: rest =>
      match rest with
      | [] => p
      | _ :: _ => p ++ sep ++ join sep rest
      end
  end.

Definition format_pgvector (vector : list pyfloat) : str :=
  lit "[" ++ join (lit ",") (map format_6f vector) ++ lit "]".

(** *** The job *)

Inductive event :=
  | EFetch (limit : nat) (country game : option string)
  | EUpdateById (player_id : PyVal) (skill_vector : str)
  | EUpdateByIdentity (nickname game country_code : PyVal)
                      (skill_vector : str)
  | ELog (level : Pipeline.log_level).

(** What an update answers: rows in [response.data], none, or the call
    raises. *)
Inductive update_outcome := Matched | Unmatched | UpdateRaises.

(** The store: the normalized table, and what the analytics table
    answers to an update keyed by player id (the id is sent as its
    text) and to one keyed by nickname, game and country. *)
Record Store := mkStore {
  silver_players : result (list (gmap string PyVal));
  update_by_id : PyVal -> str -> update_outcome;
  update_by_identity : PyVal -> PyVal -> PyVal -> str -> update_outcome
}.

Definition M := @Eff.T event.

Import Eff.
Local Open Scope eff_scope.

Definition log (level : Pipeline.log_level) : M unit := emit (ELog level).

(** [player.get(key)]. *)
Definition get (player : gmap string PyVal) (key : string) : PyVal :=
  default PNone (player !! key).

Section WithStore.
Variable float_of_str : str -> option pyfloat.
Variable store : Store.

(** The rows the query of [fetch_silver_players] selects: the
    country and the game filter only when given and not empty. *)
Definition select_silver (table : list (gmap string PyVal))
           (limit : nat) (country game : option string)
  : list (gmap string PyVal) :=
  let by_country :=
    if Pipeline.opt_truthy_string country
    then List.filter
           (fun row => Pipeline.column_is row "country"
                                          (default "" country)) table
    else table in
  let by_game :=
    if Pipeline.opt_truthy_string game
    then List.filter
           (fun row => Pipeline.column_is row "game" (default "" game))
           by_country
    else by_country in
  firstn limit by_game.

Definition fetch_silver_players (limit : nat)
           (country game : option string)
  : M (list (gmap string PyVal)) :=
  emit (EFetch limit country game) ;;;
  let+ table := lift (silver_players store) in
  ret (select_silver table limit country game).

(** The answer of an update, as [bool(response.data)]. *)
Definition answered (o : update_outcome) : M bool :=
  match o with
  | Matched => ret true
  | Unmatched => ret false
  | UpdateRaises => raise CollaboratorError
  end.

Definition update_skill_vector (player : gmap string PyVal)
           (vector : list pyfloat) (dry_run : bool) : M bool :=
  let vector_payload := format_pgvector vector in
  if dry_run then log Pipeline.INFO ;;; ret true
  else
    let player_id := get player "id" in
    emit (EUpdateById player_id vector_payload) ;;;
    let+ found := answered (update_by_id store player_id vector_payload) in
    if found : bool then ret true
    else
      emit (EUpdateByIdentity (get player "nickname") (get player "game")
                              (get player "country") vector_payload) ;;;
      answered (update_by_identity store (get player "nickname")
                                   (get player "game")
                                   (get player "country") vector_payload).

(** [compute_skill_vector] on whatever value [stats] is: the guarded
    reads fall back to their default on a value without [get], the
    first bare [stats.get] raises. *)
Definition compute_on (stats top_champions : PyVal)
  : result (list pyfloat) :=
  match stats with
  | PDict d => compute_skill_vector float_of_str d top_champions
  | _ => Raise AttributeError
  end.

(** One iteration of the loop of [run], on the counters [updated]
    and [skipped]. *)
Definition process_player (dry_run : bool) (player : gmap string PyVal)
           (counts : Z * Z) : M (Z * Z) :=
  let stats := Pipeline.py_or (get player "stats") (PDict ∅) in
  let top_champions :=
    Pipeline.py_or (get player "top_champions") (PList []) in
  let+ vector := lift (compute_on stats top_champions) in
  let+ success := update_skill_vector player vector dry_run in
  if success : bool then ret (fst counts + 1, snd counts)
  else log Pipeline.WARNING ;;; ret (fst counts, snd counts + 1).

(** [run]: the figures of its closing line. The first line is the
    one the store client logs when it is made. *)
Definition run (limit : nat) (country game : option string)
           (dry_run : bool) : M (Z * Z) :=
  log Pipeline.INFO ;;;
  let+ players := fetch_silver_players limit country game in
  log Pipeline.INFO ;;;
  let+ counts := for_each players (process_player dry_run) (0, 0) in
  log Pipeline.SUCCESS ;;;
  ret counts.

(** *** Observations *)

Definition is_update (e : event) : bool :=
  match e with
  | EUpdateById _ _ | EUpdateByIdentity _ _ _ _ => true
  | _ => false
  end.

(** The vector of a row, when it has one. *)
Definition vector_of (player : gmap string PyVal)
  : result (list pyfloat) :=
  compute_on (Pipeline.py_or (get player "stats") (PDict ∅))
             (Pipeline.py_or (get player "top_champions") (PList [])).

(** A row on which neither the vector nor an update raises. *)
Definition settles (player : gmap string PyVal) : bool :=
  match vector_of player with
  | Ok vector =>
      let payload := format_pgvector vector in
      match update_by_id store (get player "id") payload with
      | Matched => true
      | Unmatched =>
          match update_by_identity store (get player "nickname")
                                   (get player "game")
                                   (get player "country") payload with
          | UpdateRaises => false
          | _ => true
          end
      | UpdateRaises => false
      end
  | Raise _ => false
  end.

(** A row one of the two updates finds in the analytics table. *)
Definition found (player : gmap string PyVal) : bool :=
  match vector_of player with
  | Ok vector =>
      let payload := format_pgvector vector in
      match update_by_id store (get player "id") payload with
      | Matched => true
      | Unmatched =>
          match update_by_identity store (get player "nickname")
                                   (get player "game")
                                   (get player "country") payload with
          | Matched => true
          | _ => false
          end
      | UpdateRaises => false
      end
  | Raise _ => false
  end.

(** The updates keyed by identity that a trace holds. *)
Definition fallbacks (tr : list event) : nat :=
  length (List.filter (fun e => match e with
                                | EUpdateByIdentity _ _ _ _ => true
                                | _ => false
                                end) tr).

Definition id_updates (tr : list event) : nat :=
  length (List.filter (fun e => match e with
                                | EUpdateById _ _ => true
                                | _ => false
                                end) tr).

(** A row whose id the analytics table does not know. *)
Definition unmatched_by_id (player : gmap string PyVal) : bool :=
  match vector_of player with
  | Ok vector =>
      match update_by_id store (get player "id")
                         (format_pgvector vector) with
      | Unmatched => true
      | _ => false
      end
  | Raise _ => false
  end.
End WithStore.

End SkillJob.

(* ===================================================================== *)
(** ** bronze_ingestion.py: the leaderboard collector and the ingestion *)
(* ===================================================================== *)

Module BronzeRun.

Import Models BronzeIngestion.

(** [safe_extract_text] on a text. *)
Definition safe_extract_text (element default : str) : str :=
  if truthy element then strip element else default.

(** What the page gives for one leaderboard row: a query on it raises,
    or it yields the texts of the name, tier and points elements, each
    absent when the row has no such element. *)
Inductive opgg_row :=
  | RowRaises
  | RowTexts (nickname rank lp : option str).

(** What the leaderboard page gives as a whole: loading it or querying
    it raises, or it yields the rows that carry a summoner id and the
    rows of the ranked-player class. *)
Inductive opgg_outcome :=
  | OpggFails
  | OpggRows (by_attribute by_class : list opgg_row).

Section WithRegion.
Variable unicode_lower : str -> str.
(** [self.region]; the timestamp text written at the i-th row. *)
Variable region : str.
Variable utcnow_text : nat -> str.

Definition opgg_url : str :=
  lit "https://" ++ lower unicode_lower region
      ++ lit ".op.gg/leaderboards/tier?region="
      ++ lower unicode_lower region.

(** [self.detect_asian_characters(text)["has_asian"]]. *)
Definition has_asian (text : str) : PyVal :=
  default PNone (detect_asian_characters text !! "has_asian").

(** The raw record of the i-th row. *)
Definition opgg_record (i : nat) (nickname rank lp : str)
  : gmap string PyVal :=
  {[ "nickname" :=
       PStr (safe_extract_text
               nickname
               (lit "Player_" ++ SkillJob.decimal (Z.of_nat i)));
     "player_id" := PStr (safe_extract_text nickname []);
     "region" := PStr region;
     "country" := PStr region;
     "rank" := PStr (safe_extract_text rank []);
     "lp" := PStr (safe_extract_text lp []);
     "game" := PStr (lit "LOL");
     "server" := PStr region;
     "profile_url" := PStr opgg_url;
     "scraped_at" := PStr (utcnow_text i);
     "data_source" := PStr (lit "opgg");
     "has_asian_characters" := has_asian nickname ]}.

(** The body of the [try] of one iteration. *)
Definition opgg_row_body (item : nat * opgg_row) (st : collector)
  : result collector :=
  match snd item with
  | RowRaises => Raise CollaboratorError
  | RowTexts nickname rank lp =>
      let raw_data :=
        opgg_record (fst item) (default [] nickname) (default [] rank)
                    (default [] lp) in
      Ok (mkCollector (players_data st ++ [raw_data])
                      (scraped_count st + 1) (error_count st))
  end.

(** One iteration: [try: ... except Exception: self.error_count += 1]. *)
Definition process_opgg_row (item : nat * opgg_row) (st : collector)
  : collector :=
  match opgg_row_body item st with
  | Ok st' => st'
  | Raise _ =>
      mkCollector (players_data st) (scraped_count st) (error_count st + 1)
  end.

(** [enumerate(items, 1)]. *)
Definition enumerate_from_1 {A} (items : list A) : list (nat * A) :=
  combine (seq 1 (length items)) items.

(** [scrape_opgg_ranking]: the returned list and the counters of the
    scraper after the call. *)
Definition scrape_opgg_ranking (page : opgg_outcome) (limit : nat)
           (st : collector) : list (gmap string PyVal) * collector :=
  match page with
  | OpggFails => ([], st)
  | OpggRows by_attribute by_class =>
      let player_rows :=
        match by_attribute with
        | [] => by_class
        | _ :: _ => by_attribute
        end in
      let st0 := mkCollector [] (scraped_count st) (error_count st) in
      let st' :=
        fold_left (fun s item => process_opgg_row item s)
                  (enumerate_from_1 (firstn limit player_rows)) st0 in
      (players_data st', st')
  end.

(** The records of the rows that do not raise, in order. *)
Definition opgg_records (items : list (nat * opgg_row))
  : list (gmap string PyVal) :=
  flat_map (fun item =>
              match snd item with
              | RowRaises => []
              | RowTexts nickname rank lp =>
                  [opgg_record (fst item) (default [] nickname)
                               (default [] rank) (default [] lp)]
              end) items.

Definition row_raises (row : opgg_row) : bool :=
  match row with
  | RowRaises => true
  | RowTexts _ _ _ => false
  end.

(** The rows [scrape_opgg_ranking] visits. *)
Definition visited (page : opgg_outcome) (limit : nat) : list opgg_row :=
  match page with
  | OpggFails => []
  | OpggRows by_attribute by_class =>
      firstn limit match by_attribute with
                   | [] => by_class
                   | _ :: _ => by_attribute
                   end
  end.
End WithRegion.

(** *** [_extract_player_from_cells] *)

(** What the search for a flag image in a cell gives: a query raises,
    there is no such image, or there is one, with its [alt] attribute
    if it has one. *)
Inductive flag_lookup :=
  | FlagRaises
  | NoFlagImage
  | FlagAlt (alt : option str).

(** A table cell: its text ([None] when reading it raises) and its
    flag image. *)
Record cell := mkCell {
  inner_text : option str;
  flag : flag_lookup
}.

Definition text_of (c : cell) : result str :=
  match inner_text c with
  | Some t => Ok t
  | None => Raise CollaboratorError
  end.

(** The loop over the first cells: the [alt] text of the first flag
    image that has a non-empty one, the empty text when there is
    none. *)
Fixpoint find_flag (cells : list cell) : result str :=
  match cells with
  | [] => Ok []
  | c :: rest =>
      match flag c with
      | FlagRaises => Raise CollaboratorError
      | NoFlagImage => find_flag rest
      | FlagAlt alt =>
          if opt_truthy alt then Ok (default [] alt) else find_flag rest
      end
  end.

Section Extraction.
Variable unicode_lower : str -> str.
(** [self.region], [self.scraped_count] and the timestamp text. *)
Variable region : str.
Variable scraped : Z.
Variable now_text : str.

(** The body of the [try]. *)
Definition extract_body (cells : list cell) (source_url : str)
  : result (gmap string PyVal) :=
  (let! nickname :=
     match cells with
     | c0 :: _ =>
         let! cell_text := text_of c0 in
         Ok (safe_extract_text cell_text
                               (lit "Player_" ++ SkillJob.decimal scraped))
     | [] => Ok []
     end in
   let! player_id :=
     match cells with
     | _ :: c1 :: _ =>
         let! cell_text := text_of c1 in
         Ok (if truthy (strip cell_text)
             then safe_extract_text cell_text [] else [])
     | _ => Ok []
     end in
   let! country := find_flag (firstn 5 cells) in
   let! team :=
     match cells with
     | _ :: _ :: c2 :: _ =>
         let! team_cell := text_of c2 in
         Ok (safe_extract_text team_cell [])
     | _ => Ok []
     end in
   let detected_country :=
     CountryDetector.detect_country
       unicode_lower (Some (nickname ++ lit " " ++ country))
       (Some (lower unicode_lower region)) (Some source_url) None in
   Ok ({[ "nickname" := PStr nickname;
          "player_id" :=
            PStr (if truthy player_id then player_id else nickname);
          "region" := PStr region;
          "country" := PStr (lit (country_value detected_country));
          "rank" := PStr [];
          "team" := PStr team;
          "game" := PStr (lit "LOL");
          "server" := PStr region;
          "profile_url" := PStr source_url;
          "scraped_at" := PStr now_text;
          "data_source" := PStr (lit "liquipedia");
          "raw_country_text" := PStr country;
          "has_asian_characters" :=
            default PNone
                    (detect_asian_characters nickname !! "has_asian") ]}
       : gmap string PyVal))%result.

(** [try: ... except Exception: return None]. *)
Definition _extract_player_from_cells (cells : list cell)
           (source_url : str) : option (gmap string PyVal) :=
  match extract_body cells source_url with
  | Ok raw_data => Some raw_data
  | Raise _ => None
  end.

(** The outcome of a table row whose cell query answers with
    [cells]. *)
Definition row_of_cells (cells : list cell) (source_url : str)
  : row_outcome :=
  Cells (length cells) (_extract_player_from_cells cells source_url).
End Extraction.

(** *** Inserting and the run *)

(** The trace holds the pages opened, the records handed to the raw
    store and the lines logged; the pauses after a page is loaded are
    not in it. *)
Inductive event :=
  | EOpen (url : str)
  | EInsert (raw_data : gmap string PyVal) (source source_url : PyVal)
  | ELog (level : Pipeline.log_level).

Definition M := @Eff.T event.

Import Eff.
Local Open Scope eff_scope.

Definition log (level : Pipeline.log_level) : M unit := emit (ELog level).

(** [player.get(key, dflt)]. *)
Definition get (player : gmap string PyVal) (key : string) (dflt : PyVal)
  : PyVal :=
  default dflt (player !! key).

Section WithStore.
Variable unicode_lower : str -> str.
Variable region : str.
Variable utcnow_text : nat -> str.
(** What the pages give, and whether the raw store accepts a record
    ([false] stands for the call raising). *)
Variable liquipedia_page : page_outcome.
Variable opgg_page : opgg_outcome.
Variable insert_ok : gmap string PyVal -> bool.

Definition insert_bronze_raw (raw_data : gmap string PyVal)
           (source source_url : PyVal) : M unit :=
  emit (EInsert raw_data source source_url) ;;;
  if insert_ok raw_data then log Pipeline.SUCCESS
  else (log Pipeline.ERROR ;;; raise CollaboratorError).

(** One iteration of the loop of [insert_to_bronze], on the count of
    inserted records and the error counter of the scraper. *)
Definition insert_one (item : nat * gmap string PyVal) (acc : Z * Z)
  : M (Z * Z) :=
  let player := snd item in
  try_catch
    (insert_bronze_raw player
                       (get player "data_source" (PStr (lit "unknown")))
                       (get player "profile_url" (PStr [])) ;;;
     (if (fst item mod 20 =? 0)%nat then log Pipeline.INFO else ret tt) ;;;
     ret (fst acc + 1, snd acc))
    (fun _ => log Pipeline.WARNING ;;; ret (fst acc, snd acc + 1)).

Definition insert_to_bronze (records : list (gmap string PyVal))
           (st : collector) : M (Z * collector) :=
  log Pipeline.INFO ;;;
  let+ acc := for_each (enumerate_from_1 records) insert_one
                       (0, error_count st) in
  log Pipeline.SUCCESS ;;;
  ret (fst acc,
       mkCollector (players_data st) (scraped_count st) (snd acc)).

Definition liquipedia_url (game ranking_page : str) : str :=
  lit "https://liquipedia.net/" ++ game ++ lit "/" ++ ranking_page.

(** The line of the sample of one record. *)
Definition log_sample (player : gmap string PyVal) (_ : unit) : M unit :=
  lift (Pipeline.getitem player "nickname") ;;;
  lift (Pipeline.getitem player "rank") ;;;
  lift (Pipeline.getitem player "country") ;;;
  log Pipeline.INFO.

Definition emit_lines (levels : list Pipeline.log_level) : M unit :=
  for_each levels (fun level _ => log level) tt.

(** The line the ranking-table collector logs for the i-th row: a
    debug line when the row raises or nothing is extracted from it,
    a progress line at every tenth row when the row is kept. *)
Definition liquipedia_row_lines (item : nat * row_outcome)
  : list Pipeline.log_level :=
  match snd item with
  | QueryRaises => [Pipeline.DEBUG]
  | Cells cells extracted =>
      if (cells <? 2)%nat then []
      else
        match extracted with
        | None => [Pipeline.DEBUG]
        | Some _ =>
            if raises (snd item) then [Pipeline.DEBUG]
            else
              match accepted (snd item) with
              | Some _ =>
                  if (fst item mod 10 =? 0)%nat then [Pipeline.INFO]
                  else []
              | None => []
              end
        end
  end.

(** [scrape_liquipedia_ranking] with the page it opens and the lines
    it logs. *)
Definition scrape_liquipedia_traced (game : str) (st : collector)
  : M (list (gmap string PyVal) * collector) :=
  log Pipeline.INFO ;;;
  emit (EOpen (liquipedia_url game (lit "Portal:Players"))) ;;;
  match liquipedia_page with
  | PageFails => log Pipeline.ERROR
  | NoTables => log Pipeline.WARNING
  | Table rows =>
      log Pipeline.INFO ;;;
      emit_lines (flat_map liquipedia_row_lines
                           (enumerate_from_1 (tail rows))) ;;;
      log Pipeline.SUCCESS
  end ;;;
  ret (scrape_liquipedia_ranking liquipedia_page st).

(** [scrape_opgg_ranking] with the page it opens and the lines it
    logs. *)
Definition scrape_opgg_traced (limit : nat) (st : collector)
  : M (list (gmap string PyVal) * collector) :=
  log Pipeline.INFO ;;;
  emit (EOpen (opgg_url unicode_lower region)) ;;;
  match opgg_page with
  | OpggFails => log Pipeline.ERROR
  | OpggRows _ _ =>
      log Pipeline.INFO ;;;
      emit_lines (flat_map (fun row => if row_raises row
                                       then [Pipeline.DEBUG] else [])
                           (visited opgg_page limit)) ;;;
      log Pipeline.SUCCESS
  end ;;;
  ret (scrape_opgg_ranking unicode_lower region utcnow_text
                           opgg_page limit st).

(** [run_ingestion]: the counters of the scraper after the run. *)
Definition run_ingestion (source game : str) (limit : nat)
           (st : collector) : M collector :=
  log Pipeline.INFO ;;; log Pipeline.INFO ;;; log Pipeline.INFO ;;;
  log Pipeline.INFO ;;; log Pipeline.INFO ;;; log Pipeline.INFO ;;;
  try_catch
    (let+ scraped :=
       if str_eqb (lower unicode_lower source) (lit "liquipedia") then
         scrape_liquipedia_traced game st
       else if str_eqb (lower unicode_lower source) (lit "opgg") then
         scrape_opgg_traced limit st
       else raise ValueError in
     match fst scraped with
     | [] => log Pipeline.WARNING ;;; ret (snd scraped)
     | _ :: _ =>
         log Pipeline.INFO ;;;
         for_each (firstn 3 (fst scraped)) log_sample tt ;;;
         let+ inserted := insert_to_bronze (fst scraped) (snd scraped) in
         log Pipeline.INFO ;;; log Pipeline.SUCCESS ;;;
         log Pipeline.INFO ;;; log Pipeline.INFO ;;; log Pipeline.INFO ;;;
         log Pipeline.INFO ;;; log Pipeline.INFO ;;; log Pipeline.INFO ;;;
         ret (snd inserted)
     end)
    (fun e => log Pipeline.ERROR ;;; raise e).

(** *** Observations *)

(** The records handed to the raw store, in call order. *)
Definition submitted (tr : list event)
  : list (gmap string PyVal * PyVal * PyVal) :=
  flat_map (fun e => match e with
                     | EInsert raw_data source source_url =>
                         [(raw_data, source, source_url)]
                     | _ => []
                     end) tr.

(** The pages opened, in call order. *)
Definition opened (tr : list event) : list str :=
  flat_map (fun e => match e with
                     | EOpen url => [url]
                     | _ => []
                     end) tr.

Definition warnings (tr : list event) : nat :=
  length (List.filter (fun e => match e with
                                | ELog Pipeline.WARNING => true
                                | _ => false
                                end) tr).

(** What the collectors return on a source name the run knows. *)
Definition collected (source : str) (limit : nat) (st : collector)
  : option (list (gmap string PyVal) * collector) :=
  if str_eqb (lower unicode_lower source) (lit "liquipedia")
  then Some (scrape_liquipedia_ranking liquipedia_page st)
  else if str_eqb (lower unicode_lower source) (lit "opgg")
  then Some (scrape_opgg_ranking unicode_lower region utcnow_text
                                 opgg_page limit st)
  else None.

Definition refused (player : gmap string PyVal) : bool :=
  negb (insert_ok player).

(** The source and the url a record is filed under. *)
Definition filed (player : gmap string PyVal)
  : gmap string PyVal * PyVal * PyVal :=
  (player, get player "data_source" (PStr (lit "unknown")),
   get player "profile_url" (PStr [])).

(** A record whose sample line can be written. *)
Definition has_sample_fields (player : gmap string PyVal) : bool :=
  bool_decide (is_Some (player !! "nickname"))
  && bool_decide (is_Some (player !! "rank"))
  && bool_decide (is_Some (player !! "country")).
End WithStore.

End BronzeRun.

(* ===================================================================== *)
(** ** Sample data *)
(* ===================================================================== *)

Module Samples.

(** A Korean flag next to the name of Japan. *)
Definition flag_and_name : str :=
  lit "pro player " ++ [0x1F1F0; 0x1F1F7]%N ++ lit " from japan".

(** The Japanese flag followed by the Korean one. *)
Definition two_flags : str :=
  [0x1F1EF; 0x1F1F5; 0x20; 0x1F1F0; 0x1F1F7]%N.

(** The Japanese flag next to the Hong Kong one. *)
Definition adjacent_flags : str :=
  [0x1F1EF; 0x1F1F5; 0x1F1ED; 0x1F1F0]%N.

(** Stats whose aggressiveness is a label. *)
Definition stats_with_label : gmap string PyVal :=
  {[ "aggressiveness" := PStr (lit "high") ]}.


Definition stats_kda_999 : gmap string PyVal :=
  {[ "kda" := PInt 999; "win_rate" := PFloat (Fin (585 # 10)) ]}.

(** The constructor arguments of a profile with a Hangul nickname. *)
Definition champion_args (name : string) (games : Z) : PyVal :=
  PDict {[ "name" := PStr (lit name); "games_played" := PInt games;
           "win_rate" := PFloat (Fin 60) ]}.

Definition hangul_nickname : str := [0xD398; 0xC774; 0xCEE4]%N.

Definition hangul_args : gmap string PyVal :=
  {[ "nickname" := PStr hangul_nickname;
     "game" := PStr (lit "LOL");
     "country" := PStr (lit "KR");
     "server" := PStr (lit "KR");
     "rank" := PStr (lit "Challenger");
     "stats" := PDict {[ "win_rate" := PFloat (Fin (585 # 10));
                         "kda" := PFloat (Fin (42 # 10));
                         "games_analyzed" := PInt 100 ]};
     "top_champions" := PList [champion_args "Yasuo" 50;
                               champion_args "Zed" 30];
     "profile_url" := PStr (lit "https://kr.op.gg/summoners/kr/faker") ]}.

(** The oracles of the examples: no lax coercion is exercised in them. *)
Definition no_float (s : str) : option pyfloat := None.
Definition no_int (s : str) : option Z := None.
Definition no_datetime (v : PyVal) : option Z := None.
Definition iso_text (t : Z) : str := lit "1970-01-01T00:00:00".
Definition same_text (s : str) : str := s.

(** The profile the arguments above construct at instant 0. *)
Definition champion (name : string) (games : Z) : Models.Champion :=
  Models.mkChampion (lit name) games (Fin 60).

Definition hangul_profile : Models.PlayerProfile :=
  Models.mkPlayerProfile
    hangul_nickname LEAGUE_OF_LEGENDS KOREA (lit "KR") (lit "Challenger")
    None
    (Models.mkPlayerStats (Fin (585 # 10)) (Fin (42 # 10)) None None None
                          100)
    [champion "Yasuo" 50; champion "Zed" 30]
    (lit "https://kr.op.gg/summoners/kr/faker") 0 (Fin 1).

(** A normalized row. *)
Definition silver_row (id : Z) (country : string) (win_rate : PyVal)
  : gmap string PyVal :=
  {[ "id" := PInt id;
     "nickname" := PStr hangul_nickname;
     "game" := PStr (lit "LOL");
     "country" := PStr (lit country);
     "server" := PStr (lit "KR");
     "rank" := PStr (lit "Challenger");
     "rank_numeric" := PInt id;
     "stats" := PDict {[ "win_rate" := win_rate;
                         "kda" := PFloat (Fin (42 # 10)) ]};
     "top_champions" := PList [champion_args "Yasuo" 50];
     "profile_url" := PStr (lit "https://kr.op.gg/summoners/kr/faker") ]}.

(** A world whose adapter finds nobody, whose store holds [table] and
    accepts every call, and whose sink accepts every batch. *)
Definition store_world (table : list (gmap string PyVal)) : Pipeline.World :=
  Pipeline.mkWorld (fun _ _ => Pipeline.ScrapeNone) 2 (fun _ => true)
                   (fun _ => Ok table) (fun _ => true) (fun _ => true)
                   (fun _ => 0).

(** A world whose adapter fails on the third identifier only. *)
Definition third_fails (failure : Pipeline.scrape_outcome) : Pipeline.World :=
  Pipeline.mkWorld
    (fun i _ => if (i =? 2)%nat then failure
                else Pipeline.ScrapeProfile hangul_profile)
    2 (fun _ => true) (fun _ => Ok []) (fun _ => true) (fun _ => true)
    (fun _ => 0).

Definition five_identifiers : list str :=
  [lit "Faker"; lit "Chovy"; lit "ShowMaker"; lit "Canyon"; lit "Keria"].

(** Table rows of a ranking page. *)
Definition good_row (nick : string) : BronzeIngestion.row_outcome :=
  BronzeIngestion.Cells 3 (Some {[ "nickname" := PStr (lit nick) ]}).


Definition five_rows (third : BronzeIngestion.row_outcome)
  : list BronzeIngestion.row_outcome :=
  [good_row "Faker"; good_row "Chovy"; third; good_row "Canyon";
   good_row "Keria"].

(** Twenty-three rows of country KR. *)
Definition table_23 : list (gmap string PyVal) :=
  map (fun i => silver_row (Z.of_nat i) "KR" (PInt 60)) (seq 1 23).

(** Two rows on either side of the default threshold. *)
Definition boundary_table : list (gmap string PyVal) :=
  [ silver_row 1 "KR" (PFloat (Fin (549 # 10)));
    silver_row 2 "KR" (PFloat (Fin 55)) ].

(** A row of another country, above the threshold. *)
Definition vietnam_row : gmap string PyVal :=
  silver_row 7 "VN" (PFloat (Fin 60)).

(** Constructor arguments with four champions. *)
Definition four_champion_items : list PyVal :=
  [champion_args "Yasuo" 50; champion_args "Zed" 30;
   champion_args "Lee Sin" 20; champion_args "Ahri" 10].

Definition four_champion_args : gmap string PyVal :=
  <[ "top_champions" := PList four_champion_items ]> hangul_args.

(** A reader of timestamps that knows the text [iso_text] writes. *)
Definition epoch_datetime (v : PyVal) : option Z :=
  match v with
  | PStr s => if str_eqb s (iso_text 0) then Some 0 else None
  | _ => None
  end.

(** Three rows of country KR; the win rate of the second in rank is a
    text. *)
Definition text_win_rate_table : list (gmap string PyVal) :=
  [ silver_row 1 "KR" (PInt 70);
    silver_row 2 "KR" (PStr (lit "n/a"));
    silver_row 3 "KR" (PInt 60) ].

(** Three rows of country KR; the second has an empty nickname. *)
Definition mixed_table : list (gmap string PyVal) :=
  [ silver_row 1 "KR" (PInt 60);
    <[ "nickname" := PStr [] ]> (silver_row 2 "KR" (PInt 60));
    silver_row 3 "KR" (PInt 60) ].

(** An analytics table that knows the player of id 1 only, and a
    normalized table of three rows; the stats of [labelled_row] carry
    an aggressiveness that is a label. *)
Definition analytics_store (table : list (gmap string PyVal))
  : SkillJob.Store :=
  SkillJob.mkStore
    (Ok table)
    (fun player_id _ =>
       match player_id with
       | PInt 1 => SkillJob.Matched
       | _ => SkillJob.Unmatched
       end)
    (fun _ _ _ _ => SkillJob.Unmatched).

Definition three_rows : list (gmap string PyVal) :=
  [ silver_row 1 "KR" (PInt 60); silver_row 2 "KR" (PInt 60);
    silver_row 3 "KR" (PInt 60) ].

Definition labelled_row : gmap string PyVal :=
  <[ "stats" := PDict stats_with_label ]> (silver_row 2 "KR" (PInt 60)).

(** Two leaderboard rows, the second raising, and a raw store that
    refuses the records without a rank. *)
Definition leaderboard : BronzeRun.opgg_outcome :=
  BronzeRun.OpggRows
    [ BronzeRun.RowTexts (Some hangul_nickname) (Some (lit "Challenger"))
                         (Some (lit "1200 LP"));
      BronzeRun.RowRaises;
      BronzeRun.RowTexts (Some (lit "Chovy")) None None ]
    [].

Definition ranked_only (record : gmap string PyVal) : bool :=
  match record !! "rank" with
  | Some (PStr (_ :: _)) => true
  | _ => false
  end.

(** The timestamp text of every row. *)
Definition iso_text_at (i : nat) : str := iso_text 0.

(** The cells of a table row whose second cell cannot be read. *)
Definition unreadable_cells : list BronzeRun.cell :=
  [ BronzeRun.mkCell (Some hangul_nickname) BronzeRun.NoFlagImage;
    BronzeRun.mkCell None BronzeRun.NoFlagImage ].

Definition players_page : str :=
  lit "https://liquipedia.net/leagueoflegends/Portal:Players".


End Samples.

(* ===================================================================== *)
(** * Properties *)
(* ===================================================================== *)

(** ** Country inference *)

Module CountryFacts.

Import CountryDetector Samples.

(** Every member of the enumeration is true as a condition, the
    UNKNOWN sentinel included. *)
Lemma country_truthy_all (c : CountryCode) : country_truthy c = true.
Proof. destruct c; reflexivity. Qed.

Lemma return_if_found_some (c rest : CountryCode) :
  return_if_found (Some c) rest = c.
Proof. unfold return_if_found. now rewrite country_truthy_all. Qed.



(** Only the empty string occurs in the empty text. *)
Lemma contains_empty_text needle :
  contains needle [] = true -> needle = [].
Proof. destruct needle; simpl; [reflexivity | discriminate]. Qed.

Lemma flag_nonempty flag c :
  In (flag, c) FLAG_TO_COUNTRY -> flag <> [].
Proof.
  unfold FLAG_TO_COUNTRY; simpl; intros H.
  repeat (destruct H as [H|H]; [inversion H; discriminate|]).
  destruct H.
Qed.





(** The name step alone would answer JAPAN on that text. *)
Example name_alone_is_japan :
  detect_country_from_name (fun s => s) flag_and_name = Some JAPAN.
Proof. reflexivity. Qed.

(** Several flags: the first one in table order decides, here the
    Korean one, although the Japanese one comes first in the text. *)
Example first_flag_in_table_order ul :
  detect_country ul (Some two_flags) None None None = KOREA.
Proof. reflexivity. Qed.

(** Containment is by code points: the second half of the Japanese
    flag and the first half of the Hong Kong flag are the code points
    of the Philippine flag, which comes before the Japanese one in the
    table. *)
Example flags_overlap ul :
  flags_in adjacent_flags = [PHILIPPINES; JAPAN]
  /\ detect_country ul (Some adjacent_flags) None None None = PHILIPPINES.
Proof. split; reflexivity. Qed.

(** C10. The server code "asia" is in the server table with the value
    UNKNOWN, which is true as a condition: with no profile text the
    server step returns UNKNOWN for every url and additional text,
    also for a url that on its own resolves to a country. *)
Theorem server_asia_suppresses_url
        (ul : str -> str) (url additional_text : option str) :
  detect_country ul None (Some (lit "asia")) url additional_text = UNKNOWN
  /\ detect_country ul None None (Some (lit "https://www.op.gg/kr/faker"))
                    None = KOREA
  /\ detect_country ul None (Some (lit "asia"))
                    (Some (lit "https://www.op.gg/kr/faker")) None = UNKNOWN.
Proof. repeat split; reflexivity. Qed.

(** The examples of the test-suite. *)
Example server_mumbai ul :
  detect_country ul None (Some (lit "mumbai")) None None = INDIA.
Proof. reflexivity. Qed.

Example url_vn ul :
  detect_country ul None None
    (Some (lit "https://vn.op.gg/summoners/vn/player123")) None = VIETNAM.
Proof. reflexivity. Qed.

Example no_signal ul : detect_country ul None None None None = UNKNOWN.
Proof. reflexivity. Qed.

End CountryFacts.

(** ** Floats *)

Module FloatFacts.

Lemma Qltb_lt (a b : Q) : Qltb a b = true <-> (a < b)%Q.
Proof.
  unfold Qltb. rewrite negb_true_iff.
  split; intros H.
  - apply Qnot_le_lt. intros Hle. apply Qle_bool_iff in Hle. congruence.
  - destruct (Qle_bool b a) eqn:E; [|reflexivity].
    apply Qle_bool_iff in E. exfalso. now apply (Qlt_not_le a b).
Qed.

Lemma Qltb_false_le (a b : Q) : Qltb a b = false <-> (b <= a)%Q.
Proof.
  unfold Qltb. rewrite negb_false_iff. apply Qle_bool_iff.
Qed.

(** Strictly below implies below or equal. *)
Lemma flt_fle (x y : pyfloat) : flt x y = true -> fle x y = true.
Proof.
  destruct x as [a| | |], y as [b| | |]; simpl; try congruence.
  intros H. apply Qltb_lt in H. apply Qle_bool_iff. now apply Qlt_le_weak.
Qed.

Lemma in_unit_zero : in_unit zero = true.
Proof. reflexivity. Qed.

Lemma in_unit_one : in_unit one = true.
Proof. reflexivity. Qed.

Lemma in_unit_fin (q : Q) :
  in_unit (Fin q) = true <-> (0 <= q <= 1)%Q.
Proof.
  unfold in_unit, zero, one; simpl. rewrite andb_true_iff.
  now rewrite !Qle_bool_iff.
Qed.

Lemma in_unit_is_fin (x : pyfloat) :
  in_unit x = true -> exists q, x = Fin q.
Proof.
  destruct x; simpl; try discriminate; eauto.
Qed.

(** The nearest integer of a rational between two integers lies between
    them. *)
Lemma round_half_even_between (q : Q) (lo hi : Z) :
  (inject_Z lo <= q <= inject_Z hi)%Q ->
  lo <= round_half_even q <= hi.
Proof.
  intros [Hlo Hhi].
  assert (Hf1 : lo <= Qfloor q).
  { rewrite <- (Qfloor_Z lo). now apply Qfloor_resp_le. }
  assert (Hf2 : Qfloor q <= hi).
  { rewrite <- (Qfloor_Z hi). now apply Qfloor_resp_le. }
  unfold round_half_even.
  destruct (Qltb (q - inject_Z (Qfloor q)) (1 # 2)) eqn:Hlow; [lia|].
  assert (Hnext : Qfloor q + 1 <= hi).
  { destruct (Z.eq_dec (Qfloor q) hi) as [Heq|Hne]; [|lia].
    exfalso. apply Qltb_false_le in Hlow.
    assert (Hq : (q == inject_Z hi)%Q).
    { apply Qle_antisym; [exact Hhi|]. rewrite <- Heq. apply Qfloor_le. }
    rewrite Heq, Hq in Hlow.
    assert (Hzero : (inject_Z hi - inject_Z hi == 0)%Q) by ring.
    rewrite Hzero in Hlow. now apply (Qle_bool_iff (1#2) 0) in Hlow. }
  destruct (Qltb (1 # 2) (q - inject_Z (Qfloor q))); [lia|].
  destruct (Z.even (Qfloor q)); lia.
Qed.

(** Rounding to a number of decimals keeps a value inside [0, 1]. *)
Lemma round_ndigits_in_unit (x : pyfloat) (n : nat) :
  in_unit x = true -> in_unit (round_ndigits x n) = true.
Proof.
  intros H. destruct (in_unit_is_fin x H) as [q ->].
  apply in_unit_fin in H. destruct H as [H0 H1].
  unfold round_ndigits. apply in_unit_fin.
  set (p := 10 ^ Z.of_nat n).
  assert (Hp : 0 < p) by (apply Z.pow_pos_nonneg; lia).
  assert (HpQ : (0 < inject_Z p)%Q).
  { change 0%Q with (inject_Z 0). now rewrite <- Zlt_Qlt. }
  destruct (round_half_even_between (q * inject_Z p) 0 p) as [Ha Hb].
  { split.
    - change (inject_Z 0) with 0%Q. apply Qmult_le_0_compat; [exact H0|].
      now apply Qlt_le_weak.
    - apply Qle_trans with (1 * inject_Z p)%Q.
      + apply Qmult_le_compat_r; [exact H1 | now apply Qlt_le_weak].
      + rewrite Qmult_1_l. apply Qle_refl. }
  rewrite Qred_correct.
  set (k := round_half_even (q * inject_Z p)) in *.
  split.
  - apply Qle_shift_div_l; [exact HpQ|].
    rewrite Qmult_0_l. change 0%Q with (inject_Z 0).
    now rewrite <- Zle_Qle.
  - apply Qle_shift_div_r; [exact HpQ|].
    rewrite Qmult_1_l. now rewrite <- Zle_Qle.
Qed.

End FloatFacts.

(** ** Skill vectors *)

Module SkillVectorFacts.

Import SkillVector FloatFacts.

(** [clamp] with the default bounds answers inside [0, 1] on every
    float, NaN and the infinities included. *)
Lemma clamp01_in_unit (x : pyfloat) : in_unit (clamp01 x) = true.
Proof.
  unfold clamp01, clamp, pymax, pymin, fgt.
  destruct (flt x one) eqn:H1.
  - destruct (flt zero x) eqn:H0.
    + unfold in_unit. now rewrite (flt_fle _ _ H0), (flt_fle _ _ H1).
    + reflexivity.
  - reflexivity.
Qed.

Lemma rounded_clamp_in_unit (x : pyfloat) :
  in_unit (round_ndigits (clamp01 x) 6) = true.
Proof. apply round_ndigits_in_unit, clamp01_in_unit. Qed.


Section WithFloatParser.
Variable float_of_str : str -> option pyfloat.

Let py_float := py_float float_of_str.
Let _get_stat := _get_stat float_of_str.
Let compute_skill_vector := compute_skill_vector float_of_str.

(** The guarded reader never raises: a missing key, a null and a value
    that [float] rejects all give the default. *)
Lemma get_stat_cases stats key dflt :
  _get_stat stats key dflt
  = match stats !! key with
    | None | Some PNone => dflt
    | Some v => match py_float v with Ok x => x | Raise _ => dflt end
    end.
Proof.
  unfold _get_stat, SkillVector._get_stat, py_float, try_except.
  destruct (stats !! key) as [v|]; [|reflexivity].
  destruct v; try reflexivity;
    match goal with
    | |- context [SkillVector.py_float ?f ?v] =>
        destruct (SkillVector.py_float f v); reflexivity
    end.
Qed.

Lemma div_const_ok (x : pyfloat) (c : Q) :
  Qeq_bool c 0 = false -> exists y, div_const x c = Ok y.
Proof.
  intros Hc. unfold div_const, fdiv. simpl. rewrite Hc. eauto.
Qed.

(** C3 (the unguarded path). An explicit [aggressiveness] value that
    [float] rejects makes [compute_skill_vector] raise the exception
    of [float]: the value is not read through [_get_stat]. *)
Theorem explicit_aggressiveness_unguarded
        (v : PyVal) (top_champions : PyVal) (e : exn) :
  v <> PNone ->
  py_float v = Raise e ->
  compute_skill_vector {[ "aggressiveness" := v ]} top_champions
  = Raise e.
Proof.
  intros Hv He.
  unfold compute_skill_vector, SkillVector.compute_skill_vector.
  rewrite lookup_singleton_eq.
  assert (Hnone : is_none (Some v) = false) by (destruct v; simpl; congruence).
  rewrite Hnone. cbn [rbind default].
  rewrite lookup_singleton_ne by discriminate. cbn [is_none].
  destruct (div_const_ok (float_of_nat
              match top_champions with
              | PList items => length items
              | _ => 0%nat
              end) 3 eq_refl) as [y Hy].
  destruct (0 <? _)%nat; [rewrite Hy|]; cbn [rbind];
    unfold SkillVector._get_stat;
    rewrite !lookup_singleton_ne by discriminate;
    cbn; fold py_float; rewrite He; reflexivity.
Qed.

Lemma fdiv_fin (x : pyfloat) (c : Q) :
  Qeq_bool c 0 = false ->
  fdiv x (Fin c) = Ok match x with
                      | Fin a => Fin (Qred (a / c))
                      | PosInf => if Qneg_b c then NegInf else PosInf
                      | NegInf => if Qneg_b c then PosInf else NegInf
                      | NaN => NaN
                      end.
Proof. intros Hc. unfold fdiv. simpl. rewrite Hc. destruct x; reflexivity. Qed.





End WithFloatParser.

Import Samples.

Lemma explicit_aggressiveness_unguarded_witness :
  compute_skill_vector (fun _ => None) stats_with_label (PList [])
  = Raise ValueError.
Proof.
  apply (explicit_aggressiveness_unguarded
           (fun _ => None) (PStr (lit "high")) (PList []) ValueError).
  - discriminate.
  - reflexivity.
Defined.

(** The same read through the guarded reader gives the default. *)
Example guarded_reader_defaults :
  _get_stat (fun _ => None) stats_with_label "aggressiveness" zero = zero.
Proof. reflexivity. Qed.


(** The two instances of the specification. *)
Example kda_999 :
  compute_skill_vector (fun _ => None) stats_kda_999 (PList [])
  = Ok [Fin 1; Fin (117 # 200); Fin 0; Fin 0].
Proof. reflexivity. Qed.

Example three_champions :
  compute_skill_vector (fun _ => None) stats_kda_999
                       (PList [PNone; PNone; PNone])
  = Ok [Fin 1; Fin (117 # 200); Fin 0; Fin 1].
Proof. reflexivity. Qed.

End SkillVectorFacts.

(** ** UTF-8 *)

Module Utf8Facts.

Import Utf8.
Local Open Scope N_scope.

(** Quotient and remainder by 64, as equations for [lia]. *)
Lemma div_mod_64 (c : N) : c = 64 * (c / 64) + c mod 64 /\ c mod 64 < 64.
Proof.
  split; [apply N.Div0.div_mod | apply N.mod_lt; discriminate].
Qed.

Lemma div_4096 (c : N) : c / 4096 = c / 64 / 64.
Proof. now rewrite N.Div0.div_div. Qed.

Lemma div_262144 (c : N) : c / 262144 = c / 64 / 64 / 64.
Proof. now rewrite !N.Div0.div_div. Qed.

Ltac bool_to_prop :=
  repeat match goal with
         | H : (_ <? _) = true |- _ => apply N.ltb_lt in H
         | H : (_ <? _) = false |- _ => apply N.ltb_ge in H
         | H : (_ <=? _) = true |- _ => apply N.leb_le in H
         | H : (_ <=? _) = false |- _ => apply N.leb_gt in H
         | H : (_ && _) = true |- _ => apply andb_true_iff in H as [? ?]
         | H : (_ && _) = false |- _ => apply andb_false_iff in H
         end.

Ltac decide_test :=
  match goal with
  | |- context [?a <? ?b] =>
      first [ replace (a <? b) with true by (symmetry; apply N.ltb_lt; lia)
            | replace (a <? b) with false by (symmetry; apply N.ltb_ge; lia) ]
  | |- context [?a <=? ?b] =>
      first [ replace (a <=? b) with true by (symmetry; apply N.leb_le; lia)
            | replace (a <=? b) with false by (symmetry; apply N.leb_gt; lia) ]
  end.

(** Decoding the bytes of one code point gives the code point back and
    goes on with the rest. *)
Lemma decode_encode_cp (c : codepoint) (bs rest : list N) :
  encode_cp c = Some bs ->
  decode (bs ++ rest) = cons_opt c (decode rest).
Proof.
  unfold encode_cp, is_surrogate.
  destruct (div_mod_64 c) as [Hc Hc'].
  destruct (div_mod_64 (c / 64)) as [Hd Hd'].
  destruct (div_mod_64 (c / 64 / 64)) as [He He'].
  rewrite div_4096, div_262144.
  set (r0 := c mod 64) in *. set (q1 := c / 64) in *.
  set (r1 := q1 mod 64) in *. set (q2 := q1 / 64) in *.
  set (r2 := q2 mod 64) in *. set (q3 := q2 / 64) in *.
  destruct (c <? 128) eqn:H1.
  { intros H; injection H as <-. cbn [app decode]. now rewrite H1. }
  destruct (c <? 2048) eqn:H2.
  { intros H; injection H as <-. bool_to_prop.
    cbn [app decode]. unfold is_cont. repeat decide_test. cbn [andb].
    f_equal. lia. }
  destruct (c <? 65536) eqn:H3.
  { destruct ((55296 <=? c) && (c <=? 57343)) eqn:Hs; [discriminate|].
    intros H; injection H as <-. bool_to_prop.
    cbn [app decode]. unfold is_cont, is_surrogate.
    replace ((224 + q2 - 224) * 4096 + (128 + r1 - 128) * 64
             + (128 + r0 - 128)) with c by lia.
    destruct Hs as [Hs|Hs]; bool_to_prop;
      repeat decide_test; cbn [andb negb]; reflexivity. }
  destruct (c <? 1114112) eqn:H4; [|discriminate].
  intros H; injection H as <-. bool_to_prop.
  cbn [app decode]. unfold is_cont.
  replace ((240 + q3 - 240) * 262144 + (128 + r2 - 128) * 4096
           + (128 + r1 - 128) * 64 + (128 + r0 - 128)) with c by lia.
  repeat decide_test. cbn [andb]. reflexivity.
Qed.

(** UTF-8 loses nothing: what encodes decodes to itself. *)
Lemma decode_encode (s : str) (bs : list N) :
  encode s = Some bs -> decode bs = Some s.
Proof.
  revert bs. induction s as [|c rest IH]; simpl; intros bs H.
  - injection H as <-. reflexivity.
  - destruct (encode_cp c) as [b|] eqn:Hc; [|discriminate].
    destruct (encode rest) as [bs'|]; [|discriminate].
    injection H as <-.
    rewrite (decode_encode_cp c b bs' Hc), (IH bs' eq_refl). reflexivity.
Qed.

Lemma encode_cp_scalar (c : codepoint) :
  scalar c = true <-> exists bs, encode_cp c = Some bs.
Proof.
  unfold scalar, encode_cp.
  destruct (c <? 128) eqn:H1; [|destruct (c <? 2048) eqn:H2;
    [|destruct (c <? 65536) eqn:H3]].
  - unfold is_surrogate. bool_to_prop. split; [eauto|intros _].
    apply andb_true_iff; split; [apply N.ltb_lt; lia|].
    apply negb_true_iff, andb_false_iff. left. apply N.leb_gt. lia.
  - unfold is_surrogate. bool_to_prop. split; [eauto|intros _].
    apply andb_true_iff; split; [apply N.ltb_lt; lia|].
    apply negb_true_iff, andb_false_iff. left. apply N.leb_gt. lia.
  - bool_to_prop.
    replace (c <? 1114112) with true by (symmetry; apply N.ltb_lt; lia).
    destruct (is_surrogate c); simpl; split; eauto; try discriminate.
    intros [bs H]; discriminate.
  - assert (Hns : is_surrogate c = false).
    { unfold is_surrogate. bool_to_prop.
      apply andb_false_iff. right. apply N.leb_gt. lia. }
    rewrite Hns, andb_true_r.
    destruct (c <? 1114112); split; eauto; try discriminate.
    intros [bs H]; discriminate.
Qed.

Lemma encode_scalar (s : str) :
  forallb scalar s = true <-> exists bs, encode s = Some bs.
Proof.
  induction s as [|c rest IH]; simpl.
  - split; eauto.
  - rewrite andb_true_iff, IH, encode_cp_scalar.
    split.
    + intros [[b ->] [bs ->]]. eauto.
    + intros [bs H]. destruct (encode_cp c); [|discriminate].
      destruct (encode rest); [|discriminate]. eauto.
Qed.

(** The nickname validator accepts exactly the non-empty texts of
    code points UTF-8 can carry, and returns them unchanged. *)
Lemma validate_unicode_support_spec (v : str) :
  Models.validate_unicode_support v
  = if truthy v && forallb scalar v then Ok v else Raise ValueError.
Proof.
  unfold Models.validate_unicode_support.
  destruct (truthy v); simpl; [|reflexivity].
  destruct (encode v) as [bs|] eqn:He.
  - rewrite (decode_encode v bs He).
    replace (forallb scalar v) with true; [reflexivity|].
    symmetry. apply encode_scalar. eauto.
  - destruct (forallb scalar v) eqn:Hs; [|reflexivity].
    apply encode_scalar in Hs as [bs Hbs]. congruence.
Qed.

End Utf8Facts.

(** ** Validated records *)

Module ModelFacts.

Import Models.

(** *** Inversion of sequenced validations *)

Lemma rbind_ok {A B} (r : result A) (k : A -> result B) (b : B) :
  rbind r k = Ok b -> exists a, r = Ok a /\ k a = Ok b.
Proof. destruct r as [a|e]; simpl; [eauto | discriminate]. Qed.

Lemma ove_ok {A} (a : A) : only_validation_error (Ok a).
Proof. intros e H; discriminate. Qed.

Lemma ove_raise {A} : only_validation_error (@Raise A ValidationError).
Proof. intros e H; now injection H. Qed.

Lemma ove_bind {A B} (r : result A) (k : A -> result B) :
  only_validation_error r -> (forall a, only_validation_error (k a)) ->
  only_validation_error (rbind r k).
Proof.
  intros Hr Hk e. destruct r as [a|e']; simpl.
  - apply Hk.
  - intros H. injection H as <-. now apply Hr.
Qed.

Lemma ove_as_validation_error {A} (r : result A) :
  only_validation_error (as_validation_error r).
Proof.
  intros e. unfold as_validation_error, try_except.
  destruct r; [discriminate | now injection 1].
Qed.

Lemma ove_of_option {A} (o : option A) : only_validation_error (of_option o).
Proof. destruct o; [apply ove_ok | apply ove_raise]. Qed.

Lemma ove_check (b : bool) : only_validation_error (check b).
Proof. destruct b; [apply ove_ok | apply ove_raise]. Qed.

Create HintDb ove discriminated.
#[local] Hint Resolve ove_ok ove_raise ove_bind ove_as_validation_error
  ove_of_option ove_check : ove.

Section Validation.
Variable lax_float_of_str : str -> option pyfloat.
Variable lax_int_of_str : str -> option Z.
Variable lax_datetime : PyVal -> option Z.
Variable isoformat : Z -> str.

Let validate_float := validate_float lax_float_of_str.
Let validate_int := validate_int lax_int_of_str.
Let validate_float_in := validate_float_in lax_float_of_str.
Let validate_int_in := validate_int_in lax_int_of_str.
Let Champion_new := Champion_new lax_float_of_str lax_int_of_str.
Let PlayerStats_new := PlayerStats_new lax_float_of_str lax_int_of_str.
Let field_top_champions :=
  field_top_champions lax_float_of_str lax_int_of_str.
Let PlayerProfile_new :=
  PlayerProfile_new lax_float_of_str lax_int_of_str lax_datetime.

Lemma ove_validate_str v : only_validation_error (validate_str v).
Proof. destruct v; simpl; auto with ove. Qed.

Lemma ove_validate_float v : only_validation_error (validate_float v).
Proof.
  destruct v; simpl; auto with ove.
Qed.

Lemma ove_validate_int v : only_validation_error (validate_int v).
Proof.
  destruct v as [| | |x| | |]; simpl; auto with ove.
  destruct x; auto with ove. destruct (Qeq_bool _ _); auto with ove.
Qed.

Lemma ove_validate_float_in lo hi v :
  only_validation_error (validate_float_in lo hi v).
Proof.
  unfold validate_float_in, Models.validate_float_in.
  auto using ove_validate_float with ove.
Qed.

Lemma ove_validate_int_in lo hi v :
  only_validation_error (validate_int_in lo hi v).
Proof.
  unfold validate_int_in, Models.validate_int_in.
  auto using ove_validate_int with ove.
Qed.

Lemma ove_required {A} (f : PyVal -> result A) arg :
  (forall v, only_validation_error (f v)) ->
  only_validation_error (required f arg).
Proof. intros Hf. destruct arg; simpl; auto with ove. Qed.

Lemma ove_optional {A} (f : PyVal -> result A) arg :
  (forall v, only_validation_error (f v)) ->
  only_validation_error (optional f arg).
Proof.
  intros Hf. destruct arg as [v|]; simpl; auto with ove.
  destruct v; auto with ove.
Qed.

Lemma ove_with_default {A} (f : PyVal -> result A) dflt arg :
  (forall v, only_validation_error (f v)) ->
  only_validation_error (with_default f dflt arg).
Proof. intros Hf. destruct arg; simpl; auto with ove. Qed.

Lemma ove_enum {E} (value : E -> string) members v :
  only_validation_error (validate_enum value members v).
Proof.
  destruct v; simpl; auto with ove.
  induction members as [|m rest IH]; simpl; auto with ove.
  destruct (str_eqb _ _); auto with ove.
Qed.

Lemma ove_model {A} (new : gmap string PyVal -> result A) v :
  (forall d, only_validation_error (new d)) ->
  only_validation_error (validate_model new v).
Proof. intros H. destruct v; simpl; auto with ove. Qed.

Lemma ove_each {A} (f : PyVal -> result A) items :
  (forall v, only_validation_error (f v)) ->
  only_validation_error (validate_each f items).
Proof.
  intros Hf. induction items as [|v rest IH]; simpl; auto with ove.
Qed.

Lemma ove_list_in {A} (f : PyVal -> result A) lo hi v :
  (forall v, only_validation_error (f v)) ->
  only_validation_error (validate_list_in f lo hi v).
Proof.
  intros Hf. destruct v; simpl; auto using ove_each with ove.
Qed.

Ltac ove_step :=
  first [ apply ove_ok | apply ove_raise | apply ove_check
        | apply ove_of_option | apply ove_as_validation_error
        | apply ove_validate_str | apply ove_validate_float_in
        | apply ove_validate_int_in | apply ove_validate_int
        | apply ove_enum
        | apply ove_required; intros ?
        | apply ove_optional; intros ?
        | apply ove_with_default; intros ?
        | apply ove_model; intros ?
        | apply ove_list_in; intros ?
        | apply ove_bind; [|intros ?] ].

Lemma ove_Champion_new d : only_validation_error (Champion_new d).
Proof. unfold Champion_new, Models.Champion_new. repeat ove_step. Qed.

Lemma ove_PlayerStats_new d : only_validation_error (PlayerStats_new d).
Proof.
  unfold PlayerStats_new, Models.PlayerStats_new. repeat ove_step.
Qed.

Lemma ove_field_top_champions arg :
  only_validation_error (field_top_champions arg).
Proof.
  unfold field_top_champions, Models.field_top_champions.
  repeat ove_step.
Qed.

Lemma ove_field_nickname arg : only_validation_error (field_nickname arg).
Proof. unfold field_nickname. repeat ove_step. Qed.

(** The construction of a profile fails with [ValidationError] only. *)
Lemma ove_PlayerProfile_new now kwargs :
  only_validation_error (PlayerProfile_new now kwargs).
Proof.
  unfold PlayerProfile_new, Models.PlayerProfile_new.
  repeat first [ apply ove_field_nickname | apply ove_field_top_champions
               | apply ove_PlayerStats_new | ove_step ].
Qed.

Let validate_champion := validate_model Champion_new.

(** *** The fields of a constructed profile *)

Lemma PlayerProfile_new_fields now kwargs p :
  PlayerProfile_new now kwargs = Ok p ->
  field_nickname (kwargs !! "nickname") = Ok (nickname p)
  /\ required (validate_enum game_value all_games) (kwargs !! "game")
     = Ok (game p)
  /\ required (validate_enum country_value all_countries)
              (kwargs !! "country") = Ok (country p)
  /\ required validate_str (kwargs !! "server") = Ok (server p)
  /\ required validate_str (kwargs !! "rank") = Ok (rank p)
  /\ required (validate_model PlayerStats_new) (kwargs !! "stats")
     = Ok (stats p)
  /\ field_top_champions (kwargs !! "top_champions")
     = Ok (top_champions p)
  /\ required validate_str (kwargs !! "profile_url") = Ok (profile_url p).
Proof.
  unfold PlayerProfile_new, Models.PlayerProfile_new. intros H.
  apply rbind_ok in H as (x1 & H1 & H).
  apply rbind_ok in H as (x2 & H2 & H).
  apply rbind_ok in H as (x3 & H3 & H).
  apply rbind_ok in H as (x4 & H4 & H).
  apply rbind_ok in H as (x5 & H5 & H).
  apply rbind_ok in H as (x6 & H6 & H).
  apply rbind_ok in H as (x7 & H7 & H).
  apply rbind_ok in H as (x8 & H8 & H).
  apply rbind_ok in H as (x9 & H9 & H).
  apply rbind_ok in H as (x10 & H10 & H).
  apply rbind_ok in H as (x11 & H11 & H).
  injection H as <-. simpl. repeat split; assumption.
Qed.

(** *** C2: the length bound of the field comes before the validator *)

Lemma validate_each_length {A} (f : PyVal -> result A) items l :
  validate_each f items = Ok l -> length l = length items.
Proof.
  revert l. induction items as [|v rest IH]; simpl; intros l H.
  - injection H as <-. reflexivity.
  - apply rbind_ok in H as (a & _ & H).
    apply rbind_ok in H as (others & Hrest & H).
    injection H as <-. simpl. f_equal. now apply IH.
Qed.

(** On its own the class validator cuts a longer list to its first
    three entries. *)
Lemma validator_truncates (v : list Champion) :
  (3 < length v)%nat ->
  validate_top_champions v = Ok (firstn 3 v)
  /\ length (firstn 3 v) = 3%nat.
Proof.
  intros H. unfold validate_top_champions, slice_to.
  apply Nat.ltb_lt in H as Hb. rewrite Hb. split; [reflexivity|].
  rewrite firstn_length_le; lia.
Qed.

Lemma field_top_champions_long items l :
  (3 < length items)%nat ->
  field_top_champions (Some (PList items)) <> Ok l.
Proof.
  intros Hlen H.
  unfold field_top_champions, Models.field_top_champions in H.
  apply rbind_ok in H as (l0 & H0 & _). simpl in H0.
  apply rbind_ok in H0 as (l1 & Heach & H0).
  apply validate_each_length in Heach.
  apply rbind_ok in H0 as (u & Hcheck & _).
  unfold check in Hcheck.
  replace (length l1 <=? 3)%nat with false in Hcheck.
  - rewrite andb_false_r in Hcheck. discriminate.
  - symmetry. apply Nat.leb_gt. lia.
Qed.

(** C2 (what the code does). A construction that is handed more than
    three champions fails with a [ValidationError]: the declared
    bound [max_items=3] of the field is checked before the class
    validator that would cut the list. *)
Theorem more_than_three_champions_rejected
        (now : Z) (kwargs : gmap string PyVal) (items : list PyVal) :
  kwargs !! "top_champions" = Some (PList items) ->
  (3 < length items)%nat ->
  PlayerProfile_new now kwargs = Raise ValidationError.
Proof.
  intros Harg Hlen.
  destruct (PlayerProfile_new now kwargs) as [p|e] eqn:E.
  - apply PlayerProfile_new_fields in E
      as (_ & _ & _ & _ & _ & _ & Htop & _).
    rewrite Harg in Htop.
    now apply field_top_champions_long in Htop.
  - f_equal. now apply (ove_PlayerProfile_new now kwargs).
Qed.

(** *** C9: what was validated validates again *)

Lemma validate_unicode_support_id v s :
  validate_unicode_support v = Ok s -> s = v.
Proof.
  unfold validate_unicode_support.
  destruct (negb (truthy v)); [discriminate|].
  destruct (Utf8.encode v); [|discriminate].
  destruct (Utf8.decode l); [|discriminate].
  now injection 1.
Qed.

Lemma field_nickname_again arg s :
  field_nickname arg = Ok s -> field_nickname (Some (PStr s)) = Ok s.
Proof.
  unfold field_nickname. intros H.
  apply rbind_ok in H as (s0 & Hs & H).
  destruct arg as [v|]; [|discriminate]. destruct v; try discriminate.
  simpl in Hs. injection Hs as <-.
  assert (s = s1).
  { apply rbind_ok in H as (u & _ & H).
    unfold as_validation_error, try_except in H.
    destruct (validate_unicode_support s1) eqn:E; [|discriminate].
    injection H as <-. now apply validate_unicode_support_id in E. }
  subst s. exact H.
Qed.

Lemma game_again arg g :
  required (validate_enum game_value all_games) arg = Ok g ->
  required (validate_enum game_value all_games)
           (Some (PStr (lit (game_value g)))) = Ok g.
Proof. intros _. destruct g; reflexivity. Qed.

Lemma country_again arg c :
  required (validate_enum country_value all_countries) arg = Ok c ->
  required (validate_enum country_value all_countries)
           (Some (PStr (lit (country_value c)))) = Ok c.
Proof. intros _. destruct c; reflexivity. Qed.

Lemma str_again arg s :
  required validate_str arg = Ok s ->
  required validate_str (Some (PStr s)) = Ok s.
Proof. reflexivity. Qed.

Lemma float_in_again lo hi v x :
  validate_float_in lo hi v = Ok x ->
  validate_float_in lo hi (PFloat x) = Ok x.
Proof.
  unfold validate_float_in, Models.validate_float_in. intros H.
  apply rbind_ok in H as (y & _ & H).
  apply rbind_ok in H as (u & Hc & H). injection H as ->.
  simpl. rewrite Hc. reflexivity.
Qed.

Lemma int_in_again lo hi v z :
  validate_int_in lo hi v = Ok z ->
  validate_int_in lo hi (PInt z) = Ok z.
Proof.
  unfold validate_int_in, Models.validate_int_in. intros H.
  apply rbind_ok in H as (y & _ & H).
  apply rbind_ok in H as (u & Hc & H). injection H as ->.
  simpl. rewrite Hc. reflexivity.
Qed.

Lemma optional_float_again lo hi arg o :
  optional (validate_float_in lo hi) arg = Ok o ->
  optional (validate_float_in lo hi) (Some (dump_opt_float o)) = Ok o.
Proof.
  intros H. destruct o as [x|]; [|reflexivity].
  simpl. destruct arg as [v|]; [|discriminate].
  assert (Hv : validate_float_in lo hi v = Ok x).
  { destruct v; simpl in H; try discriminate;
      apply rbind_ok in H as (y & Hy & H); injection H as ->; exact Hy. }
  now rewrite (float_in_again _ _ _ _ Hv).
Qed.

Lemma games_analyzed_again arg z :
  with_default (validate_int_in (Some 1) (Some 100)) 100 arg = Ok z ->
  validate_int_in (Some 1) (Some 100) (PInt z) = Ok z.
Proof.
  destruct arg as [v|]; simpl.
  - apply int_in_again.
  - intros H. injection H as <-. reflexivity.
Qed.

Lemma Champion_new_again d c :
  Champion_new d = Ok c -> Champion_new (Champion_dump c) = Ok c.
Proof.
  unfold Champion_new, Models.Champion_new. intros H.
  apply rbind_ok in H as (n & Hn & H).
  apply rbind_ok in H as (g & Hg & H).
  apply rbind_ok in H as (r & Hr & H).
  injection H as <-. simpl.
  unfold Champion_dump; simpl.
  destruct (d !! "games_played") as [vg|]; [|discriminate].
  destruct (d !! "win_rate") as [vr|]; [|discriminate].
  simpl in Hg, Hr.
  change (({[ "name" := PStr n; "games_played" := PInt g;
              "win_rate" := PFloat r ]} : gmap string PyVal) !! "name")
    with (Some (PStr n)).
  change (({[ "name" := PStr n; "games_played" := PInt g;
              "win_rate" := PFloat r ]} : gmap string PyVal)
            !! "games_played")
    with (Some (PInt g)).
  change (({[ "name" := PStr n; "games_played" := PInt g;
              "win_rate" := PFloat r ]} : gmap string PyVal)
            !! "win_rate")
    with (Some (PFloat r)).
  cbn [required validate_str rbind].
  fold validate_int_in. rewrite (int_in_again _ _ _ _ Hg).
  fold validate_float_in. rewrite (float_in_again _ _ _ _ Hr).
  reflexivity.
Qed.


Lemma champions_again items l :
  validate_each validate_champion items = Ok l ->
  validate_each validate_champion
                (map (fun c => PDict (Champion_dump c)) l) = Ok l.
Proof.
  revert l. induction items as [|v rest IH]; simpl; intros l H.
  - injection H as <-. reflexivity.
  - apply rbind_ok in H as (c & Hc & H).
    apply rbind_ok in H as (others & Hrest & H).
    injection H as <-. simpl.
    destruct v; try discriminate. simpl in Hc.
    rewrite (Champion_new_again _ _ Hc). cbn [rbind].
    now rewrite (IH _ Hrest).
Qed.

Lemma field_top_champions_again arg l :
  field_top_champions arg = Ok l ->
  field_top_champions
    (Some (PList (map (fun c => PDict (Champion_dump c)) l))) = Ok l.
Proof.
  unfold field_top_champions, Models.field_top_champions. intros H.
  apply rbind_ok in H as (l0 & H0 & H).
  destruct arg as [v|]; [|discriminate]. destruct v; try discriminate.
  simpl in H0.
  apply rbind_ok in H0 as (l1 & Heach & H0).
  apply rbind_ok in H0 as (u & Hcheck & H0). injection H0 as ->.
  assert (Hshort : (3 <? length l0)%nat = false).
  { unfold check in Hcheck.
    destruct (_ && (length l0 <=? 3)%nat) eqn:E; [|discriminate].
    apply andb_true_iff in E as [_ E]. apply Nat.leb_le in E.
    apply Nat.ltb_ge. exact E. }
  assert (l = l0).
  { unfold as_validation_error, try_except, validate_top_champions in H.
    rewrite Hshort in H. now injection H. }
  subst l0. simpl.
  fold Champion_new. fold validate_champion.
  rewrite (champions_again _ _ Heach). cbn [rbind].
  rewrite Hcheck. cbn [rbind]. exact H.
Qed.

Lemma PlayerStats_new_again d s :
  PlayerStats_new d = Ok s -> PlayerStats_new (PlayerStats_dump s) = Ok s.
Proof.
  unfold PlayerStats_new, Models.PlayerStats_new. intros H.
  apply rbind_ok in H as (w & Hw & H).
  apply rbind_ok in H as (k & Hk & H).
  apply rbind_ok in H as (ka & Hka & H).
  apply rbind_ok in H as (da & Hda & H).
  apply rbind_ok in H as (aa & Haa & H).
  apply rbind_ok in H as (g & Hg & H).
  injection H as <-. unfold PlayerStats_dump; simpl.
  destruct (d !! "win_rate") as [vw|]; [|discriminate].
  destruct (d !! "kda") as [vk|]; [|discriminate].
  simpl in Hw, Hk.
  set (m := ({[ "win_rate" := PFloat w; "kda" := PFloat k;
                "kills_avg" := dump_opt_float ka;
                "deaths_avg" := dump_opt_float da;
                "assists_avg" := dump_opt_float aa;
                "games_analyzed" := PInt g ]} : gmap string PyVal)).
  change (m !! "win_rate") with (Some (PFloat w)).
  change (m !! "kda") with (Some (PFloat k)).
  change (m !! "kills_avg") with (Some (dump_opt_float ka)).
  change (m !! "deaths_avg") with (Some (dump_opt_float da)).
  change (m !! "assists_avg") with (Some (dump_opt_float aa)).
  change (m !! "games_analyzed") with (Some (PInt g)).
  cbn [required with_default].
  fold validate_float_in validate_int_in.
  rewrite (float_in_again _ _ _ _ Hw). cbn [rbind].
  rewrite (float_in_again _ _ _ _ Hk). cbn [rbind].
  rewrite (optional_float_again _ _ _ _ Hka). cbn [rbind].
  rewrite (optional_float_again _ _ _ _ Hda). cbn [rbind].
  rewrite (optional_float_again _ _ _ _ Haa). cbn [rbind].
  rewrite (games_analyzed_again _ _ Hg). reflexivity.
Qed.

Lemma stats_again arg s :
  required (validate_model PlayerStats_new) arg = Ok s ->
  required (validate_model PlayerStats_new)
           (Some (PDict (PlayerStats_dump s))) = Ok s.
Proof.
  destruct arg as [v|]; [|discriminate]. destruct v; try discriminate.
  simpl. apply PlayerStats_new_again.
Qed.

End Validation.

Import Samples.

Lemma more_than_three_champions_rejected_witness :
  PlayerProfile_new no_float no_int no_datetime 0 four_champion_args
  = Raise ValidationError.
Proof.
  apply (more_than_three_champions_rejected
           no_float no_int no_datetime 0 four_champion_args
           four_champion_items).
  - reflexivity.
  - simpl. lia.
Defined.

(** With three of the four champions the same arguments construct a
    profile, and the validator on its own would cut the four to
    three. *)
Example three_champions_accepted :
  exists p,
    PlayerProfile_new no_float no_int no_datetime 0
      (<[ "top_champions" := PList (firstn 3 four_champion_items) ]>
         hangul_args) = Ok p
    /\ length (top_champions p) = 3%nat.
Proof. eexists. split; reflexivity. Qed.

End ModelFacts.

(** ** The ranking-table collector *)

Module BronzeFacts.

Import Models BronzeIngestion.

(** One iteration appends the accepted record, if any, and counts an
    error exactly when the body raises. *)
Lemma process_row_spec (o : row_outcome) (st : collector) :
  process_row o st
  = mkCollector
      (players_data st ++ option_list (accepted o))
      (scraped_count st + match accepted o with Some _ => 1 | None => 0 end)
      (error_count st + (if raises o then 1 else 0)).
Proof.
  destruct st as [data scraped errors].
  unfold process_row, accepted, raises, row_body.
  destruct o as [|cells extracted]; simpl.
  - now rewrite app_nil_r, Z.add_0_r.
  - destruct (cells <? 2)%nat; simpl;
      [now rewrite app_nil_r, !Z.add_0_r|].
    destruct extracted as [d|]; simpl;
      [|now rewrite app_nil_r, !Z.add_0_r].
    destruct (negb (bool_decide (d = ∅))); simpl;
      [|now rewrite app_nil_r, !Z.add_0_r].
    destruct (default (PStr []) (d !! "nickname")); simpl;
      rewrite ?app_nil_r, ?Z.add_0_r; reflexivity.
Qed.

(** The loop keeps the accepted records in row order and counts the
    rows that raise; a row without a record is neither kept nor
    counted. *)
Lemma process_rows_spec (rows : list row_outcome) (st : collector) :
  process_rows rows st
  = mkCollector
      (players_data st ++ omap accepted rows)
      (scraped_count st + Z.of_nat (length (omap accepted rows)))
      (error_count st + Z.of_nat (length (List.filter raises rows))).
Proof.
  unfold process_rows. revert st.
  induction rows as [|o rest IH]; intros st; simpl.
  - destruct st. simpl. now rewrite app_nil_r, !Z.add_0_r.
  - rewrite IH, process_row_spec. simpl.
    destruct (accepted o) as [d|], (raises o);
      cbn [option_list length app];
      rewrite <- ?app_assoc, ?app_nil_r, ?Nat2Z.inj_succ;
      f_equal; unfold omap; lia.
Qed.

End BronzeFacts.

(** ** The pipeline *)

Module PipelineFacts.

Import Models BronzeIngestion Pipeline ModelFacts BronzeFacts.

Section WithWorld.
Variable lax_float_of_str : str -> option pyfloat.
Variable lax_int_of_str : str -> option Z.
Variable lax_datetime : PyVal -> option Z.
Variable isoformat : Z -> str.
Variable unicode_lower : str -> str.
Variable w : World.

Let new_profile :=
  PlayerProfile_new lax_float_of_str lax_int_of_str lax_datetime.
Let rebuild_profile :=
  rebuild_profile lax_float_of_str lax_int_of_str lax_datetime w.
Let model_dump := model_dump isoformat.

(** *** C9: the nickname through the record form and back *)

(** A row that carries the exported columns of the record form of a
    profile gives the keyword arguments of that profile. *)
Lemma profile_kwargs_of_dump (p : PlayerProfile)
      (player_data : gmap string PyVal) :
  (forall key, In key export_columns ->
               player_data !! key = model_dump p !! key) ->
  profile_kwargs player_data
  = Ok ({[ "nickname" := PStr (nickname p);
           "game" := PStr (lit (game_value (game p)));
           "country" := PStr (lit (country_value (country p)));
           "server" := PStr (server p);
           "rank" := py_or (PStr (rank p)) (PStr (lit "Unknown"));
           "stats" := PDict (PlayerStats_dump (stats p));
           "top_champions" :=
             PList (map (fun c => PDict (Champion_dump c))
                        (top_champions p));
           "profile_url" := PStr (profile_url p) ]}
        : gmap string PyVal).
Proof.
  intros Hcols. unfold profile_kwargs, getitem.
  rewrite !Hcols by (simpl; tauto).
  reflexivity.
Qed.

Lemma py_or_rank (r : str) :
  exists r', py_or (PStr r) (PStr (lit "Unknown")) = PStr r'.
Proof. destruct r; simpl; eauto. Qed.

(** C9. A profile that was constructed, written in its record form
    ([model_dump(mode='json')]) and read back from a row with the
    exported columns of that form, is constructed again, with the
    nickname it had, code point for code point; the other exported
    fields but the rank are the same too. *)
Theorem nickname_round_trip
        (now : Z) (kwargs : gmap string PyVal) (p : PlayerProfile)
        (player_data : gmap string PyVal) (tr : list event) :
  new_profile now kwargs = Ok p ->
  (forall key, In key export_columns ->
               player_data !! key = model_dump p !! key) ->
  exists p',
    rebuild_profile player_data tr = (Ok p', tr)
    /\ nickname p' = nickname p
    /\ game p' = game p /\ country p' = country p
    /\ server p' = server p /\ stats p' = stats p
    /\ top_champions p' = top_champions p
    /\ profile_url p' = profile_url p.
Proof.
  intros Hnew Hcols.
  apply PlayerProfile_new_fields in Hnew
    as (Hnick & Hgame & Hcountry & Hserver & Hrank & Hstats & Htop & Hurl).
  unfold rebuild_profile, Pipeline.rebuild_profile, bind, lift, history.
  unfold model_dump in Hcols.
  rewrite (profile_kwargs_of_dump p player_data Hcols).
  destruct (py_or_rank (rank p)) as [r' ->].
  set (K := ({[ "nickname" := PStr (nickname p);
                "game" := PStr (lit (game_value (game p)));
                "country" := PStr (lit (country_value (country p)));
                "server" := PStr (server p);
                "rank" := PStr r';
                "stats" := PDict (PlayerStats_dump (stats p));
                "top_champions" :=
                  PList (map (fun c => PDict (Champion_dump c))
                             (top_champions p));
                "profile_url" := PStr (profile_url p) ]}
             : gmap string PyVal)).
  unfold PlayerProfile_new.
  change (K !! "nickname") with (Some (PStr (nickname p))).
  change (K !! "game") with (Some (PStr (lit (game_value (game p))))).
  change (K !! "country")
    with (Some (PStr (lit (country_value (country p))))).
  change (K !! "server") with (Some (PStr (server p))).
  change (K !! "rank") with (Some (PStr r')).
  change (K !! "rank_numeric") with (@None PyVal).
  change (K !! "stats") with (Some (PDict (PlayerStats_dump (stats p)))).
  change (K !! "top_champions")
    with (Some (PList (map (fun c => PDict (Champion_dump c))
                           (top_champions p)))).
  change (K !! "profile_url") with (Some (PStr (profile_url p))).
  change (K !! "scraped_at") with (@None PyVal).
  change (K !! "data_quality_score") with (@None PyVal).
  rewrite (field_nickname_again _ _ Hnick). cbn [rbind].
  rewrite (game_again _ _ Hgame). cbn [rbind].
  rewrite (country_again _ _ Hcountry). cbn [rbind].
  change (required validate_str (Some (PStr (server p))))
    with (Ok (server p)).
  change (required validate_str (Some (PStr r'))) with (Ok r').
  cbn [rbind optional].
  rewrite (stats_again _ _ _ _ Hstats). cbn [rbind].
  rewrite (field_top_champions_again _ _ _ _ Htop). cbn [rbind].
  change (required validate_str (Some (PStr (profile_url p))))
    with (Ok (profile_url p)).
  cbn [rbind with_default].
  eexists. split; [reflexivity|]. simpl. tauto.
Qed.


(** *** The trace only grows *)

Lemma extends_ret {A} (a : A) : extends (ret a).
Proof. intros tr. exists []. simpl. now rewrite app_nil_r. Qed.

Lemma extends_raise {A} (e : exn) : extends (@raise A e).
Proof. intros tr. exists []. simpl. now rewrite app_nil_r. Qed.

Lemma extends_lift {A} (r : result A) : extends (lift r).
Proof. intros tr. exists []. simpl. now rewrite app_nil_r. Qed.

Lemma extends_history : extends history.
Proof. intros tr. exists []. simpl. now rewrite app_nil_r. Qed.

Lemma extends_emit (e : event) : extends (emit e).
Proof. intros tr. exists [e]. reflexivity. Qed.

Lemma extends_log (level : log_level) : extends (log level).
Proof. apply extends_emit. Qed.

Lemma extends_bind {A B} (m : M A) (k : A -> M B) :
  extends m -> (forall a, extends (k a)) -> extends (bind m k).
Proof.
  intros Hm Hk tr. unfold bind. destruct (Hm tr) as [d Hd].
  destruct (m tr) as [[a|e] tr']; simpl in Hd; subst tr'.
  - destruct (Hk a (tr ++ d)) as [d' Hd']. exists (d ++ d').
    now rewrite Hd', app_assoc.
  - exists d. reflexivity.
Qed.

Lemma extends_try_catch {A} (m : M A) (h : exn -> M A) :
  extends m -> (forall e, extends (h e)) -> extends (try_catch m h).
Proof.
  intros Hm Hh tr. unfold try_catch. destruct (Hm tr) as [d Hd].
  destruct (m tr) as [[a|e] tr']; simpl in Hd; subst tr'.
  - exists d. reflexivity.
  - destruct (Hh e (tr ++ d)) as [d' Hd']. exists (d ++ d').
    now rewrite Hd', app_assoc.
Qed.

Lemma extends_for_each {A S} (items : list A) (body : A -> S -> M S)
      (s : S) :
  (forall x s', extends (body x s')) -> extends (for_each items body s).
Proof.
  intros Hbody. revert s.
  induction items as [|x rest IH]; intros s; simpl.
  - apply extends_ret.
  - apply extends_bind; [apply Hbody | exact IH].
Qed.

Ltac head_of t :=
  lazymatch t with
  | ?f _ => head_of f
  | _ => t
  end.

Ltac ext_step :=
  lazymatch goal with
  | |- extends (ret _) => apply extends_ret
  | |- extends (raise _) => apply extends_raise
  | |- extends (lift _) => apply extends_lift
  | |- extends history => apply extends_history
  | |- extends (log _) => apply extends_log
  | |- extends (emit _) => apply extends_emit
  | |- extends (for_each _ _ _) => apply extends_for_each; intros ? ?
  | |- extends (try_catch _ _) => apply extends_try_catch; [|intros ?]
  | |- extends (bind _ _) => apply extends_bind; [|intros ?]
  | |- extends (if ?b then _ else _) => destruct b
  | |- extends (match ?x with _ => _ end) => destruct x
  | |- extends ?m => let h := head_of m in unfold h
  end.

Ltac ext := repeat ext_step.

Lemma extends_later_stages bronze to_airtable :
  extends (later_stages lax_float_of_str lax_int_of_str lax_datetime w
                        bronze to_airtable).
Proof. unfold later_stages. ext. Qed.

Lemma extends_run_full_pipeline source identifiers to_airtable :
  extends (run_full_pipeline lax_float_of_str lax_int_of_str lax_datetime
             isoformat unicode_lower w source identifiers to_airtable).
Proof. unfold run_full_pipeline. ext. Qed.


(** *** Events that a computation is bound to emit *)







(** *** The collecting loop *)





Lemma map_snd_enumerate_from {A} (items : list A) (start : nat) :
  map snd (combine (seq start (length items)) items) = items.
Proof.
  revert start. induction items as [|x rest IH]; intros start; simpl.
  - reflexivity.
  - now rewrite IH.
Qed.




(** *** C8: a collection that yields nothing *)



End WithWorld.


(** *** Promotion and export *)

Section Stages.
Variable lax_float_of_str : str -> option pyfloat.
Variable lax_int_of_str : str -> option Z.
Variable lax_datetime : PyVal -> option Z.
Variable w : World.

Let rebuilds := rebuilds lax_float_of_str lax_int_of_str lax_datetime.
Let rebuild_profile :=
  rebuild_profile lax_float_of_str lax_int_of_str lax_datetime w.
Let convert_row :=
  convert_row lax_float_of_str lax_int_of_str lax_datetime w.
Let export_batch :=
  export_batch lax_float_of_str lax_int_of_str lax_datetime w.
Let sync_to_airtable :=
  sync_to_airtable lax_float_of_str lax_int_of_str lax_datetime w.

Lemma promoted_ids_app (a b : list event) :
  promoted_ids (a ++ b) = promoted_ids a ++ promoted_ids b.
Proof. unfold promoted_ids. apply flat_map_app. Qed.


(** With a threshold [t] the test of the loop holds exactly for the
    win rates from [t] on, [t] included. *)
Lemma qualifies_float (t q : Q) (player : gmap string PyVal) :
  win_rate_of player = Ok (PFloat (Fin q)) ->
  qualifies (Fin t) player = true <-> (t <= q)%Q.
Proof.
  intros H. unfold qualifies, reaches. rewrite H. simpl.
  apply Qle_bool_iff.
Qed.

Lemma qualifies_int (t : Q) (z : Z) (player : gmap string PyVal) :
  win_rate_of player = Ok (PInt z) ->
  qualifies (Fin t) player = true <-> (t <= inject_Z z)%Q.
Proof.
  intros H. unfold qualifies, reaches. rewrite H. simpl.
  apply Qle_bool_iff.
Qed.

Lemma promote_player_spec min_win_rate player n tr :
  comparable min_win_rate player = true ->
  exists d,
    promote_player w min_win_rate player n tr
    = (Ok (n + (if promoted_one w min_win_rate player then 1 else 0)),
       tr ++ d)
    /\ promoted_ids d
       = (if qualifies min_win_rate player then [id_of player] else []).
Proof.
  unfold comparable, promoted_one, qualifies, reaches, id_of.
  intros H. apply andb_true_iff in H as [H Hnick].
  apply andb_true_iff in H as [Hreach Hid].
  apply bool_decide_eq_true in Hid as [sid Hid].
  apply bool_decide_eq_true in Hnick as [nick Hnick].
  unfold promote_player, bind, lift, try_catch, getitem.
  destruct (win_rate_of player) as [wr|]; [|discriminate Hreach].
  simpl in *.
  destruct (py_ge wr min_win_rate) as [b|]; [|discriminate Hreach].
  rewrite Hid. simpl. destruct b; simpl.
  - unfold promote_to_gold, bind, emit, log, raise, ret. simpl.
    destruct (promote_ok w sid); simpl; rewrite ?Hnick; simpl;
      rewrite <- ?app_assoc, ?Z.add_0_r; simpl;
      (eexists; split; [reflexivity|]; reflexivity).
  - exists []. unfold ret. now rewrite app_nil_r, Z.add_0_r.
Qed.

Lemma promote_loop_spec min_win_rate players n tr :
  forallb (comparable min_win_rate) players = true ->
  exists d,
    for_each players (promote_player w min_win_rate) n tr
    = (Ok (n + Z.of_nat
                 (length (List.filter (promoted_one w min_win_rate)
                                      players))),
       tr ++ d)
    /\ promoted_ids d
       = map id_of (List.filter (qualifies min_win_rate) players).
Proof.
  revert n tr. induction players as [|player rest IH]; intros n tr Hall.
  - exists []. simpl. unfold ret. now rewrite app_nil_r, Z.add_0_r.
  - cbn [forallb] in Hall. apply andb_true_iff in Hall as [Hp Hrest].
    cbn [for_each]. unfold bind.
    destruct (promote_player_spec min_win_rate player n tr Hp)
      as (d1 & -> & Hd1).
    destruct (IH (n + (if promoted_one w min_win_rate player
                       then 1 else 0)) (tr ++ d1) Hrest)
      as (d2 & -> & Hd2).
    exists (d1 ++ d2). rewrite <- app_assoc. split.
    + f_equal. f_equal. cbn [List.filter].
      destruct (promoted_one w min_win_rate player);
        cbn [length]; lia.
    + rewrite promoted_ids_app, Hd1, Hd2. cbn [List.filter].
      destruct (qualifies min_win_rate player); reflexivity.
Qed.

(** C4 (as the code has it). The promotion step fetches the rows
    of country KR, at most [limit] of them. For every fetched row
    whose win rate compares with the threshold, the row is submitted
    for promotion exactly when its win rate reaches the threshold,
    the threshold included; the rows submitted are these, in fetch
    order, and the count returned is the number of them the store
    accepted. *)
Theorem promotion_is_boundary_inclusive
        (t : Q) (limit : nat) (tr : list event)
        (table : list (gmap string PyVal)) :
  (forall h, silver_table w h = Ok table) ->
  let players := select_players table "KR" None limit in
  forallb (comparable (Fin t)) players = true ->
  (exists d,
     promote_best_to_gold w (Fin t) limit tr
     = (Ok (Z.of_nat (length (List.filter (promoted_one w (Fin t))
                                          players))),
        tr ++ d)
     /\ promoted_ids d
        = map id_of (List.filter (qualifies (Fin t)) players))
  /\ (forall player q,
        win_rate_of player = Ok (PFloat (Fin q)) ->
        qualifies (Fin t) player = true <-> (t <= q)%Q).
Proof.
  intros Htable players Hall. split; [|intros; now apply qualifies_float].
  unfold promote_best_to_gold, get_players_by_country.
  unfold bind, log, emit, history, try_catch, lift, ret.
  rewrite Htable. fold players.
  destruct (promote_loop_spec (Fin t) players 0
              ((tr ++ [ELog INFO]) ++ [EQuery "KR" None limit]) Hall)
    as (d & Hloop & Hd).
  unfold bind in Hloop. rewrite Hloop. clear Hloop.
  exists ([ELog INFO; EQuery "KR" None limit] ++ d ++ [ELog SUCCESS]).
  split.
  - rewrite Z.add_0_l. f_equal. rewrite <- !app_assoc. reflexivity.
  - rewrite !promoted_ids_app, Hd. simpl. now rewrite app_nil_r.
Qed.


(** *** Export in batches *)

















End Stages.
Import Samples.

Lemma nickname_round_trip_witness :
  exists p',
    Pipeline.rebuild_profile no_float no_int no_datetime (store_world [])
      (model_dump iso_text hangul_profile) []
    = (Ok p', [])
    /\ nickname p' = hangul_nickname.
Proof.
  destruct (nickname_round_trip no_float no_int no_datetime iso_text
              same_text (store_world []) 0 hangul_args hangul_profile
              (model_dump iso_text hangul_profile) [])
    as (p' & H & Hn & _).
  - reflexivity.
  - intros key _. reflexivity.
  - exists p'. split; [exact H | exact Hn].
Defined.


Lemma promotion_is_boundary_inclusive_witness :
  exists d,
    promote_best_to_gold (store_world boundary_table) (Fin 55) 50 []
    = (Ok 1, [] ++ d)
    /\ promoted_ids d = [PInt 2].
Proof.
  destruct (promotion_is_boundary_inclusive
              (store_world boundary_table) 55 50 [] boundary_table)
    as [(d & Hrun & Hids) _].
  - intros h. reflexivity.
  - reflexivity.
  - exists d. split; [exact Hrun | exact Hids].
Defined.

(** The two records of the specification. *)
Example win_rate_54_9_is_not_promoted :
  qualifies (Fin 55) (silver_row 1 "KR" (PFloat (Fin (549 # 10)))) = false.
Proof. reflexivity. Qed.

Example win_rate_55_0_is_promoted :
  qualifies (Fin 55) (silver_row 2 "KR" (PFloat (Fin 55))) = true.
Proof. reflexivity. Qed.

(** C4 (as stated). A normalized record of another country whose win
    rate is above the threshold is in the store, and the promotion
    step submits nothing. *)
Lemma record_outside_the_fetch_is_not_promoted :
  let run := promote_best_to_gold (store_world [vietnam_row]) (Fin 55) 50
                                  [] in
  qualifies (Fin 55) vietnam_row = true
  /\ fst run = Ok 0
  /\ promoted_ids (snd run) = [].
Proof. vm_compute. repeat split; reflexivity. Qed.




(** The third row raises: four records and one error. *)
Example raising_row_is_counted :
  let st := process_rows (five_rows QueryRaises) (mkCollector [] 0 0) in
  length (players_data st) = 4%nat /\ error_count st = 1.
Proof. vm_compute. split; reflexivity. Qed.

(** The adapter of the scrapers fails on the third of five identifiers,
    by raising or by returning nothing: four profiles, all five
    identifiers visited, four pauses. *)
Example third_of_five (failure : scrape_outcome) :
  failure = ScrapeRaises \/ failure = ScrapeNone ->
  let run := scrape_players (third_fails failure) five_identifiers [] in
  fst run = Ok [hangul_profile; hangul_profile; hangul_profile;
                hangul_profile]
  /\ scraped (snd run) = five_identifiers
  /\ length (List.filter (fun e => match e with
                                    | ESleep _ => true
                                    | _ => false
                                    end) (snd run)) = 4%nat.
Proof. intros [-> | ->]; vm_compute; repeat split; reflexivity. Qed.

End PipelineFacts.

(** ** Country inference: the order of the signals *)

Module CountryOrderFacts.

Import CountryDetector CountryRegions CountryFacts.

Lemma first_contained_empty_text table :
  (forall key value, In (key, value) table -> key <> []) ->
  first_contained table [] = None.
Proof.
  induction table as [|[key value] rest IH]; intros Hne; simpl.
  - reflexivity.
  - destruct key as [|c key'].
    + exfalso. apply (Hne [] value); [now left | reflexivity].
    + apply IH. intros k v Hin. apply (Hne k v). now right.
Qed.

Lemma table_keys_nonempty (table : list (str * CountryCode)) :
  forallb (fun kv => truthy (fst kv)) table = true ->
  forall key value, In (key, value) table -> key <> [].
Proof.
  intros Hall key value Hin ->.
  rewrite forallb_forall in Hall. specialize (Hall _ Hin). discriminate.
Qed.

(** On the empty text no step answers. *)
Lemma flag_of_empty : detect_country_from_flag [] = None.
Proof. reflexivity. Qed.

Lemma name_of_empty ul : detect_country_from_name ul [] = None.
Proof. reflexivity. Qed.

Lemma server_of_empty ul : detect_country_from_server ul [] = None.
Proof. reflexivity. Qed.

Lemma url_of_empty ul : detect_country_from_url ul [] = None.
Proof. reflexivity. Qed.

Lemma when_given_step (x : option str) (step : str -> option CountryCode)
      (rest : CountryCode) :
  step [] = None ->
  when_given x (fun t r => return_if_found (step t) r) rest
  = match on_input step x with Some c => c | None => rest end.
Proof.
  intros Hempty. destruct x as [[|c t]|]; simpl.
  - now rewrite Hempty.
  - destruct (step (c :: t)); [apply return_if_found_some | reflexivity].
  - reflexivity.
Qed.

Lemma when_given_two (x : option str)
      (step1 step2 : str -> option CountryCode) (rest : CountryCode) :
  step1 [] = None -> step2 [] = None ->
  when_given x (fun t r => return_if_found (step1 t)
                             (return_if_found (step2 t) r)) rest
  = match on_input step1 x with
    | Some c => c
    | None => match on_input step2 x with Some c => c | None => rest end
    end.
Proof.
  intros H1 H2. destruct x as [[|c t]|]; simpl.
  - now rewrite H1, H2.
  - destruct (step1 (c :: t)); [apply return_if_found_some|].
    destruct (step2 (c :: t)); [apply return_if_found_some | reflexivity].
  - reflexivity.
Qed.

(** X1. [detect_country] answers with the first of its six signals that
    finds a country (flag in the profile text, name in the profile
    text, server, url, flag in the additional text, name in the
    additional text), and with UNKNOWN when none does; an empty input
    counts as an absent one. *)
Theorem detect_country_first_signal
        (ul : str -> str)
        (profile_text server url additional_text : option str) :
  detect_country ul profile_text server url additional_text
  = default UNKNOWN
      (first_some (signals ul profile_text server url additional_text)).
Proof.
  unfold detect_country, signals.
  rewrite (when_given_two profile_text detect_country_from_flag
             (detect_country_from_name ul))
    by reflexivity.
  rewrite (when_given_step server (detect_country_from_server ul))
    by reflexivity.
  rewrite (when_given_step url (detect_country_from_url ul))
    by reflexivity.
  rewrite (when_given_two additional_text detect_country_from_flag
             (detect_country_from_name ul))
    by reflexivity.
  cbn [first_some].
  repeat match goal with
         | |- context [on_input ?f ?x] => destruct (on_input f x)
         end; reflexivity.
Qed.

(** *** The server step *)

Lemma lstrip_spaces (p s : str) :
  forallb is_space p = true -> lstrip (p ++ s) = lstrip s.
Proof.
  induction p as [|c p IH]; simpl; intros H; [reflexivity|].
  apply andb_true_iff in H as [-> H]. now apply IH.
Qed.

Lemma lstrip_all_spaces (p : str) :
  forallb is_space p = true -> lstrip p = [].
Proof.
  intros H. rewrite <- (app_nil_r p). now rewrite lstrip_spaces.
Qed.

Lemma forallb_rev {A} (f : A -> bool) (l : list A) :
  forallb f l = true -> forallb f (rev l) = true.
Proof.
  rewrite !forallb_forall. intros H x Hx. apply H. now apply in_rev.
Qed.

Lemma rstrip_spaces (s p : str) :
  forallb is_space p = true -> rstrip (s ++ p) = rstrip s.
Proof.
  intros H. unfold rstrip. rewrite rev_app_distr.
  rewrite lstrip_spaces by now apply forallb_rev. reflexivity.
Qed.

Lemma strip_padding (p s q : str) :
  forallb is_space p = true -> forallb is_space q = true ->
  strip (p ++ s ++ q) = strip s.
Proof.
  intros Hp Hq. unfold strip. rewrite lstrip_spaces by exact Hp.
  induction s as [|c s IH]; simpl.
  - now rewrite (lstrip_all_spaces q Hq).
  - destruct (is_space c); [exact IH|].
    apply (rstrip_spaces (c :: s) q Hq).
Qed.

Lemma ascii_upper_is_ascii (c : codepoint) :
  is_ascii c = true -> is_ascii (ascii_upper c) = true.
Proof.
  unfold is_ascii, ascii_upper. intros H. apply N.ltb_lt in H.
  destruct ((97 <=? c) && (c <=? 122))%N; apply N.ltb_lt; lia.
Qed.

Lemma ascii_lower_upper (c : codepoint) :
  ascii_lower (ascii_upper c) = ascii_lower c.
Proof.
  unfold ascii_lower, ascii_upper.
  destruct ((97 <=? c) && (c <=? 122))%N eqn:Hlow; [|reflexivity].
  apply andb_true_iff in Hlow as [H1 H2].
  apply N.leb_le in H1. apply N.leb_le in H2.
  replace ((65 <=? c - 32) && (c - 32 <=? 90))%N with true
    by (symmetry; apply andb_true_iff; split; apply N.leb_le; lia).
  replace ((65 <=? c) && (c <=? 90))%N with false
    by (symmetry; apply andb_false_iff; right; apply N.leb_gt; lia).
  lia.
Qed.

(** An ASCII space is no letter. *)
Lemma ascii_lower_space (c : codepoint) :
  is_ascii c && is_space c = true -> ascii_lower c = c.
Proof.
  unfold is_ascii, is_space, ascii_lower. intros H.
  apply andb_true_iff in H as [Ha Hs]. apply N.ltb_lt in Ha.
  replace ((65 <=? c) && (c <=? 90))%N with false; [reflexivity|].
  symmetry. apply andb_false_iff.
  destruct (N.leb_spec 65 c) as [H65|H65]; [right | now left].
  apply N.leb_gt.
  repeat (apply orb_true_iff in Hs as [Hs|Hs]);
    repeat match goal with
           | H : (_ && _)%bool = true |- _ =>
               apply andb_true_iff in H as [? ?]
           | H : (_ <=? _)%N = true |- _ => apply N.leb_le in H
           | H : (_ =? _)%N = true |- _ => apply N.eqb_eq in H
           end; lia.
Qed.

Lemma ascii_spaces_lower (p : str) :
  forallb ascii_space p = true ->
  forallb is_ascii p = true /\ forallb is_space p = true
  /\ map ascii_lower p = p.
Proof.
  induction p as [|c p IH]; simpl; intros H; [auto|].
  apply andb_true_iff in H as [Hc Hp].
  destruct (IH Hp) as (-> & -> & ->).
  rewrite (ascii_lower_space c Hc).
  apply andb_true_iff in Hc as [-> ->]. auto.
Qed.

(** X3. The server step reads an ASCII server name without regard to
    the case of its letters and to ASCII white space around it: the
    name in capitals between blanks gives the country of the name. *)
Theorem server_detection_ignores_case_and_padding
        (ul : str -> str) (before server after : str) :
  forallb is_ascii server = true ->
  forallb ascii_space before = true ->
  forallb ascii_space after = true ->
  detect_country_from_server ul (before ++ map ascii_upper server ++ after)
  = detect_country_from_server ul server.
Proof.
  intros Hs Hb Ha.
  destruct (ascii_spaces_lower before Hb) as (Hb1 & Hb2 & Hb3).
  destruct (ascii_spaces_lower after Ha) as (Ha1 & Ha2 & Ha3).
  unfold detect_country_from_server, lower.
  assert (Hu : forallb is_ascii (map ascii_upper server) = true).
  { rewrite forallb_forall in *. intros c Hc.
    apply in_map_iff in Hc as (c0 & <- & Hc0).
    apply ascii_upper_is_ascii. now apply Hs. }
  rewrite !forallb_app, Hb1, Hu, Ha1, Hs. cbn [andb].
  rewrite !map_app, Hb3, Ha3, map_map.
  rewrite (map_ext _ ascii_lower) by apply ascii_lower_upper.
  now rewrite strip_padding.
Qed.

Lemma server_detection_ignores_case_and_padding_witness :
  detect_country_from_server Samples.same_text
    ([32%N] ++ map ascii_upper (lit "mumbai") ++ [10%N])
  = detect_country_from_server Samples.same_text (lit "mumbai").
Proof.
  apply (server_detection_ignores_case_and_padding
           Samples.same_text [32%N] (lit "mumbai") [10%N]);
    reflexivity.
Defined.

Lemma str_eqb_eq (a b : str) : str_eqb a b = true -> a = b.
Proof.
  revert b. induction a as [|x a IH]; intros [|y b]; simpl;
    try discriminate; [reflexivity|].
  intros H. apply andb_true_iff in H as [Hx Hab].
  apply N.eqb_eq in Hx. f_equal; [exact Hx | now apply IH].
Qed.

(** Every country but the placeholder UNKNOWN has a named region;
    UNKNOWN, and nothing else, is filed under the catch-all region. *)
Lemma region_catch_all_is_unknown (country : CountryCode) :
  get_server_region country = "Asia Pacific" <-> country = UNKNOWN.
Proof.
  split.
  - destruct country; vm_compute; intros H; try discriminate H; reflexivity.
  - intros ->. reflexivity.
Qed.


End CountryOrderFacts.
(** ** The player query *)

Module QueryFacts.

Import Pipeline Queries.

Lemma key_lt_asym (a b : option Z) : key_lt a b = true -> key_lt b a = false.
Proof.
  destruct a as [x|], b as [y|]; simpl; try discriminate; try reflexivity.
  intros H. apply Z.ltb_lt in H. apply Z.ltb_ge. lia.
Qed.

(** [c < b] and [a] not below [b] put [c] below [a]. *)
Lemma key_lt_le_trans (a b c : option Z) :
  key_lt a b = false -> key_lt c b = true -> key_lt a c = false.
Proof.
  destruct a as [x|], b as [y|], c as [z|]; simpl;
    try discriminate; try reflexivity.
  intros H1 H2. apply Z.ltb_ge in H1. apply Z.ltb_lt in H2.
  apply Z.ltb_ge. lia.
Qed.

Lemma insert_desc_In row sorted x :
  In x (insert_desc row sorted) -> x = row \/ In x sorted.
Proof.
  induction sorted as [|s rest IH]; simpl.
  - intros [<-|[]]. now left.
  - destruct (key_lt (rank_key s) (rank_key row)); simpl.
    + intros [<-|H]; [now left | now right].
    + intros [<-|H]; [right; now left|].
      destruct (IH H) as [->|H']; [now left | right; now right].
Qed.

Lemma insert_desc_perm row sorted :
  Permutation (insert_desc row sorted) (row :: sorted).
Proof.
  induction sorted as [|s rest IH]; simpl; [reflexivity|].
  destruct (key_lt (rank_key s) (rank_key row)); [reflexivity|].
  rewrite IH. apply perm_swap.
Qed.

Lemma insert_desc_descending row sorted :
  descending sorted = true -> descending (insert_desc row sorted) = true.
Proof.
  induction sorted as [|s rest IH]; simpl; intros H; [reflexivity|].
  apply andb_true_iff in H as [Hs Hrest].
  destruct (key_lt (rank_key s) (rank_key row)) eqn:E.
  - cbn [descending forallb]. rewrite Hs, Hrest.
    unfold not_after at 1. rewrite (key_lt_asym _ _ E). cbn [negb andb].
    rewrite andb_true_r. apply forallb_forall. intros r Hr.
    rewrite forallb_forall in Hs. specialize (Hs r Hr).
    unfold not_after in *. apply negb_true_iff in Hs.
    apply negb_true_iff. apply key_lt_asym in E.
    destruct (rank_key row) as [x|], (rank_key s) as [y|],
      (rank_key r) as [z|]; simpl in *; try discriminate; try reflexivity.
    apply Z.ltb_ge in E. apply Z.ltb_ge in Hs. apply Z.ltb_ge. lia.
  - cbn [descending]. rewrite (IH Hrest), andb_true_r.
    apply forallb_forall. intros r Hr.
    apply insert_desc_In in Hr as [->|Hr].
    + unfold not_after. now rewrite E.
    + rewrite forallb_forall in Hs. now apply Hs.
Qed.

Lemma order_desc_spec rows :
  Permutation (order_desc rows) rows /\ descending (order_desc rows) = true.
Proof.
  unfold order_desc.
  assert (Hgen : forall acc,
             descending acc = true ->
             Permutation
               (fold_left (fun sorted row => insert_desc row sorted) rows acc)
               (acc ++ rows)
             /\ descending
                  (fold_left (fun sorted row => insert_desc row sorted)
                             rows acc) = true).
  { induction rows as [|row rest IH]; intros acc Hacc; simpl.
    - rewrite app_nil_r. split; [reflexivity | exact Hacc].
    - destruct (IH (insert_desc row acc)) as [Hp Hd].
      { now apply insert_desc_descending. }
      split; [|exact Hd].
      rewrite Hp, insert_desc_perm.
      change (row :: acc) with ([row] ++ acc).
      rewrite <- app_assoc.
      change (row :: rest) with ([row] ++ rest).
      rewrite !app_assoc. apply Permutation_app_tail.
      apply Permutation_app_comm. }
  apply (Hgen []). reflexivity.
Qed.

Lemma filter_filter {A} (f g : A -> bool) (l : list A) :
  List.filter g (List.filter f l) = List.filter (fun x => f x && g x) l.
Proof.
  induction l as [|x l IH]; simpl; [reflexivity|].
  destruct (f x); simpl; [destruct (g x)|]; now rewrite IH.
Qed.

Lemma select_players_matching table country game limit :
  select_players table country game limit
  = firstn limit (order_desc (List.filter (matches country game) table)).
Proof.
  unfold select_players, matches. f_equal. f_equal.
  destruct game as [g|]; [destruct (string_truthy g)|].
  - apply filter_filter.
  - apply List.filter_ext. intros row. now rewrite andb_true_r.
  - apply List.filter_ext. intros row. now rewrite andb_true_r.
Qed.

(** X4. The query of [get_players_by_country] returns the first [limit]
    rows of a descending arrangement by rank (rows without a rank
    first) of exactly the rows of the table that pass its filters: the
    country, and the game when a non-empty one is given. Nothing is
    returned twice or invented, and no row left out ranks before a
    returned one. *)
Theorem query_returns_the_top_matching_rows
        (table : list (gmap string PyVal)) (country : string)
        (game : option string) (limit : nat) :
  let result := select_players table country game limit in
  let matching := List.filter (matches country game) table in
  exists rest,
    Permutation (result ++ rest) matching
    /\ descending (result ++ rest) = true
    /\ length result = Nat.min limit (length matching).
Proof.
  intros result matching. subst result.
  rewrite select_players_matching. fold matching.
  destruct (order_desc_spec matching) as [Hperm Hdesc].
  exists (skipn limit (order_desc matching)).
  rewrite firstn_skipn. split; [exact Hperm|]. split; [exact Hdesc|].
  rewrite length_firstn. now rewrite (Permutation_length Hperm).
Qed.

End QueryFacts.
(** ** Validated records: bounds, missing fields, the record form *)

Module ProfileFacts.

Import Models ProfileShape ModelFacts.

Section Validation.
Variable lax_float_of_str : str -> option pyfloat.
Variable lax_int_of_str : str -> option Z.
Variable lax_datetime : PyVal -> option Z.
Variable isoformat : Z -> str.

Let validate_float_in := validate_float_in lax_float_of_str.
Let validate_int_in := validate_int_in lax_int_of_str.
Let Champion_new := Champion_new lax_float_of_str lax_int_of_str.
Let PlayerStats_new := PlayerStats_new lax_float_of_str lax_int_of_str.
Let field_top_champions :=
  field_top_champions lax_float_of_str lax_int_of_str.
Let PlayerProfile_new :=
  PlayerProfile_new lax_float_of_str lax_int_of_str lax_datetime.
Let model_dump := model_dump isoformat.

Lemma required_ok {A} (f : PyVal -> result A) arg a :
  required f arg = Ok a -> exists v, arg = Some v /\ f v = Ok a.
Proof. destruct arg as [v|]; [eauto | discriminate]. Qed.

Lemma float_in_bounds lo hi v x :
  validate_float_in lo hi v = Ok x -> float_bounds lo hi x = true.
Proof.
  unfold validate_float_in, Models.validate_float_in. intros H.
  apply rbind_ok in H as (y & _ & H).
  apply rbind_ok in H as (u & Hc & H). injection H as ->.
  unfold check in Hc. now destruct (float_bounds lo hi x).
Qed.

Lemma int_in_bounds lo hi v z :
  validate_int_in lo hi v = Ok z -> int_bounds lo hi z = true.
Proof.
  unfold validate_int_in, Models.validate_int_in. intros H.
  apply rbind_ok in H as (y & _ & H).
  apply rbind_ok in H as (u & Hc & H). injection H as ->.
  unfold check in Hc. now destruct (int_bounds lo hi z).
Qed.

Lemma optional_nonneg arg o :
  optional (validate_float_in (Some zero) None) arg = Ok o ->
  opt_nonneg o = true.
Proof.
  destruct arg as [v|]; simpl; [|intros H; now injection H as <-].
  destruct v; cbn [optional]; intros H;
    try (injection H as <-; reflexivity);
    apply rbind_ok in H as (fx & Hx & H); injection H as <-;
    apply float_in_bounds in Hx; unfold float_bounds in Hx;
    rewrite andb_true_r in Hx; exact Hx.
Qed.

Lemma Champion_new_bounds d c :
  Champion_new d = Ok c -> champion_in_bounds c = true.
Proof.
  unfold Champion_new, Models.Champion_new. intros H.
  apply rbind_ok in H as (n & Hn & H).
  apply rbind_ok in H as (g & Hg & H).
  apply rbind_ok in H as (r & Hr & H).
  injection H as <-.
  apply required_ok in Hg as (vg & _ & Hg).
  apply required_ok in Hr as (vr & _ & Hr).
  apply int_in_bounds in Hg. apply float_in_bounds in Hr.
  unfold champion_in_bounds, percentage.
  cbn [champ_games_played champ_win_rate].
  unfold int_bounds in Hg. rewrite andb_true_r in Hg.
  unfold float_bounds, fge in Hr.
  rewrite Hg. exact Hr.
Qed.

Lemma PlayerStats_new_bounds d s :
  PlayerStats_new d = Ok s -> stats_in_bounds s = true.
Proof.
  unfold PlayerStats_new, Models.PlayerStats_new. intros H.
  apply rbind_ok in H as (w & Hw & H).
  apply rbind_ok in H as (k & Hk & H).
  apply rbind_ok in H as (ka & Hka & H).
  apply rbind_ok in H as (da & Hda & H).
  apply rbind_ok in H as (aa & Haa & H).
  apply rbind_ok in H as (g & Hg & H).
  injection H as <-.
  apply required_ok in Hw as (vw & _ & Hw).
  apply required_ok in Hk as (vk & _ & Hk).
  apply float_in_bounds in Hw. apply float_in_bounds in Hk.
  apply optional_nonneg in Hka, Hda, Haa.
  assert (Hgb : (1 <=? g) && (g <=? 100) = true).
  { destruct (d !! "games_analyzed") as [vg|]; simpl in Hg.
    - now apply int_in_bounds in Hg.
    - now injection Hg as <-. }
  unfold stats_in_bounds, percentage, nonneg.
  cbn [stat_win_rate stat_kda stat_kills_avg stat_deaths_avg
       stat_assists_avg stat_games_analyzed].
  unfold float_bounds, fge in Hw, Hk. rewrite andb_true_r in Hk.
  rewrite Hw, Hk, Hka, Hda, Haa. cbn [andb].
  exact Hgb.
Qed.

Lemma champions_bounds items l :
  validate_each (validate_model Champion_new) items = Ok l ->
  forallb champion_in_bounds l = true.
Proof.
  revert l. induction items as [|v rest IH]; simpl; intros l H.
  - now injection H as <-.
  - apply rbind_ok in H as (c & Hc & H).
    apply rbind_ok in H as (others & Hrest & H).
    injection H as <-. simpl. rewrite (IH _ Hrest), andb_true_r.
    destruct v; try discriminate. simpl in Hc.
    now apply Champion_new_bounds in Hc.
Qed.

Lemma field_top_champions_bounds arg l :
  field_top_champions arg = Ok l ->
  (1 <=? length l)%nat && (length l <=? 3)%nat = true
  /\ forallb champion_in_bounds l = true.
Proof.
  unfold field_top_champions, Models.field_top_champions. intros H.
  apply rbind_ok in H as (l0 & H0 & H).
  apply required_ok in H0 as (v & _ & H0).
  destruct v; try discriminate. cbn [validate_list_in] in H0.
  apply rbind_ok in H0 as (l1 & Heach & H0).
  apply rbind_ok in H0 as (u & Hcheck & H0). injection H0 as ->.
  unfold check in Hcheck.
  destruct ((1 <=? length l0)%nat && (length l0 <=? 3)%nat) eqn:E;
    [|discriminate].
  apply andb_true_iff in E as [E1 E3]. apply Nat.leb_le in E3 as E3'.
  unfold as_validation_error, try_except, validate_top_champions in H.
  replace (3 <? length l0)%nat with false in H
    by (symmetry; apply Nat.ltb_ge; exact E3').
  injection H as <-. rewrite E1, E3. split; [reflexivity|].
  now apply champions_bounds in Heach.
Qed.

Lemma field_nickname_spec (s : str) :
  field_nickname (Some (PStr s))
  = if nickname_in_bounds s then Ok s else Raise ValidationError.
Proof.
  unfold field_nickname, nickname_in_bounds.
  cbn [required validate_str rbind].
  destruct ((1 <=? length s)%nat && (length s <=? 100)%nat) eqn:E;
    cbn [check rbind andb]; [|reflexivity].
  unfold as_validation_error, try_except.
  rewrite Utf8Facts.validate_unicode_support_spec.
  assert (Ht : truthy s = true).
  { apply andb_true_iff in E as [E _]. destruct s; [discriminate E|].
    reflexivity. }
  rewrite Ht. simpl. now destruct (forallb Utf8.scalar s).
Qed.

Lemma field_nickname_bounds arg s :
  field_nickname arg = Ok s -> nickname_in_bounds s = true.
Proof.
  intros H. pose proof (field_nickname_again _ _ H) as Hagain.
  rewrite field_nickname_spec in Hagain.
  now destruct (nickname_in_bounds s).
Qed.

(** The three fields that have a default. *)
Lemma PlayerProfile_new_defaults now kwargs p :
  PlayerProfile_new now kwargs = Ok p ->
  optional (validate_int lax_int_of_str) (kwargs !! "rank_numeric")
  = Ok (rank_numeric p)
  /\ with_default (fun v => of_option (lax_datetime v)) now
                  (kwargs !! "scraped_at") = Ok (scraped_at p)
  /\ with_default (validate_float_in (Some zero) (Some one)) one
                  (kwargs !! "data_quality_score")
     = Ok (data_quality_score p).
Proof.
  unfold PlayerProfile_new, Models.PlayerProfile_new. intros H.
  apply rbind_ok in H as (x1 & H1 & H).
  apply rbind_ok in H as (x2 & H2 & H).
  apply rbind_ok in H as (x3 & H3 & H).
  apply rbind_ok in H as (x4 & H4 & H).
  apply rbind_ok in H as (x5 & H5 & H).
  apply rbind_ok in H as (x6 & H6 & H).
  apply rbind_ok in H as (x7 & H7 & H).
  apply rbind_ok in H as (x8 & H8 & H).
  apply rbind_ok in H as (x9 & H9 & H).
  apply rbind_ok in H as (x10 & H10 & H).
  apply rbind_ok in H as (x11 & H11 & H).
  injection H as <-. simpl. repeat split; assumption.
Qed.

Lemma quality_score_bounds arg x :
  with_default (validate_float_in (Some zero) (Some one)) one arg = Ok x ->
  in_unit x = true.
Proof.
  destruct arg as [v|]; simpl.
  - intros H. now apply float_in_bounds in H.
  - intros H. now injection H as <-.
Qed.

(** X5. Every profile the constructor returns keeps the bounds its
    fields declare: a nickname of 1 to 100 code points that UTF-8 can
    carry, a win rate in [0, 100], no negative average, 1 to 100
    analysed games, one to three champions, each with a win rate in
    [0, 100] and no negative number of games, and a quality score in
    [0, 1]. *)
Theorem constructed_profile_in_bounds
        (now : Z) (kwargs : gmap string PyVal) (p : PlayerProfile) :
  PlayerProfile_new now kwargs = Ok p -> profile_in_bounds p = true.
Proof.
  intros H.
  destruct (PlayerProfile_new_defaults _ _ _ H) as (_ & _ & Hq).
  apply (PlayerProfile_new_fields lax_float_of_str lax_int_of_str
           lax_datetime) in H
    as (Hnick & _ & _ & _ & _ & Hstats & Htop & _).
  apply field_nickname_bounds in Hnick.
  apply required_ok in Hstats as (v & _ & Hstats).
  destruct v; try discriminate. simpl in Hstats.
  apply PlayerStats_new_bounds in Hstats.
  apply field_top_champions_bounds in Htop as [Hlen Hall].
  apply quality_score_bounds in Hq.
  unfold profile_in_bounds.
  rewrite Hnick, Hstats, Hall, Hq. cbn [andb].
  now rewrite !andb_true_r.
Qed.

(** X6. A construction that lacks one of the eight fields declared
    without a default fails with a [ValidationError], whatever the
    other arguments are. *)
Theorem missing_required_field_rejected
        (now : Z) (kwargs : gmap string PyVal) (key : string) :
  In key required_fields ->
  kwargs !! key = None ->
  PlayerProfile_new now kwargs = Raise ValidationError.
Proof.
  intros Hkey Hnone.
  destruct (PlayerProfile_new now kwargs) as [p|e] eqn:E.
  - exfalso.
    apply (PlayerProfile_new_fields lax_float_of_str lax_int_of_str
             lax_datetime) in E
      as (H1 & H2 & H3 & H4 & H5 & H6 & H7 & H8).
    unfold Models.field_nickname in H1.
    unfold Models.field_top_champions in H7.
    apply rbind_ok in H1 as (s1 & H1 & _).
    apply rbind_ok in H7 as (l7 & H7 & _).
    simpl in Hkey.
    repeat (destruct Hkey as [<-|Hkey];
            [rewrite Hnone in *; discriminate|]).
    exact Hkey.
  - f_equal.
    now apply (ove_PlayerProfile_new lax_float_of_str lax_int_of_str
                 lax_datetime now kwargs).
Qed.

(** X7. The nickname field accepts exactly the texts of 1 to 100 code
    points that UTF-8 can carry (no surrogate), and returns an
    accepted text unchanged; Hangul, Han and Devanagari letters
    pass as they are. *)
Theorem nickname_field_accepts_exactly (s r : str) :
  field_nickname (Some (PStr s)) = Ok r
  <-> nickname_in_bounds s = true /\ r = s.
Proof.
  rewrite field_nickname_spec.
  destruct (nickname_in_bounds s); split.
  - intros H. injection H as <-. auto.
  - intros [_ ->]. reflexivity.
  - discriminate.
  - intros [H _]. discriminate H.
Qed.

Lemma rank_numeric_again (r : option Z) :
  optional (validate_int lax_int_of_str) (Some (dump_opt_int r)) = Ok r.
Proof. destruct r; reflexivity. Qed.

(** X8. A constructed profile written in its record form
    ([model_dump(mode='json')]) constructs the same profile again,
    field for field and at whatever instant, provided the timestamp
    text is read back as the instant it was written from. *)
Theorem record_form_round_trip
        (now now' : Z) (kwargs : gmap string PyVal) (p : PlayerProfile) :
  PlayerProfile_new now kwargs = Ok p ->
  lax_datetime (PStr (isoformat (scraped_at p))) = Some (scraped_at p) ->
  PlayerProfile_new now' (model_dump p) = Ok p.
Proof.
  intros Hnew Htime.
  destruct (PlayerProfile_new_defaults _ _ _ Hnew) as (_ & _ & Hq).
  apply (PlayerProfile_new_fields lax_float_of_str lax_int_of_str
           lax_datetime) in Hnew
    as (Hnick & Hgame & Hcountry & Hserver & Hrank & Hstats & Htop & Hurl).
  assert (Hq' : Models.validate_float_in lax_float_of_str
                  (Some zero) (Some one) (PFloat (data_quality_score p))
                = Ok (data_quality_score p)).
  { apply quality_score_bounds in Hq. unfold Models.validate_float_in.
    simpl. unfold float_bounds, fge. unfold in_unit in Hq.
    now rewrite Hq. }
  unfold PlayerProfile_new, Models.PlayerProfile_new.
  unfold model_dump, Models.model_dump.
  set (K := ({[ "nickname" := PStr (nickname p);
                "game" := PStr (lit (game_value (game p)));
                "country" := PStr (lit (country_value (country p)));
                "server" := PStr (server p);
                "rank" := PStr (rank p);
                "rank_numeric" := dump_opt_int (rank_numeric p);
                "stats" := PDict (PlayerStats_dump (stats p));
                "top_champions" :=
                  PList (map (fun c => PDict (Champion_dump c))
                             (top_champions p));
                "profile_url" := PStr (profile_url p);
                "scraped_at" := PStr (isoformat (scraped_at p));
                "data_quality_score" := PFloat (data_quality_score p) ]}
             : gmap string PyVal)).
  change (K !! "nickname") with (Some (PStr (nickname p))).
  change (K !! "game") with (Some (PStr (lit (game_value (game p))))).
  change (K !! "country")
    with (Some (PStr (lit (country_value (country p))))).
  change (K !! "server") with (Some (PStr (server p))).
  change (K !! "rank") with (Some (PStr (rank p))).
  change (K !! "rank_numeric") with (Some (dump_opt_int (rank_numeric p))).
  change (K !! "stats") with (Some (PDict (PlayerStats_dump (stats p)))).
  change (K !! "top_champions")
    with (Some (PList (map (fun c => PDict (Champion_dump c))
                           (top_champions p)))).
  change (K !! "profile_url") with (Some (PStr (profile_url p))).
  change (K !! "scraped_at")
    with (Some (PStr (isoformat (scraped_at p)))).
  change (K !! "data_quality_score")
    with (Some (PFloat (data_quality_score p))).
  rewrite (field_nickname_again _ _ Hnick). cbn [rbind].
  rewrite (game_again _ _ Hgame). cbn [rbind].
  rewrite (country_again _ _ Hcountry). cbn [rbind].
  change (required validate_str (Some (PStr (server p))))
    with (Ok (server p)).
  change (required validate_str (Some (PStr (rank p))))
    with (Ok (rank p)).
  cbn [rbind]. rewrite rank_numeric_again. cbn [rbind].
  rewrite (stats_again _ _ _ _ Hstats). cbn [rbind].
  rewrite (field_top_champions_again _ _ _ _ Htop). cbn [rbind].
  change (required validate_str (Some (PStr (profile_url p))))
    with (Ok (profile_url p)).
  cbn [rbind with_default]. rewrite Htime. cbn [of_option rbind].
  rewrite Hq'. cbn [rbind]. now destruct p.
Qed.

End Validation.

Import Samples.

Lemma constructed_profile_in_bounds_witness :
  profile_in_bounds hangul_profile = true.
Proof.
  apply (constructed_profile_in_bounds no_float no_int no_datetime
           0 hangul_args hangul_profile).
  reflexivity.
Defined.

Lemma missing_required_field_rejected_witness :
  PlayerProfile_new no_float no_int no_datetime 0
                    (delete "stats" hangul_args)
  = Raise ValidationError.
Proof.
  apply (missing_required_field_rejected no_float no_int no_datetime
           0 (delete "stats" hangul_args) "stats").
  - simpl. tauto.
  - reflexivity.
Defined.

Lemma record_form_round_trip_witness :
  PlayerProfile_new no_float no_int epoch_datetime 7
                    (model_dump iso_text hangul_profile)
  = Ok hangul_profile.
Proof.
  apply (record_form_round_trip no_float no_int epoch_datetime iso_text
           0 7 hangul_args hangul_profile).
  - reflexivity.
  - reflexivity.
Defined.

End ProfileFacts.
(** ** The stages of the pipeline: pacing, isolation and footprints *)

Module StageFacts.

Import Models Pipeline Footprint ModelFacts PipelineFacts.

(** *** Computations that add only allowed events *)

Lemma only_ret {A} allowed (a : A) : only allowed (ret a).
Proof. intros tr. exists []. simpl. now rewrite app_nil_r. Qed.

Lemma only_raise {A} allowed (e : exn) : only allowed (@raise A e).
Proof. intros tr. exists []. simpl. now rewrite app_nil_r. Qed.

Lemma only_lift {A} allowed (r : result A) : only allowed (lift r).
Proof. intros tr. exists []. simpl. now rewrite app_nil_r. Qed.

Lemma only_history allowed : only allowed history.
Proof. intros tr. exists []. simpl. now rewrite app_nil_r. Qed.

Lemma only_emit allowed (e : event) :
  allowed e = true -> only allowed (emit e).
Proof. intros H tr. exists [e]. simpl. now rewrite H. Qed.

Lemma only_bind {A B} allowed (m : M A) (k : A -> M B) :
  only allowed m -> (forall a, only allowed (k a)) ->
  only allowed (bind m k).
Proof.
  intros Hm Hk tr. unfold bind. destruct (Hm tr) as (d & Hd & Hq).
  destruct (m tr) as [[a|e] tr']; simpl in Hd; subst tr'.
  - destruct (Hk a (tr ++ d)) as (d' & Hd' & Hq'). exists (d ++ d').
    rewrite Hd', app_assoc, forallb_app, Hq, Hq'. auto.
  - exists d. auto.
Qed.

Lemma only_try_catch {A} allowed (m : M A) (h : exn -> M A) :
  only allowed m -> (forall e, only allowed (h e)) ->
  only allowed (try_catch m h).
Proof.
  intros Hm Hh tr. unfold try_catch. destruct (Hm tr) as (d & Hd & Hq).
  destruct (m tr) as [[a|e] tr']; simpl in Hd; subst tr'.
  - exists d. auto.
  - destruct (Hh e (tr ++ d)) as (d' & Hd' & Hq'). exists (d ++ d').
    rewrite Hd', app_assoc, forallb_app, Hq, Hq'. auto.
Qed.

Lemma only_for_each {A S} allowed (items : list A) (body : A -> S -> M S)
      (s : S) :
  (forall x s', only allowed (body x s')) ->
  only allowed (for_each items body s).
Proof.
  intros Hbody. revert s.
  induction items as [|x rest IH]; intros s; simpl.
  - apply only_ret.
  - apply only_bind; [apply Hbody | exact IH].
Qed.

Ltac head_of t :=
  lazymatch t with
  | ?f _ => head_of f
  | _ => t
  end.

Ltac only_step :=
  lazymatch goal with
  | |- only _ (ret _) => apply only_ret
  | |- only _ (raise _) => apply only_raise
  | |- only _ (lift _) => apply only_lift
  | |- only _ history => apply only_history
  | |- only _ (log _) => apply only_emit; reflexivity
  | |- only _ (emit _) => apply only_emit; reflexivity
  | |- only _ (for_each _ _ _) => apply only_for_each; intros ? ?
  | |- only _ (try_catch _ _) => apply only_try_catch; [|intros ?]
  | |- only _ (bind _ _) => apply only_bind; [|intros ?]
  | |- only _ (if ?b then _ else _) => destruct b
  | |- only _ (match ?x with _ => _ end) => destruct x
  | |- only _ ?m => let h := head_of m in unfold h
  end.

Ltac only_events := repeat only_step.

Section WithWorld.
Variable lax_float_of_str : str -> option pyfloat.
Variable lax_int_of_str : str -> option Z.
Variable lax_datetime : PyVal -> option Z.
Variable isoformat : Z -> str.
Variable unicode_lower : str -> str.
Variable w : World.

(** *** The pauses of the collecting loop *)

Lemma paced_app (a b : list event) : paced (a ++ b) = paced a ++ paced b.
Proof. unfold paced. apply List.filter_app. Qed.

Lemma scrape_one_paced total i identifier acc tr :
  exists acc' d,
    scrape_one w total (i, identifier) acc tr = (Ok acc', tr ++ d)
    /\ paced d
       = EScrape i identifier
         :: (if Z.of_nat i <? Z.of_nat total - 1
             then [ESleep (rate_limit_delay w)] else []).
Proof.
  unfold scrape_one, bind, try_catch, log, emit, ret, raise. simpl.
  destruct (scrape_player w i identifier);
    destruct (Z.of_nat i <? Z.of_nat total - 1);
    simpl; rewrite <- ?app_assoc, ?app_nil_r; simpl;
    (eexists _, _; split; [reflexivity|]; reflexivity).
Qed.

Lemma scrape_loop_paced identifiers start acc tr :
  exists acc' d,
    for_each (combine (seq start (length identifiers)) identifiers)
             (scrape_one w (start + length identifiers)) acc tr
    = (Ok acc', tr ++ d)
    /\ paced d
       = pacing (rate_limit_delay w)
                (combine (seq start (length identifiers)) identifiers).
Proof.
  revert start acc tr.
  induction identifiers as [|identifier rest IH]; intros start acc tr.
  - exists acc, []. simpl. unfold ret. now rewrite app_nil_r.
  - cbn [length seq combine for_each]. unfold bind.
    destruct (scrape_one_paced (start + S (length rest)) start identifier
                               acc tr) as (acc1 & d1 & -> & Hd1).
    replace (start + S (length rest))%nat with (S start + length rest)%nat
      by lia.
    destruct (IH (S start) acc1 (tr ++ d1)) as (acc2 & d2 & -> & Hd2).
    exists acc2, (d1 ++ d2). rewrite <- app_assoc.
    split; [reflexivity|].
    rewrite paced_app, Hd1, Hd2. cbn [pacing fst snd].
    destruct rest as [|next rest'].
    + match goal with
      | |- context [(?a <? ?b)] => destruct (Z.ltb_spec a b) as [Hlt|Hge]
      end; [cbn [length] in Hlt; lia | reflexivity].
    + match goal with
      | |- context [(?a <? ?b)] => destruct (Z.ltb_spec a b) as [Hlt|Hge]
      end; [reflexivity | cbn [length] in Hge; lia].
Qed.

Lemma pacing_pauses delay (items : list (nat * str)) :
  length (List.filter is_sleep (pacing delay items))
  = (length items - 1)%nat.
Proof.
  induction items as [|item rest IH]; [reflexivity|].
  cbn [pacing List.filter is_sleep length].
  destruct rest as [|next rest']; [reflexivity|].
  cbn [List.filter is_sleep length]. rewrite IH. cbn [length]. lia.
Qed.

Lemma paced_sleeps (d : list event) :
  List.filter is_sleep (paced d) = List.filter is_sleep d.
Proof.
  unfold paced. rewrite QueryFacts.filter_filter.
  apply List.filter_ext. intros e. now destruct e.
Qed.

(** X11. The collecting loop calls the adapter once per identifier,
    in order, and pauses for the configured delay between two
    consecutive calls and not after the last one: [n] identifiers
    make [n - 1] pauses, whatever the adapter does. *)
Theorem pauses_between_identifiers
        (identifiers : list str) (tr : list event) :
  exists profiles d,
    scrape_players w identifiers tr = (Ok profiles, tr ++ d)
    /\ paced d = pacing (rate_limit_delay w) (enumerate identifiers)
    /\ length (List.filter is_sleep d) = (length identifiers - 1)%nat.
Proof.
  unfold scrape_players, bind, enumerate.
  destruct (scrape_loop_paced identifiers 0 [] tr)
    as (profiles & d & Hrun & Hd).
  cbn [Nat.add] in Hrun. rewrite Hrun.
  exists profiles, (d ++ [ELog INFO]). unfold log, emit, ret. simpl.
  rewrite app_assoc. split; [reflexivity|].
  assert (Hp : paced (d ++ [ELog INFO])
               = pacing (rate_limit_delay w)
                        (combine (seq 0 (length identifiers))
                                 identifiers)).
  { rewrite paced_app, Hd. simpl. now rewrite app_nil_r. }
  split; [exact Hp|].
  rewrite <- paced_sleeps, Hp, pacing_pauses.
  rewrite length_combine, length_seq. lia.
Qed.

(** *** The inserting loop *)









(** X13. A source name the factory does not know makes the run raise
    [ValueError] before any collaborator is called: the trace gains
    the three opening lines, the line of the first stage and the
    error line of the run, and nothing else. *)
Theorem unknown_source_stops_the_run
        (source : str) (identifiers : list str) (to_airtable : bool)
        (tr : list event) :
  create_scraper unicode_lower source <> Ok tt ->
  run_full_pipeline lax_float_of_str lax_int_of_str lax_datetime
    isoformat unicode_lower w source identifiers to_airtable tr
  = (Raise ValueError,
     tr ++ [ELog INFO; ELog INFO; ELog INFO; ELog INFO; ELog ERROR]).
Proof.
  intros Hsource.
  assert (Hraise : create_scraper unicode_lower source = Raise ValueError).
  { unfold create_scraper in *.
    destruct (_ || _); [now elim Hsource | reflexivity]. }
  unfold run_full_pipeline, run_scraping_to_bronze, try_catch, bind, log,
    emit, lift, raise.
  rewrite Hraise. simpl. now rewrite <- !app_assoc.
Qed.

(** *** A row the promoting loop cannot compare *)

Lemma for_each_app {A S} (a b : list A) (body : A -> S -> M S) (s : S) tr :
  for_each (a ++ b) body s tr
  = match for_each a body s tr with
    | (Ok s', tr') => for_each b body s' tr'
    | (Raise e, tr') => (Raise e, tr')
    end.
Proof.
  revert s tr. induction a as [|x a IH]; intros s tr; simpl.
  - reflexivity.
  - unfold bind. destruct (body x s tr) as [[s'|e] tr'].
    + apply IH.
    + reflexivity.
Qed.

Lemma promote_player_raises min_win_rate player n tr e :
  reaches min_win_rate player = Raise e ->
  promote_player w min_win_rate player n tr = (Raise e, tr).
Proof.
  unfold reaches, promote_player, bind, lift. intros H.
  destruct (win_rate_of player) as [wr|e']; simpl in *.
  - now rewrite H.
  - now injection H as ->.
Qed.

(** X14. The promoting loop does not isolate a row it cannot test: on
    the first fetched row whose win rate does not compare with the
    threshold (a text, a null, a missing [stats]), the stage raises
    the exception of the test; the rows before it have been
    submitted as usual and the rows after it are not looked at. *)
Theorem promotion_stops_at_an_incomparable_row
        (t : Q) (limit : nat) (tr : list event)
        (table before after : list (gmap string PyVal))
        (player : gmap string PyVal) (e : exn) :
  (forall h, silver_table w h = Ok table) ->
  select_players table "KR" None limit = before ++ player :: after ->
  forallb (comparable (Fin t)) before = true ->
  reaches (Fin t) player = Raise e ->
  exists d,
    promote_best_to_gold w (Fin t) limit tr = (Raise e, tr ++ d)
    /\ promoted_ids d
       = map id_of (List.filter (qualifies (Fin t)) before).
Proof.
  intros Htable Hrows Hall Hbad.
  unfold promote_best_to_gold, get_players_by_country.
  unfold bind, log, emit, history, try_catch, lift, ret.
  rewrite Htable, Hrows, for_each_app.
  destruct (promote_loop_spec w (Fin t) before 0
              ((tr ++ [ELog INFO]) ++ [EQuery "KR" None limit]) Hall)
    as (d & -> & Hd).
  cbn [for_each]. unfold bind.
  rewrite (promote_player_raises _ _ _ _ _ Hbad).
  exists ([ELog INFO; EQuery "KR" None limit] ++ d).
  split.
  - f_equal. rewrite <- !app_assoc. reflexivity.
  - rewrite promoted_ids_app, Hd. reflexivity.
Qed.

(** *** The export, whatever the rows are *)

Let rebuilt := rebuilt lax_float_of_str lax_int_of_str lax_datetime.
Let converts := converts lax_float_of_str lax_int_of_str lax_datetime.
Let convert_row :=
  convert_row lax_float_of_str lax_int_of_str lax_datetime w.
Let export_batch :=
  export_batch lax_float_of_str lax_int_of_str lax_datetime w.

(** Whether a construction succeeds does not depend on the instant
    it is made at. *)
Lemma new_profile_now_irrelevant now now' kwargs :
  SkillVector.is_raise
    (PlayerProfile_new lax_float_of_str lax_int_of_str lax_datetime
                       now kwargs)
  = SkillVector.is_raise
      (PlayerProfile_new lax_float_of_str lax_int_of_str lax_datetime
                         now' kwargs).
Proof.
  unfold PlayerProfile_new.
  repeat match goal with
         | |- SkillVector.is_raise (rbind ?r _)
              = SkillVector.is_raise (rbind ?r _) =>
             destruct r; cbn [rbind SkillVector.is_raise]; [|reflexivity]
         end.
  destruct (kwargs !! "scraped_at"); cbn [with_default rbind];
    repeat match goal with
           | |- SkillVector.is_raise (rbind ?r _)
                = SkillVector.is_raise (rbind ?r _) =>
               destruct r; cbn [rbind SkillVector.is_raise];
               [|reflexivity]
           end; reflexivity.
Qed.

Lemma rebuilt_converts now row :
  length (option_list (rebuilt now row))
  = length (List.filter converts [row]).
Proof.
  cbn [List.filter]. unfold converts, Footprint.converts.
  fold rebuilt. unfold rebuilt, Footprint.rebuilt.
  destruct (profile_kwargs row) as [kwargs|]; [|reflexivity].
  pose proof (new_profile_now_irrelevant now 0 kwargs) as H.
  destruct (PlayerProfile_new _ _ _ now kwargs);
    destruct (PlayerProfile_new _ _ _ 0 kwargs);
    try discriminate H; reflexivity.
Qed.

Lemma logs_sent_batches (d : list event) :
  forallb is_log d = true -> sent_batches d = [].
Proof.
  induction d as [|e d IH]; [reflexivity|].
  cbn [forallb]. intros H. apply andb_true_iff in H as [He Hd].
  unfold sent_batches in *. cbn [flat_map]. rewrite (IH Hd).
  destruct e; try reflexivity; discriminate He.
Qed.

Lemma sent_batches_app (a b : list event) :
  sent_batches (a ++ b) = sent_batches a ++ sent_batches b.
Proof. unfold sent_batches. apply flat_map_app. Qed.

Lemma delivered_app (a b : list event) :
  delivered w (a ++ b) = delivered w a + delivered w b.
Proof.
  unfold delivered.
  rewrite sent_batches_app, List.filter_app, map_app, list_sum_app.
  lia.
Qed.

Lemma convert_row_general row acc tr :
  exists d,
    convert_row row acc tr
    = (Ok (acc ++ option_list (rebuilt (utcnow w tr) row)), tr ++ d)
    /\ forallb is_log d = true.
Proof.
  unfold convert_row, Pipeline.convert_row, try_catch, bind,
    rebuild_profile, lift, history, rebuilt, Footprint.rebuilt.
  destruct (profile_kwargs row) as [kwargs|]; simpl.
  - destruct (PlayerProfile_new _ _ _ (utcnow w tr) kwargs); simpl.
    + exists []. unfold ret. now rewrite app_nil_r.
    + exists [ELog ERROR]. unfold log, emit, ret. simpl.
      now rewrite app_nil_r.
  - exists [ELog ERROR]. unfold log, emit, ret. simpl.
    now rewrite app_nil_r.
Qed.

Lemma convert_rows_general batch acc tr :
  exists profiles d,
    for_each batch convert_row acc tr = (Ok (acc ++ profiles), tr ++ d)
    /\ length profiles = length (List.filter converts batch)
    /\ forallb is_log d = true.
Proof.
  revert acc tr. induction batch as [|row rest IH]; intros acc tr.
  - exists [], []. simpl. unfold ret. now rewrite !app_nil_r.
  - cbn [for_each]. unfold bind.
    destruct (convert_row_general row acc tr) as (d1 & -> & Hd1).
    destruct (IH (acc ++ option_list (rebuilt (utcnow w tr) row))
                 (tr ++ d1)) as (profiles & d2 & -> & Hlen & Hd2).
    exists (option_list (rebuilt (utcnow w tr) row) ++ profiles),
           (d1 ++ d2).
    rewrite <- !app_assoc. split; [reflexivity|]. split.
    + rewrite length_app, Hlen, rebuilt_converts.
      change (row :: rest) with ([row] ++ rest).
      now rewrite List.filter_app, length_app.
    + now rewrite forallb_app, Hd1, Hd2.
Qed.

Lemma export_batch_general players i n tr :
  exists d,
    export_batch players i n tr = (Ok (n + delivered w d), tr ++ d)
    /\ map (@length _) (sent_batches d)
       = List.filter (Nat.ltb 0)
           [length (List.filter converts
                                (slice players i (i + batch_size)))].
Proof.
  unfold export_batch, Pipeline.export_batch, bind.
  fold convert_row.
  destruct (convert_rows_general (slice players i (i + batch_size)) [] tr)
    as (profiles & d & -> & Hlen & Hd).
  cbn [app]. rewrite <- Hlen.
  pose proof (logs_sent_batches d Hd) as Hnone.
  destruct profiles as [|p ps].
  - exists d. unfold ret, delivered. rewrite Hnone. simpl.
    now rewrite Z.add_0_r.
  - unfold try_catch, send_players_batch, bind, emit, log, raise, ret.
    destruct (send_batch_ok w (p :: ps)) eqn:Hok; simpl.
    + exists (d ++ [ESendBatch (p :: ps); ELog SUCCESS]).
      rewrite <- !app_assoc. simpl. split.
      * rewrite delivered_app. unfold delivered at 1. rewrite Hnone.
        unfold delivered. simpl. rewrite Hok. simpl.
        f_equal. f_equal. lia.
      * rewrite sent_batches_app, Hnone. reflexivity.
    + exists (d ++ [ESendBatch (p :: ps); ELog ERROR; ELog ERROR]).
      rewrite <- !app_assoc. simpl. split.
      * rewrite delivered_app. unfold delivered at 1. rewrite Hnone.
        unfold delivered. simpl. rewrite Hok. simpl.
        now rewrite Z.add_0_r.
      * rewrite sent_batches_app, Hnone. reflexivity.
Qed.

Lemma export_loop_general players indices n tr :
  exists d,
    for_each indices (export_batch players) n tr
    = (Ok (n + delivered w d), tr ++ d)
    /\ map (@length _) (sent_batches d)
       = List.filter (Nat.ltb 0)
           (map (fun i => length (List.filter converts
                                    (slice players i (i + batch_size))))
                indices).
Proof.
  revert n tr. induction indices as [|i rest IH]; intros n tr.
  - exists []. simpl. unfold ret, delivered. simpl.
    now rewrite app_nil_r, Z.add_0_r.
  - cbn [for_each]. unfold bind.
    destruct (export_batch_general players i n tr) as (d1 & -> & Hd1).
    destruct (IH (n + delivered w d1) (tr ++ d1)) as (d2 & -> & Hd2).
    exists (d1 ++ d2). rewrite <- app_assoc. split.
    + rewrite delivered_app. f_equal. f_equal. lia.
    + rewrite sent_batches_app, map_app, Hd1, Hd2.
      cbn [map]. 
      change (?x :: ?l) with ([x] ++ l) at 2.
      now rewrite List.filter_app.
Qed.

Lemma converted_sizes_bounds players indices :
  Forall (fun k => (1 <= k <= 10)%nat)
         (List.filter (Nat.ltb 0)
            (map (fun i => length (List.filter converts
                                     (slice players i (i + batch_size))))
                 indices)).
Proof.
  apply List.Forall_forall. intros k Hk.
  apply List.filter_In in Hk as [Hk Hpos].
  apply Nat.ltb_lt in Hpos.
  apply in_map_iff in Hk as (i & <- & _).
  split; [lia|].
  etransitivity; [apply List.filter_length_le|].
  unfold slice. rewrite length_firstn. unfold batch_size. lia.
Qed.

(** X15. Whatever rows the store returns, the exporting stage does
    not raise. It cuts the fetched rows into slices of ten, builds
    the profiles of the rows of a slice that convert, skipping the
    others, and hands the sink one batch per slice that has at least
    one such row: every batch holds 1 to 10 profiles. A batch the
    sink refuses does not stop the later ones, and the count
    returned is the number of profiles in the accepted batches. *)
Theorem export_isolates_rows_and_batches
        (country game : option string) (limit : nat) (tr : list event)
        (table : list (gmap string PyVal)) :
  (forall h, silver_table w h = Ok table) ->
  let players :=
    select_players table
      (if opt_truthy_string country then default "" country else "KR")
      game limit in
  let sizes :=
    map (fun i => length (List.filter converts
                            (slice players i (i + batch_size))))
        (range_step (length players) batch_size) in
  exists d,
    sync_to_airtable lax_float_of_str lax_int_of_str lax_datetime w
                     country game limit tr
    = (Ok (delivered w d), tr ++ d)
    /\ map (@length _) (sent_batches d) = List.filter (Nat.ltb 0) sizes
    /\ Forall (fun k => (1 <= k <= 10)%nat)
              (map (@length _) (sent_batches d)).
Proof.
  intros Htable players sizes.
  unfold sync_to_airtable, get_players_by_country.
  unfold bind, log, emit, history, try_catch, lift, ret.
  rewrite Htable. fold players. fold export_batch.
  destruct (export_loop_general players
              (range_step (length players) batch_size) 0
              ((tr ++ [ELog INFO])
                 ++ [EQuery (if opt_truthy_string country
                             then default "" country else "KR")
                            game limit]))
    as (d & Hloop & Hd).
  unfold bind in Hloop. rewrite Hloop. clear Hloop.
  exists ([ELog INFO;
           EQuery (if opt_truthy_string country
                   then default "" country else "KR") game limit]
            ++ d ++ [ELog SUCCESS]).
  assert (Hb : sent_batches
                 ([ELog INFO;
                   EQuery (if opt_truthy_string country
                           then default "" country else "KR") game limit]
                    ++ d ++ [ELog SUCCESS]) = sent_batches d).
  { rewrite !sent_batches_app. simpl. now rewrite app_nil_r. }
  split; [|split].
  - f_equal; [|rewrite <- !app_assoc; reflexivity].
    unfold delivered. rewrite Hb. now rewrite Z.add_0_l.
  - rewrite Hb. exact Hd.
  - rewrite Hb, Hd. apply converted_sizes_bounds.
Qed.

(** *** What the rebuilt profile of the export has lost *)

Lemma profile_kwargs_keys row kwargs :
  profile_kwargs row = Ok kwargs ->
  kwargs !! "rank_numeric" = None
  /\ kwargs !! "scraped_at" = None
  /\ kwargs !! "data_quality_score" = None
  /\ exists rank,
       kwargs !! "rank" = Some (py_or rank (PStr (lit "Unknown"))).
Proof.
  unfold profile_kwargs. intros H.
  apply rbind_ok in H as (v1 & _ & H).
  apply rbind_ok in H as (v2 & _ & H).
  apply rbind_ok in H as (v3 & _ & H).
  apply rbind_ok in H as (v4 & _ & H).
  apply rbind_ok in H as (v5 & _ & H).
  apply rbind_ok in H as (v6 & _ & H).
  apply rbind_ok in H as (v7 & _ & H).
  apply rbind_ok in H as (v8 & _ & H).
  injection H as <-.
  repeat split; try reflexivity. exists v5. reflexivity.
Qed.

(** X16. The profile the exporting stage rebuilds from a row does
    not carry the row's numeric rank, timestamp or quality score:
    whatever the row holds, the numeric rank is absent, the
    timestamp is the instant of the rebuild and the quality score is
    1.0; the rank is never empty (a null or empty rank reads
    Unknown), and rebuilding adds nothing to the trace. *)
Theorem export_rebuild_drops_fields
        (row : gmap string PyVal) (tr tr' : list event)
        (p : PlayerProfile) :
  rebuild_profile lax_float_of_str lax_int_of_str lax_datetime w row tr
  = (Ok p, tr') ->
  tr' = tr
  /\ rank_numeric p = None
  /\ scraped_at p = utcnow w tr
  /\ data_quality_score p = one
  /\ rank p <> [].
Proof.
  unfold rebuild_profile, bind, lift, history. intros H.
  destruct (profile_kwargs row) as [kwargs|] eqn:Hk; [|discriminate H].
  destruct (PlayerProfile_new _ _ _ (utcnow w tr) kwargs) as [p0|] eqn:Hp;
    [|discriminate H].
  injection H as -> ->.
  destruct (profile_kwargs_keys _ _ Hk) as (Hr & Hs & Hq & rank0 & Hrank).
  destruct (ProfileFacts.PlayerProfile_new_defaults _ _ _ _ _ _ Hp)
    as (H1 & H2 & H3).
  apply PlayerProfile_new_fields in Hp as (_ & _ & _ & _ & H5 & _).
  rewrite Hr in H1. rewrite Hs in H2. rewrite Hq in H3.
  rewrite Hrank in H5. simpl in H1, H2, H3.
  injection H1 as <-. injection H2 as <-. injection H3 as <-.
  repeat split; try reflexivity.
  intros Hempty. unfold py_or in H5.
  destruct (py_truthy rank0) eqn:Ht.
  - destruct rank0; try discriminate H5. simpl in H5, Ht.
    injection H5 as ->. rewrite Hempty in Ht. discriminate Ht.
  - simpl in H5. injection H5 as H5. rewrite Hempty in H5.
    discriminate H5.
Qed.

(** *** The summary lines of the verifying stage *)

Lemma log_player_spec player tr :
  if loggable player
  then log_player player tt tr = (Ok tt, tr ++ [ELog INFO])
  else exists e, log_player player tt tr = (Raise e, tr).
Proof.
  unfold loggable, log_player, bind, lift, getitem, get_method, log, emit.
  destruct (player !! "nickname") as [v1|]; simpl; [|eauto].
  destruct (player !! "country") as [v2|]; simpl; [|eauto].
  destruct (player !! "rank") as [v3|]; simpl; [|eauto].
  destruct (player !! "stats") as [v4|]; simpl; [|eauto].
  destruct v4; simpl; eauto.
Qed.

Lemma log_players_spec rows tr :
  if forallb loggable rows
  then for_each rows log_player tt tr
       = (Ok tt, tr ++ repeat (ELog INFO) (length rows))
  else exists e d, for_each rows log_player tt tr = (Raise e, tr ++ d).
Proof.
  revert tr. induction rows as [|row rest IH]; intros tr.
  - simpl. unfold ret. now rewrite app_nil_r.
  - cbn [forallb for_each length repeat]. unfold bind.
    pose proof (log_player_spec row tr) as Hrow.
    destruct (loggable row); cbn [andb].
    + rewrite Hrow. specialize (IH (tr ++ [ELog INFO])).
      destruct (forallb loggable rest).
      * rewrite IH, <- app_assoc. reflexivity.
      * destruct IH as (e & d & ->). exists e, (ELog INFO :: d).
        now rewrite <- app_assoc.
    + destruct Hrow as [e ->]. exists e, []. now rewrite app_nil_r.
Qed.

(** X17. The verifying stage sends one query -- for the given
    country, or KR without one; the game filter counts only beside a
    country -- and returns all the rows it fetched, after writing a
    summary line for each of the first five. A row among these five
    that lacks its nickname, country, rank or stats, or whose stats
    are no mapping, makes the stage raise; later rows are not
    inspected. *)
Theorem verification_reads_five_rows
        (country game : option string) (tr : list event)
        (table : list (gmap string PyVal)) :
  (forall h, silver_table w h = Ok table) ->
  let players :=
    select_players table (verified_country country)
                   (verified_game country game) 100 in
  let opening :=
    [ELog INFO;
     EQuery (verified_country country) (verified_game country game) 100;
     ELog SUCCESS] in
  if forallb loggable (firstn 5 players)
  then verify_silver_data w country game tr
       = (Ok players,
          tr ++ opening
             ++ repeat (ELog INFO) (Nat.min 5 (length players)))
  else exists e d,
      verify_silver_data w country game tr = (Raise e, tr ++ opening ++ d).
Proof.
  intros Htable players opening.
  assert (Hfetch :
            forall tr0,
              (if opt_truthy_string country && opt_truthy_string game
               then get_players_by_country w (default "" country) game 100
               else if opt_truthy_string country
               then get_players_by_country w (default "" country) None 100
               else get_players_by_country w "KR" None 100) tr0
              = (Ok players,
                 tr0 ++ [EQuery (verified_country country)
                                (verified_game country game) 100])).
  { intros tr0. subst players.
    unfold verified_country, verified_game, get_players_by_country.
    unfold bind, emit, history, try_catch, lift, ret.
    destruct (opt_truthy_string country), (opt_truthy_string game);
      cbn [andb]; rewrite Htable; reflexivity. }
  pose proof (log_players_spec (firstn 5 players)
                (((tr ++ [ELog INFO])
                    ++ [EQuery (verified_country country)
                               (verified_game country game) 100])
                   ++ [ELog SUCCESS])) as Hloop.
  assert (Hrun :
            verify_silver_data w country game tr
            = match for_each (firstn 5 players) log_player tt
                      (((tr ++ [ELog INFO])
                          ++ [EQuery (verified_country country)
                                     (verified_game country game) 100])
                         ++ [ELog SUCCESS]) with
              | (Ok _, tr') => (Ok players, tr')
              | (Raise e, tr') => (Raise e, tr')
              end).
  { unfold verify_silver_data, bind. unfold log at 1, emit at 1.
    rewrite Hfetch. unfold log, emit, ret.
    change (slice players 0 5) with (firstn 5 players).
    destruct (for_each _ _ _ _) as [[[]|e] tr']; reflexivity. }
  rewrite Hrun. clear Hrun.
  destruct (forallb loggable (firstn 5 players)).
  - rewrite Hloop. f_equal.
    rewrite length_firstn, <- !app_assoc. reflexivity.
  - destruct Hloop as (e & d & ->). exists e, d.
    now rewrite <- !app_assoc.
Qed.

(** X9. Each stage touches its own collaborators only: the collecting
    stage calls the adapter, pauses and writes raw records; the
    verifying stage only queries; the promoting stage queries and
    promotes; the exporting stage queries and sends batches. Nothing
    else is added to the trace but log lines, whether the stage
    returns or raises. *)
Theorem stage_footprints
        (source : str) (identifiers : list str)
        (country game : option string)
        (min_win_rate : pyfloat) (limit : nat) :
  only collecting
       (run_scraping_to_bronze isoformat unicode_lower w
                               source identifiers)
  /\ only reading (verify_silver_data w country game)
  /\ only promoting (promote_best_to_gold w min_win_rate limit)
  /\ only exporting
          (sync_to_airtable lax_float_of_str lax_int_of_str lax_datetime
                            w country game limit).
Proof.
  split; [|split; [|split]].
  - unfold run_scraping_to_bronze. only_events.
  - unfold verify_silver_data. only_events.
  - unfold promote_best_to_gold. only_events.
  - unfold sync_to_airtable. only_events.
Qed.

(** X10. A run that is told not to export never calls the sink,
    whatever the adapter and the store do and whether or not the run
    raises. *)
Theorem no_export_without_the_flag
        (source : str) (identifiers : list str) (tr : list event) :
  exists d,
    snd (run_full_pipeline lax_float_of_str lax_int_of_str lax_datetime
           isoformat unicode_lower w source identifiers false tr)
    = tr ++ d
    /\ sent_batches d = [].
Proof.
  assert (H : only not_send
                (run_full_pipeline lax_float_of_str lax_int_of_str
                   lax_datetime isoformat unicode_lower w
                   source identifiers false)).
  { unfold run_full_pipeline. only_events. }
  destruct (H tr) as (d & Hd & Hq). exists d. split; [exact Hd|].
  clear Hd. induction d as [|e d IH]; [reflexivity|].
  cbn [forallb] in Hq. apply andb_true_iff in Hq as [He Hq].
  unfold sent_batches in *. cbn [flat_map]. rewrite (IH Hq).
  now destruct e.
Qed.

End WithWorld.

Import Samples.



Lemma unknown_source_stops_the_run_witness :
  run_full_pipeline no_float no_int no_datetime iso_text same_text
                    (store_world table_23) (lit "faceit") five_identifiers
                    true []
  = (Raise ValueError,
     [] ++ [ELog INFO; ELog INFO; ELog INFO; ELog INFO; ELog ERROR]).
Proof.
  apply (unknown_source_stops_the_run no_float no_int no_datetime iso_text
           same_text (store_world table_23) (lit "faceit")
           five_identifiers true []).
  discriminate.
Defined.

Lemma promotion_stops_at_an_incomparable_row_witness :
  exists d,
    promote_best_to_gold (store_world text_win_rate_table) (Fin 55) 50 []
    = (Raise TypeError, [] ++ d)
    /\ promoted_ids d = [PInt 3].
Proof.
  destruct (promotion_stops_at_an_incomparable_row
              (store_world text_win_rate_table) 55 50 []
              text_win_rate_table
              [silver_row 3 "KR" (PInt 60)]
              [silver_row 1 "KR" (PInt 70)]
              (silver_row 2 "KR" (PStr (lit "n/a"))) TypeError)
    as (d & Hrun & Hd).
  - intros h. reflexivity.
  - reflexivity.
  - reflexivity.
  - reflexivity.
  - exists d. split; [exact Hrun | exact Hd].
Defined.

Lemma export_isolates_rows_and_batches_witness :
  exists d,
    fst (sync_to_airtable no_float no_int no_datetime
                          (store_world mixed_table) None None 50 [])
    = Ok (delivered (store_world mixed_table) d)
    /\ map (@length _) (sent_batches d) = [2%nat].
Proof.
  destruct (export_isolates_rows_and_batches no_float no_int no_datetime
              (store_world mixed_table) None None 50 [] mixed_table)
    as (d & Hrun & Hd & _).
  - intros h. reflexivity.
  - exists d. split; [now rewrite Hrun | exact Hd].
Defined.

Lemma export_rebuild_drops_fields_witness :
  exists p,
    rebuild_profile no_float no_int no_datetime (store_world [])
                    (silver_row 1 "KR" (PInt 60)) []
    = (Ok p, [])
    /\ silver_row 1 "KR" (PInt 60) !! "rank_numeric" = Some (PInt 1)
    /\ rank_numeric p = None.
Proof.
  destruct (rebuild_profile no_float no_int no_datetime (store_world [])
              (silver_row 1 "KR" (PInt 60)) []) as [[p|e] tr'] eqn:E.
  - destruct (export_rebuild_drops_fields no_float no_int no_datetime
                (store_world []) _ _ _ _ E) as (-> & Hr & _).
    exists p. split; [reflexivity|]. split; [reflexivity | exact Hr].
  - vm_compute in E. discriminate E.
Defined.

Lemma verification_reads_five_rows_witness :
  verify_silver_data (store_world table_23) None (Some "LOL") []
  = (Ok (select_players table_23 "KR" None 100),
     [] ++ [ELog INFO; EQuery "KR" None 100; ELog SUCCESS]
        ++ repeat (ELog INFO) 5).
Proof.
  exact (verification_reads_five_rows (store_world table_23) None
           (Some "LOL") [] table_23 (fun h => eq_refl)).
Defined.

End StageFacts.
(** ** The literal of a skill vector and the embedding job *)

Module SkillJobFacts.

Import Models SkillVector SkillJob FloatFacts SkillVectorFacts ModelFacts.

(** *** Six decimals *)

Lemma length_fixed_digits (width : nat) (n : Z) :
  length (fixed_digits width n) = width.
Proof.
  revert n. induction width as [|w IH]; intros n; simpl; [reflexivity|].
  rewrite length_app, IH. simpl. lia.
Qed.

Lemma digit_inj (a b : Z) :
  0 <= a < 10 -> 0 <= b < 10 -> digit a = digit b -> a = b.
Proof. unfold digit. intros Ha Hb H. apply Z2N.inj in H; lia. Qed.

Lemma fixed_digits_inj (width : nat) (a b : Z) :
  0 <= a < 10 ^ Z.of_nat width -> 0 <= b < 10 ^ Z.of_nat width ->
  fixed_digits width a = fixed_digits width b -> a = b.
Proof.
  revert a b. induction width as [|w IH]; intros a b Ha Hb H.
  - simpl in Ha, Hb. lia.
  - cbn [fixed_digits] in H. apply app_inj_tail in H as [Hhigh Hlow].
    rewrite Nat2Z.inj_succ, Z.pow_succ_r in Ha, Hb by lia.
    apply digit_inj in Hlow;
      [|apply Z.mod_pos_bound; lia | apply Z.mod_pos_bound; lia].
    apply IH in Hhigh.
    + rewrite (Z.div_mod a 10), (Z.div_mod b 10) by lia. congruence.
    + split; [apply Z.div_pos; lia | apply Z.div_lt_upper_bound; lia].
    + split; [apply Z.div_pos; lia | apply Z.div_lt_upper_bound; lia].
Qed.

(** The nearest integer of an integer is itself. *)
Lemma round_half_even_Z (x : Q) (k : Z) :
  (x == inject_Z k)%Q -> round_half_even x = k.
Proof.
  intros Hx. unfold round_half_even.
  assert (Hf : Qfloor x = k) by (rewrite Hx; apply Qfloor_Z).
  rewrite Hf.
  assert (Hr : Qltb (x - inject_Z k) (1 # 2) = true).
  { apply Qltb_lt. rewrite Hx.
    assert (Hz : (inject_Z k - inject_Z k == 0)%Q) by ring.
    rewrite Hz. reflexivity. }
  now rewrite Hr.
Qed.

Lemma million_pos : (0 < inject_Z million)%Q.
Proof. reflexivity. Qed.

(** A value with six decimals inside [0, 1] prints as its digits. *)
Lemma format_6f_millionths (k : Z) :
  0 <= k <= million ->
  format_6f (Fin (Qred (inject_Z k / inject_Z million)))
  = decimal (k / million) ++ lit "." ++ fixed_digits 6 (k mod million).
Proof.
  intros Hk. unfold format_6f.
  assert (Hpos : (0 <= Qred (inject_Z k / inject_Z million))%Q).
  { rewrite Qred_correct. apply Qle_shift_div_l; [apply million_pos|].
    rewrite Qmult_0_l. change 0%Q with (inject_Z 0).
    rewrite <- Zle_Qle. lia. }
  assert (Hneg : Qneg_b (Qred (inject_Z k / inject_Z million)) = false).
  { unfold Qneg_b. now apply Qltb_false_le. }
  rewrite Hneg. cbn [app].
  rewrite (round_half_even_Z _ k); [reflexivity|].
  rewrite Qred_correct. rewrite Qmult_comm. apply Qmult_div_r.
  discriminate.
Qed.

Lemma decimal_unit (k : Z) :
  0 <= k <= million ->
  decimal (k / million) = if k =? million then lit "1" else lit "0".
Proof.
  intros Hk. destruct (Z.eqb_spec k million) as [->|Hne].
  - reflexivity.
  - rewrite Z.div_small by lia. reflexivity.
Qed.

Lemma format_6f_length (k : Z) :
  0 <= k <= million ->
  length (format_6f (Fin (Qred (inject_Z k / inject_Z million)))) = 8%nat.
Proof.
  intros Hk. rewrite format_6f_millionths, decimal_unit by exact Hk.
  rewrite !length_app, length_fixed_digits.
  now destruct (k =? million).
Qed.

Lemma format_6f_inj (k k' : Z) :
  0 <= k <= million -> 0 <= k' <= million ->
  format_6f (Fin (Qred (inject_Z k / inject_Z million)))
  = format_6f (Fin (Qred (inject_Z k' / inject_Z million))) ->
  k = k'.
Proof.
  intros Hk Hk'. rewrite !format_6f_millionths, !decimal_unit by assumption.
  intros H.
  assert (Hparts :
            (if k =? million then lit "1" else lit "0")
            = (if k' =? million then lit "1" else lit "0")
            /\ fixed_digits 6 (k mod million)
               = fixed_digits 6 (k' mod million)).
  { apply app_inj_1 in H as [Hhigh Hrest];
      [|now destruct (k =? million), (k' =? million)].
    apply app_inv_head in Hrest. auto. }
  destruct Hparts as [Hhigh Hlow].
  apply fixed_digits_inj in Hlow;
    [|apply Z.mod_pos_bound; reflexivity
     |apply Z.mod_pos_bound; reflexivity].
  destruct (Z.eqb_spec k million) as [->|Hne],
           (Z.eqb_spec k' million) as [->|Hne'];
    try discriminate Hhigh; [reflexivity|].
  rewrite !Z.mod_small in Hlow by lia. exact Hlow.
Qed.

(** The components of a vector are rounded, clamped values. *)
Lemma rounded_clamp_millionths (y : pyfloat) :
  exists k,
    0 <= k <= million
    /\ round_ndigits (clamp01 y) 6
       = Fin (Qred (inject_Z k / inject_Z million)).
Proof.
  pose proof (clamp01_in_unit y) as Hu.
  destruct (in_unit_is_fin _ Hu) as [q Hq]. rewrite Hq in *.
  apply in_unit_fin in Hu as [H0 H1].
  exists (round_half_even (q * inject_Z million)). split.
  - apply round_half_even_between. split.
    + change (inject_Z 0) with 0%Q. apply Qmult_le_0_compat; [exact H0|].
      discriminate.
    + apply Qle_trans with (1 * inject_Z million)%Q.
      * apply Qmult_le_compat_r; [exact H1 | discriminate].
      * rewrite Qmult_1_l. apply Qle_refl.
  - reflexivity.
Qed.

Section WithFloatParser.
Variable float_of_str : str -> option pyfloat.

Lemma skill_vector_components stats top_champions v :
  compute_skill_vector float_of_str stats top_champions = Ok v ->
  exists a b c d,
    v = [ round_ndigits (clamp01 a) 6; round_ndigits (clamp01 b) 6;
          round_ndigits (clamp01 c) 6; round_ndigits (clamp01 d) 6 ].
Proof.
  unfold compute_skill_vector. intros H.
  apply rbind_ok in H as (x1 & _ & H).
  apply rbind_ok in H as (x2 & _ & H).
  apply rbind_ok in H as (x3 & _ & H).
  apply rbind_ok in H as (x4 & _ & H).
  apply rbind_ok in H as (x5 & _ & H).
  apply rbind_ok in H as (x6 & _ & H).
  apply rbind_ok in H as (x7 & _ & H).
  injection H as <-. eauto.
Qed.

Lemma skill_vector_millionths stats top_champions v :
  compute_skill_vector float_of_str stats top_champions = Ok v ->
  exists k1 k2 k3 k4,
    (0 <= k1 <= million /\ 0 <= k2 <= million
     /\ 0 <= k3 <= million /\ 0 <= k4 <= million)
    /\ v = map (fun k => Fin (Qred (inject_Z k / inject_Z million)))
               [k1; k2; k3; k4].
Proof.
  intros H. apply skill_vector_components in H as (a & b & c & d & ->).
  destruct (rounded_clamp_millionths a) as (k1 & H1 & ->).
  destruct (rounded_clamp_millionths b) as (k2 & H2 & ->).
  destruct (rounded_clamp_millionths c) as (k3 & H3 & ->).
  destruct (rounded_clamp_millionths d) as (k4 & H4 & ->).
  exists k1, k2, k3, k4. auto.
Qed.

(** X18. The literal [format_pgvector] writes for a computed skill
    vector has the shape [[d.dddddd,d.dddddd,d.dddddd,d.dddddd]], 37
    characters, and loses nothing: two computed vectors with the
    same literal are the same vector. *)
Theorem pgvector_literal_is_faithful
        (stats stats' : gmap string PyVal) (top_champions top_champions' : PyVal)
        (v v' : list pyfloat) :
  compute_skill_vector float_of_str stats top_champions = Ok v ->
  compute_skill_vector float_of_str stats' top_champions' = Ok v' ->
  length (format_pgvector v) = 37%nat
  /\ (format_pgvector v = format_pgvector v' -> v = v').
Proof.
  intros Hv Hv'.
  apply skill_vector_millionths in Hv
    as (k1 & k2 & k3 & k4 & (H1 & H2 & H3 & H4) & ->).
  apply skill_vector_millionths in Hv'
    as (j1 & j2 & j3 & j4 & (J1 & J2 & J3 & J4) & ->).
  unfold format_pgvector. cbn [map join].
  split.
  - rewrite !length_app, !format_6f_length by assumption. reflexivity.
  - intros H. apply app_inv_head in H. rewrite <- !app_assoc in H.
    apply app_inj_1 in H as [E1 H];
      [|now rewrite !format_6f_length].
    apply app_inv_head in H.
    apply app_inj_1 in H as [E2 H];
      [|now rewrite !format_6f_length].
    apply app_inv_head in H.
    apply app_inj_1 in H as [E3 H];
      [|now rewrite !format_6f_length].
    apply app_inv_head in H.
    apply app_inj_1 in H as [E4 _];
      [|now rewrite !format_6f_length].
    apply format_6f_inj in E1, E2, E3, E4; try assumption.
    now subst.
Qed.

End WithFloatParser.

(** *** Validated stats always have a vector *)

Section Composition.
Variable lax_float_of_str : str -> option pyfloat.
Variable lax_int_of_str : str -> option Z.
Variable float_of_str : str -> option pyfloat.

Lemma nonneg_plus_one (x : pyfloat) :
  ProfileShape.nonneg x = true -> is_zero (fadd x one) = false.
Proof.
  unfold ProfileShape.nonneg.
  destruct x as [q| | |]; simpl; try discriminate; try reflexivity.
  intros H. apply Qle_bool_iff in H.
  destruct (Qeq_bool (Qred (q + 1)) 0) eqn:E; [|reflexivity].
  apply Qeq_bool_iff in E. rewrite Qred_correct in E.
  exfalso. apply (Qlt_irrefl 0).
  apply Qlt_le_trans with (0 + 1)%Q; [reflexivity|].
  rewrite <- E at 2. apply Qplus_le_compat; [exact H | apply Qle_refl].
Qed.

Lemma validated_stats_vector (s : PlayerStats) (top_champions : PyVal) :
  ProfileShape.stats_in_bounds s = true ->
  exists v,
    compute_skill_vector float_of_str (PlayerStats_dump s) top_champions
    = Ok v.
Proof.
  destruct s as [w k ka da aa g]. unfold ProfileShape.stats_in_bounds.
  cbn [stat_win_rate stat_kda stat_kills_avg stat_deaths_avg
       stat_assists_avg stat_games_analyzed].
  intros H.
  assert (Hda : ProfileShape.opt_nonneg da = true).
  { repeat (apply andb_true_iff in H as [H ?]). assumption. }
  clear H.
  unfold compute_skill_vector, PlayerStats_dump.
  cbn [stat_win_rate stat_kda stat_kills_avg stat_deaths_avg
       stat_assists_avg stat_games_analyzed].
  set (m := ({[ "win_rate" := PFloat w; "kda" := PFloat k;
                "kills_avg" := dump_opt_float ka;
                "deaths_avg" := dump_opt_float da;
                "assists_avg" := dump_opt_float aa;
                "games_analyzed" := PInt g ]} : gmap string PyVal)).
  rewrite !get_stat_cases.
  change (m !! "win_rate") with (Some (PFloat w)).
  change (m !! "kda") with (Some (PFloat k)).
  change (m !! "kills_avg") with (Some (dump_opt_float ka)).
  change (m !! "deaths_avg") with (Some (dump_opt_float da)).
  change (m !! "aggressiveness") with (@None PyVal).
  change (m !! "versatility") with (@None PyVal).
  cbn [is_none py_float default].
  assert (Hratio :
            exists av,
              (if fgt match dump_opt_float ka with
                      | PNone => zero
                      | _ => match py_float float_of_str
                                     (dump_opt_float ka) with
                             | Ok x => x
                             | Raise _ => zero
                             end
                      end zero
               then
                 (let! a :=
                    fdiv match dump_opt_float ka with
                         | PNone => zero
                         | _ => match py_float float_of_str
                                        (dump_opt_float ka) with
                                | Ok x => x
                                | Raise _ => zero
                                end
                         end
                         (fadd match dump_opt_float da with
                               | PNone => zero
                               | _ => match py_float float_of_str
                                              (dump_opt_float da) with
                                      | Ok x => x
                                      | Raise _ => zero
                                      end
                               end one) in
                  Ok (PFloat a))%result
               else Ok (PFloat zero)) = Ok (PFloat av)).
  { destruct (fgt _ zero); [|eauto].
    assert (Hnz : is_zero
                    (fadd match dump_opt_float da with
                          | PNone => zero
                          | _ => match py_float float_of_str
                                         (dump_opt_float da) with
                                 | Ok x => x
                                 | Raise _ => zero
                                 end
                          end one) = false).
    { destruct da as [x|]; cbn [dump_opt_float py_float].
      - now apply nonneg_plus_one.
      - reflexivity. }
    unfold fdiv. rewrite Hnz. cbn [rbind]. eauto. }
  destruct Hratio as [av Hav].
  match goal with
  | |- exists v, rbind ?r _ = _ =>
      replace r with (@Ok PyVal (PFloat av))
  end.
  cbn [rbind].
  destruct (0 <? _)%nat; unfold div_const;
    rewrite !fdiv_fin by reflexivity; cbn [rbind py_float];
    rewrite ?fdiv_fin by reflexivity; cbn [rbind]; eauto.
Qed.

(** X22. Stats that passed the validation of [PlayerStats] always
    have a skill vector: written in record form they make
    [compute_skill_vector] return, with whatever champion list, a
    vector of four components inside [0, 1]. The division by zero
    and the rejected explicit fields cannot occur on them. *)
Theorem validated_stats_have_a_vector
        (d : gmap string PyVal) (s : PlayerStats) (top_champions : PyVal) :
  PlayerStats_new lax_float_of_str lax_int_of_str d = Ok s ->
  exists v,
    compute_skill_vector float_of_str (PlayerStats_dump s) top_champions
    = Ok v
    /\ length v = 4%nat
    /\ forallb in_unit v = true.
Proof.
  intros H. apply ProfileFacts.PlayerStats_new_bounds in H.
  destruct (validated_stats_vector s top_champions H) as [v Hv].
  exists v. split; [exact Hv|].
  apply skill_vector_components in Hv as (a & b & c & e & ->).
  split; [reflexivity|]. cbn [forallb].
  now rewrite !rounded_clamp_in_unit.
Qed.

End Composition.

(** *** The job *)

Import Eff.

Section WithStore.
Variable float_of_str : str -> option pyfloat.
Variable store : Store.

Let vector_of := vector_of float_of_str.
Let process_player := process_player float_of_str store.
Let settles := settles float_of_str store.
Let found := found float_of_str store.
Let unmatched_by_id := unmatched_by_id float_of_str store.

Lemma process_player_dry player counts tr :
  process_player true player counts tr
  = match vector_of player with
    | Ok _ => (Ok (fst counts + 1, snd counts),
               tr ++ [ELog Pipeline.INFO])
    | Raise e => (Raise e, tr)
    end.
Proof.
  unfold process_player, SkillJob.process_player, vector_of,
    SkillJob.vector_of, bind, lift.
  destruct (compute_on _ _ _); reflexivity.
Qed.

Lemma dry_loop players counts tr :
  exists d,
    snd (for_each players (process_player true) counts tr) = tr ++ d
    /\ existsb is_update d = false
    /\ forall updated skipped,
        fst (for_each players (process_player true) counts tr)
        = Ok (updated, skipped) ->
        updated = fst counts + Z.of_nat (length players)
        /\ skipped = snd counts.
Proof.
  revert counts tr.
  induction players as [|player rest IH]; intros counts tr.
  - exists []. destruct counts as [u0 s0]. simpl. rewrite app_nil_r.
    split; [reflexivity|].
    split; [reflexivity|]. intros u s H. injection H as <- <-.
    split; [lia | reflexivity].
  - cbn [for_each]. unfold bind. rewrite process_player_dry.
    destruct (vector_of player).
    + destruct (IH (fst counts + 1, snd counts)
                   (tr ++ [ELog Pipeline.INFO])) as (d & Hd & Hu & Hc).
      exists (ELog Pipeline.INFO :: d).
      rewrite Hd, <- app_assoc. split; [reflexivity|].
      split; [exact Hu|]. intros u s H.
      destruct (Hc u s H) as [-> ->]. cbn [fst snd length].
      split; [lia | reflexivity].
    + exists []. simpl. rewrite app_nil_r. split; [reflexivity|].
      split; [reflexivity|]. intros u s H. discriminate H.
Qed.

(** X19. A dry run never writes: whatever the store holds, no update
    is sent to the analytics table. When the run returns, it reports
    every fetched row as updated and none as skipped. *)
Theorem dry_run_writes_nothing
        (limit : nat) (country game : option string)
        (tr : list event) :
  exists d,
    snd (run float_of_str store limit country game true tr) = tr ++ d
    /\ existsb is_update d = false
    /\ forall updated skipped,
        fst (run float_of_str store limit country game true tr)
        = Ok (updated, skipped) ->
        skipped = 0
        /\ exists table,
            silver_players store = Ok table
            /\ updated
               = Z.of_nat (length (select_silver table limit
                                                 country game)).
Proof.
  unfold run, fetch_silver_players, log, bind, emit, lift, ret.
  destruct (silver_players store) as [table|e].
  - fold process_player.
    destruct (dry_loop (select_silver table limit country game) (0, 0)
                (((tr ++ [ELog Pipeline.INFO]) ++ [EFetch limit country game])
                   ++ [ELog Pipeline.INFO])) as (d & Hd & Hu & Hc).
    destruct (for_each _ _ _ _) as [[[u s]|e] tr'] eqn:E;
      simpl in Hd; subst tr'.
    + exists ([ELog Pipeline.INFO; EFetch limit country game; ELog Pipeline.INFO]
                ++ d ++ [ELog Pipeline.SUCCESS]).
      cbn [fst snd]. split; [now rewrite <- !app_assoc|].
      split.
      * cbn [app existsb is_update orb]. rewrite existsb_app, Hu.
        reflexivity.
      * intros u' s' H. injection H as <- <-.
        destruct (Hc u s eq_refl) as [-> ->]. split; [reflexivity|].
        exists table. split; [reflexivity|]. cbn [fst]. lia.
    + exists ([ELog Pipeline.INFO; EFetch limit country game; ELog Pipeline.INFO] ++ d).
      cbn [fst snd]. split; [now rewrite <- !app_assoc|].
      split; [exact Hu|]. intros u s H. discriminate H.
  - exists [ELog Pipeline.INFO; EFetch limit country game].
    cbn [fst snd]. rewrite <- app_assoc.
    split; [reflexivity|]. split; [reflexivity|].
    intros u s H. discriminate H.
Qed.

Lemma id_updates_app (a b : list event) :
  id_updates (a ++ b) = (id_updates a + id_updates b)%nat.
Proof. unfold id_updates. now rewrite List.filter_app, length_app. Qed.

Lemma fallbacks_app (a b : list event) :
  fallbacks (a ++ b) = (fallbacks a + fallbacks b)%nat.
Proof. unfold fallbacks. now rewrite List.filter_app, length_app. Qed.

Lemma process_player_settles player counts tr :
  settles player = true ->
  exists d,
    process_player false player counts tr
    = (Ok (if found player then (fst counts + 1, snd counts)
           else (fst counts, snd counts + 1)), tr ++ d)
    /\ id_updates d = 1%nat
    /\ fallbacks d = (if unmatched_by_id player then 1 else 0)%nat.
Proof.
  unfold settles, SkillJob.settles, found, SkillJob.found,
    unmatched_by_id, SkillJob.unmatched_by_id.
  unfold process_player, SkillJob.process_player, update_skill_vector,
    answered, log, bind, lift, emit, ret, raise.
  fold (SkillJob.vector_of float_of_str player).
  destruct (SkillJob.vector_of float_of_str player) as [vector|];
    [|discriminate].
  destruct (update_by_id store _ _); [| |discriminate].
  - intros _. eexists. split; [reflexivity|]. split; reflexivity.
  - destruct (update_by_identity store _ _ _ _); [| |discriminate];
      intros _; rewrite <- ?app_assoc;
      (eexists; split; [reflexivity|]; split; reflexivity).
Qed.

Lemma settled_loop players counts tr :
  forallb settles players = true ->
  exists d,
    for_each players (process_player false) counts tr
    = (Ok (fst counts + Z.of_nat (length (List.filter found players)),
           snd counts
           + Z.of_nat (length (List.filter (fun p => negb (found p))
                                           players))),
       tr ++ d)
    /\ id_updates d = length players
    /\ fallbacks d = length (List.filter unmatched_by_id players).
Proof.
  revert counts tr.
  induction players as [|player rest IH]; intros counts tr Hall.
  - exists []. simpl. unfold ret. rewrite app_nil_r, !Z.add_0_r.
    now destruct counts.
  - cbn [forallb] in Hall. apply andb_true_iff in Hall as [Hp Hrest].
    cbn [for_each]. unfold bind.
    destruct (process_player_settles player counts tr Hp)
      as (d1 & -> & Hi1 & Hf1).
    destruct (IH (if found player then (fst counts + 1, snd counts)
                  else (fst counts, snd counts + 1)) (tr ++ d1) Hrest)
      as (d2 & -> & Hi2 & Hf2).
    exists (d1 ++ d2). rewrite <- app_assoc. split; [|split].
    + f_equal. f_equal. cbn [List.filter].
      destruct (found player); cbn [negb fst snd length];
        f_equal; lia.
    + rewrite id_updates_app, Hi1, Hi2. reflexivity.
    + rewrite fallbacks_app, Hf1, Hf2. cbn [List.filter].
      destruct (unmatched_by_id player); reflexivity.
Qed.

(** X20. When no row makes the vector computation or an update
    raise, the job accounts for every fetched row once: it sends one
    update keyed by id per row, a second one keyed by nickname, game
    and country exactly for the rows whose id matched nothing, and
    reports as updated the rows either update matched and as skipped
    the others, so that the two figures add up to the number of
    rows. *)
Theorem job_accounts_for_every_row
        (limit : nat) (country game : option string) (tr : list event)
        (table : list (gmap string PyVal)) :
  silver_players store = Ok table ->
  let players := select_silver table limit country game in
  forallb settles players = true ->
  exists updated skipped d,
    run float_of_str store limit country game false tr
    = (Ok (updated, skipped), tr ++ d)
    /\ updated = Z.of_nat (length (List.filter found players))
    /\ updated + skipped = Z.of_nat (length players)
    /\ id_updates d = length players
    /\ fallbacks d = length (List.filter unmatched_by_id players).
Proof.
  intros Htable players Hall.
  unfold run, fetch_silver_players, log, bind, emit, lift, ret.
  rewrite Htable. fold players. fold process_player.
  destruct (settled_loop players (0, 0)
              (((tr ++ [ELog Pipeline.INFO]) ++ [EFetch limit country game])
                 ++ [ELog Pipeline.INFO]) Hall)
    as (d & -> & Hi & Hf).
  eexists _, _, ([ELog Pipeline.INFO; EFetch limit country game; ELog Pipeline.INFO]
                   ++ d ++ [ELog Pipeline.SUCCESS]).
  split; [rewrite <- !app_assoc; reflexivity|].
  cbn [fst snd]. split; [lia|]. split.
  - pose proof (List.filter_length found players) as Hlen. lia.
  - rewrite !id_updates_app, !fallbacks_app, Hi, Hf.
    change (id_updates [ELog Pipeline.SUCCESS]) with 0%nat.
    change (fallbacks [ELog Pipeline.SUCCESS]) with 0%nat.
    change (id_updates [ELog Pipeline.INFO; EFetch limit country game; ELog Pipeline.INFO])
      with 0%nat.
    change (fallbacks [ELog Pipeline.INFO; EFetch limit country game; ELog Pipeline.INFO])
      with 0%nat.
    split; lia.
Qed.

Lemma job_for_each_app {A S} (a b : list A) (body : A -> S -> M S)
      (s : S) tr :
  for_each (a ++ b) body s tr
  = match for_each a body s tr with
    | (Ok s', tr') => for_each b body s' tr'
    | (Raise e, tr') => (Raise e, tr')
    end.
Proof.
  revert s tr. induction a as [|x a IH]; intros s tr; simpl.
  - reflexivity.
  - unfold bind. destruct (body x s tr) as [[s'|e] tr'].
    + apply IH.
    + reflexivity.
Qed.

(** X21. The job does not isolate a row without a vector: on the
    first fetched row whose vector computation raises (a label for
    the aggressiveness, stats that are no mapping), the job raises
    that exception; the rows before it have been written and the
    rows after it are not processed. *)
Theorem job_stops_at_a_row_without_vector
        (limit : nat) (country game : option string) (tr : list event)
        (table before after : list (gmap string PyVal))
        (player : gmap string PyVal) (e : exn) :
  silver_players store = Ok table ->
  select_silver table limit country game = before ++ player :: after ->
  forallb settles before = true ->
  vector_of player = Raise e ->
  exists d,
    run float_of_str store limit country game false tr
    = (Raise e, tr ++ d)
    /\ id_updates d = length before.
Proof.
  intros Htable Hrows Hall Hbad.
  unfold run, fetch_silver_players, log, bind, emit, lift, ret.
  rewrite Htable, Hrows. fold process_player.
  rewrite job_for_each_app.
  destruct (settled_loop before (0, 0)
              (((tr ++ [ELog Pipeline.INFO]) ++ [EFetch limit country game])
                 ++ [ELog Pipeline.INFO]) Hall)
    as (d & -> & Hi & _).
  cbn [for_each]. unfold bind.
  unfold process_player at 1, SkillJob.process_player, bind, lift.
  fold (SkillJob.vector_of float_of_str player). fold vector_of.
  rewrite Hbad.
  exists ([ELog Pipeline.INFO; EFetch limit country game; ELog Pipeline.INFO] ++ d).
  split; [rewrite <- !app_assoc; reflexivity|].
  rewrite id_updates_app, Hi. reflexivity.
Qed.

End WithStore.

Import Samples.

Lemma pgvector_literal_is_faithful_witness :
  exists v,
    compute_skill_vector no_float stats_kda_999 (PList []) = Ok v
    /\ length (format_pgvector v) = 37%nat.
Proof.
  destruct (compute_skill_vector no_float stats_kda_999 (PList []))
    as [v|e] eqn:E.
  - exists v. split; [reflexivity|].
    exact (proj1 (pgvector_literal_is_faithful no_float _ _ _ _ v v E E)).
  - vm_compute in E. discriminate E.
Defined.

Lemma validated_stats_have_a_vector_witness :
  exists v,
    compute_skill_vector no_float (PlayerStats_dump (stats hangul_profile))
                         (PList [])
    = Ok v
    /\ length v = 4%nat.
Proof.
  destruct (validated_stats_have_a_vector no_float no_int no_float
              {[ "win_rate" := PFloat (Fin (585 # 10));
                 "kda" := PFloat (Fin (42 # 10));
                 "games_analyzed" := PInt 100 ]}
              (stats hangul_profile) (PList []))
    as (v & Hv & Hlen & _).
  - reflexivity.
  - exists v. split; [exact Hv | exact Hlen].
Defined.

Lemma job_accounts_for_every_row_witness :
  exists d,
    run no_float (analytics_store three_rows) 500 None None false []
    = (Ok (1, 2), [] ++ d)
    /\ id_updates d = 3%nat /\ fallbacks d = 2%nat.
Proof.
  destruct (job_accounts_for_every_row no_float
              (analytics_store three_rows) 500 None None [] three_rows)
    as (updated & skipped & d & Hrun & Hu & Hsum & Hi & Hf).
  - reflexivity.
  - reflexivity.
  - exists d. vm_compute in Hu. subst updated.
    change (Z.of_nat (length (select_silver three_rows 500 None None)))
      with 3 in Hsum.
    assert (skipped = 2) by lia. subst skipped.
    split; [exact Hrun|]. split; [exact Hi | exact Hf].
Defined.

Lemma job_stops_at_a_row_without_vector_witness :
  exists d,
    run no_float
        (analytics_store [silver_row 1 "KR" (PInt 60); labelled_row;
                          silver_row 3 "KR" (PInt 60)])
        500 None None false []
    = (Raise ValueError, [] ++ d)
    /\ id_updates d = 1%nat.
Proof.
  destruct (job_stops_at_a_row_without_vector no_float
              (analytics_store [silver_row 1 "KR" (PInt 60); labelled_row;
                                silver_row 3 "KR" (PInt 60)])
              500 None None []
              [silver_row 1 "KR" (PInt 60); labelled_row;
               silver_row 3 "KR" (PInt 60)]
              [silver_row 1 "KR" (PInt 60)]
              [silver_row 3 "KR" (PInt 60)]
              labelled_row ValueError)
    as (d & Hrun & Hi).
  - reflexivity.
  - reflexivity.
  - reflexivity.
  - reflexivity.
  - exists d. split; [exact Hrun | exact Hi].
Defined.

End SkillJobFacts.
(** ** The leaderboard collector and the ingestion run *)

Module BronzeRunFacts.

Import Models BronzeIngestion BronzeRun CountryOrderFacts.

(** *** [safe_extract_text] *)

Lemma lstrip_head (s : str) :
  match lstrip s with
  | [] => forallb is_space s = true
  | c :: _ => is_space c = false
  end.
Proof.
  induction s as [|c s IH]; simpl; [reflexivity|].
  destruct (is_space c) eqn:E; simpl; [exact IH | exact E].
Qed.

Lemma lstrip_suffix (s : str) :
  exists p, s = p ++ lstrip s /\ forallb is_space p = true.
Proof.
  induction s as [|c s IH]; simpl.
  - exists []. auto.
  - destruct (is_space c) eqn:E.
    + destruct IH as (p & Hp & Hs). exists (c :: p). simpl.
      rewrite E, Hs. split; [now rewrite <- Hp | reflexivity].
    + exists []. auto.
Qed.

Lemma lstrip_nil_iff (s : str) :
  lstrip s = [] <-> forallb is_space s = true.
Proof.
  split.
  - intros H. pose proof (lstrip_head s) as Hh. now rewrite H in Hh.
  - apply lstrip_all_spaces.
Qed.

Lemma strip_nil_iff (s : str) :
  strip s = [] <-> forallb is_space s = true.
Proof.
  unfold strip, rstrip. split.
  - intros H. apply (f_equal (@rev _)) in H. rewrite rev_involutive in H.
    simpl in H. apply lstrip_nil_iff in H.
    apply forallb_rev in H. rewrite rev_involutive in H.
    destruct (lstrip_suffix s) as (p & Hp & Hs).
    rewrite Hp, forallb_app, Hs, H. reflexivity.
  - intros H. rewrite (lstrip_all_spaces s H). reflexivity.
Qed.

(** X23. [safe_extract_text] answers the default for the empty text
    only. A text of white space alone is not replaced by the default:
    it comes out empty, and these are the only texts that do, apart
    from the empty text with an empty default. *)
Theorem blank_text_is_not_defaulted (element default : str) :
  (element = [] -> safe_extract_text element default = default)
  /\ (element <> [] -> safe_extract_text element default = strip element)
  /\ (safe_extract_text element default = []
      <-> (element = [] /\ default = [])
          \/ (element <> [] /\ forallb is_space element = true)).
Proof.
  unfold safe_extract_text. destruct element as [|c rest]; simpl truthy.
  - split; [reflexivity|]. split; [intros H; now elim H|].
    split; [intros ->; left; auto|].
    intros [[_ H]|[H _]]; [exact H | now elim H].
  - split; [discriminate|]. split; [reflexivity|].
    rewrite strip_nil_iff. split.
    + intros H. right. split; [discriminate | exact H].
    + intros [[H _]|[_ H]]; [discriminate H | exact H].
Qed.

(** *** The leaderboard collector *)

Section WithRegion.
Variable unicode_lower : str -> str.
Variable region : str.
Variable utcnow_text : nat -> str.

Let process_opgg_row := process_opgg_row unicode_lower region utcnow_text.
Let opgg_records := opgg_records unicode_lower region utcnow_text.
Let scrape_opgg_ranking :=
  scrape_opgg_ranking unicode_lower region utcnow_text.

Lemma opgg_rows_spec (items : list (nat * opgg_row)) (st : collector) :
  fold_left (fun s item => process_opgg_row item s) items st
  = mkCollector
      (players_data st ++ opgg_records items)
      (scraped_count st + Z.of_nat (length (opgg_records items)))
      (error_count st
       + Z.of_nat (length (List.filter (fun item => row_raises (snd item))
                                       items))).
Proof.
  revert st. induction items as [|[i row] rest IH]; intros st.
  - simpl. rewrite app_nil_r, !Z.add_0_r. now destruct st.
  - cbn [fold_left]. rewrite IH.
    unfold process_opgg_row, BronzeRun.process_opgg_row, opgg_row_body.
    unfold opgg_records, BronzeRun.opgg_records.
    cbn [flat_map List.filter fst snd].
    destruct row as [|n r l]; cbn [row_raises players_data scraped_count
                                     error_count app length].
    + f_equal; lia.
    + rewrite <- app_assoc. cbn [app]. f_equal; lia.
Qed.

Lemma opgg_records_length (items : list (nat * opgg_row)) :
  (length (opgg_records items)
   + length (List.filter (fun item => row_raises (snd item)) items))%nat
  = length items.
Proof.
  unfold opgg_records, BronzeRun.opgg_records.
  induction items as [|[i row] rest IH]; [reflexivity|].
  cbn [flat_map List.filter fst snd length].
  destruct row; cbn [row_raises app length]; lia.
Qed.

Lemma raising_items (rows : list opgg_row) (start : nat) :
  length (List.filter (fun item : nat * opgg_row => row_raises (snd item))
                      (combine (seq start (length rows)) rows))
  = length (List.filter row_raises rows).
Proof.
  revert start. induction rows as [|row rest IH]; intros start;
    [reflexivity|].
  cbn [length seq combine List.filter snd].
  destruct (row_raises row); cbn [length]; now rewrite IH.
Qed.

Lemma opgg_records_country (items : list (nat * opgg_row)) :
  Forall (fun record => record !! "country" = Some (PStr region)
                        /\ record !! "server" = Some (PStr region))
         (opgg_records items).
Proof.
  unfold opgg_records, BronzeRun.opgg_records.
  induction items as [|[i row] rest IH]; [constructor|].
  cbn [flat_map fst snd]. destruct row as [|n r l]; [exact IH|].
  cbn [app]. constructor; [|exact IH]. split; reflexivity.
Qed.

(** X24. The leaderboard collector visits the rows that carry a
    summoner id, or, when there is none, the rows of the
    ranked-player class, and at most [limit] of them. It returns one
    record per visited row whose queries do not raise, raises its
    [scraped_count] by the number of records and its [error_count]
    by the number of visited rows that raised, and files every
    record under the region of the scraper as its country and
    server. A page that fails gives no record and changes no
    counter. *)
Theorem leaderboard_collector_counts
        (page : opgg_outcome) (limit : nat) (st : collector) :
  let rows := visited page limit in
  let result := scrape_opgg_ranking page limit st in
  (length rows <= limit)%nat
  /\ (length (fst result) + length (List.filter row_raises rows))%nat
     = length rows
  /\ scraped_count (snd result)
     = scraped_count st + Z.of_nat (length (fst result))
  /\ error_count (snd result)
     = error_count st + Z.of_nat (length (List.filter row_raises rows))
  /\ Forall (fun record => record !! "country" = Some (PStr region)
                           /\ record !! "server" = Some (PStr region))
            (fst result).
Proof.
  intros rows result. subst rows result.
  unfold scrape_opgg_ranking, BronzeRun.scrape_opgg_ranking, visited.
  destruct page as [|by_attribute by_class].
  - cbn [fst snd length List.filter]. rewrite !Z.add_0_r.
    repeat split; try lia. constructor.
  - set (rows := firstn limit match by_attribute with
                               | [] => by_class
                               | _ :: _ => by_attribute
                               end).
    fold process_opgg_row. rewrite opgg_rows_spec.
    cbn [fst snd players_data scraped_count error_count app].
    unfold enumerate_from_1.
    pose proof (opgg_records_length (combine (seq 1 (length rows)) rows))
      as Hlen.
    rewrite raising_items in *.
    rewrite length_combine, length_seq, Nat.min_id in Hlen.
    repeat split.
    + subst rows. rewrite length_firstn. lia.
    + exact Hlen.
    + apply opgg_records_country.
Qed.

End WithRegion.

(** *** The ranking-table collector as a whole *)

Lemma accepted_detection (o : row_outcome) (record : gmap string PyVal) :
  accepted o = Some record ->
  exists nick,
    record !! "character_detection"
    = Some (PDict (detect_asian_characters nick)).
Proof.
  unfold accepted, row_body. destruct o as [|cells extracted];
    [discriminate|].
  destruct (cells <? 2)%nat; [discriminate|].
  destruct extracted as [d|]; [|discriminate].
  destruct (py_truthy (PDict d)); [|discriminate].
  destruct (default (PStr []) (d !! "nickname")); try discriminate.
  cbn. intros H. injection H as <-. eexists.
  apply lookup_insert_eq.
Qed.

(** X28. The ranking-table collector never looks at the first row of
    the table (the header) and returns, in row order, the records of
    the other rows that it accepts, each with the script flags of its
    nickname attached. Its [scraped_count] grows by the number of
    records returned and its [error_count] by the number of rows
    whose processing raised; a page that fails or has no table gives
    no record and changes no counter. *)
Theorem ranking_collector_skips_the_header
        (page : page_outcome) (st : collector) :
  let result := scrape_liquipedia_ranking page st in
  let rows := match page with
              | Table rows => tail rows
              | _ => []
              end in
  fst result = omap accepted rows
  /\ scraped_count (snd result)
     = scraped_count st + Z.of_nat (length (fst result))
  /\ error_count (snd result)
     = error_count st + Z.of_nat (length (List.filter raises rows))
  /\ Forall (fun record => is_Some (record !! "character_detection"))
            (fst result).
Proof.
  intros result rows. subst result rows.
  assert (Hdet : forall rows,
             Forall (fun record : gmap string PyVal =>
                       is_Some (record !! "character_detection"))
                    (omap accepted rows)).
  { intros rows. apply List.Forall_forall. intros record Hin.
    apply list_elem_of_In, list_elem_of_omap in Hin as (o & _ & Ho).
    destruct (accepted_detection o record Ho) as [nick ->]. eauto. }
  unfold scrape_liquipedia_ranking. destruct page as [| |rows].
  - cbn. rewrite !Z.add_0_r. repeat split. constructor.
  - cbn. rewrite !Z.add_0_r. repeat split. constructor.
  - rewrite BronzeFacts.process_rows_spec.
    cbn [fst snd players_data scraped_count error_count app].
    repeat split. apply Hdet.
Qed.

(** *** Extraction from the cells of a row *)

Section Extraction.
Variable unicode_lower : str -> str.
Variable region : str.
Variable scraped : Z.
Variable now_text : str.

Let extract_body := extract_body unicode_lower region scraped now_text.
Let row_of_cells := row_of_cells unicode_lower region scraped now_text.

Lemma extract_body_fields cells source_url raw_data :
  extract_body cells source_url = Ok raw_data ->
  exists nickname country,
    raw_data !! "nickname" = Some (PStr nickname)
    /\ raw_data !! "rank" = Some (PStr [])
    /\ raw_data !! "game" = Some (PStr (lit "LOL"))
    /\ raw_data !! "country"
       = Some (PStr (lit (country_value
                            (CountryDetector.detect_country
                               unicode_lower
                               (Some (nickname ++ lit " " ++ country))
                               (Some (lower unicode_lower region))
                               (Some source_url) None)))).
Proof.
  unfold extract_body, BronzeRun.extract_body. intros H.
  apply ModelFacts.rbind_ok in H as (nickname & _ & H).
  apply ModelFacts.rbind_ok in H as (player_id & _ & H).
  apply ModelFacts.rbind_ok in H as (country & _ & H).
  apply ModelFacts.rbind_ok in H as (team & _ & H).
  injection H as <-. exists nickname, country.
  repeat split; reflexivity.
Qed.

(** X29. A table row of two cells or more never raises the error
    counter, whatever its cells give: when the extraction of the
    player fails (a cell cannot be read, a flag lookup raises) the
    row is dropped without being counted, and when it succeeds the
    row is kept and counted as scraped. The record of a kept row
    has an empty rank, the game LOL whatever game was asked for,
    and the country that [detect_country] infers from the nickname
    and the flag text, then the region, then the url. *)
Theorem extraction_failures_are_not_counted
        (cells : list cell) (source_url : str) (st : collector) :
  (2 <= length cells)%nat ->
  let o := row_of_cells cells source_url in
  error_count (process_row o st) = error_count st
  /\ match extract_body cells source_url with
     | Raise _ => process_row o st = st
     | Ok raw_data =>
         scraped_count (process_row o st) = scraped_count st + 1
         /\ (exists record,
               players_data (process_row o st)
               = players_data st ++ [record]
               /\ forall key, key <> "character_detection" ->
                              record !! key = raw_data !! key)
         /\ exists nickname country,
             raw_data !! "nickname" = Some (PStr nickname)
             /\ raw_data !! "rank" = Some (PStr [])
             /\ raw_data !! "game" = Some (PStr (lit "LOL"))
             /\ raw_data !! "country"
                = Some (PStr (lit (country_value
                                     (CountryDetector.detect_country
                                        unicode_lower
                                        (Some (nickname ++ lit " "
                                                        ++ country))
                                        (Some (lower unicode_lower region))
                                        (Some source_url) None))))
     end.
Proof.
  intros Hlen o. subst o.
  unfold row_of_cells, BronzeRun.row_of_cells, _extract_player_from_cells.
  fold extract_body.
  assert (Hcells : (length cells <? 2)%nat = false)
    by (apply Nat.ltb_ge; exact Hlen).
  destruct (extract_body cells source_url) as [raw_data|e] eqn:E.
  - destruct (extract_body_fields _ _ _ E)
      as (nickname & country & Hn & Hr & Hg & Hc).
    assert (Htruthy : py_truthy (PDict raw_data) = true).
    { cbn [py_truthy]. apply negb_true_iff, bool_decide_eq_false.
      intros ->. rewrite lookup_empty in Hn. discriminate Hn. }
    unfold process_row, row_body. rewrite Hcells, Htruthy, Hn.
    cbn [default players_data scraped_count error_count].
    split; [reflexivity|]. split; [reflexivity|]. split.
    + eexists. split; [reflexivity|]. intros key Hkey.
      now apply lookup_insert_ne.
    + exists nickname, country. auto.
  - unfold process_row, row_body. rewrite Hcells.
    split; [reflexivity | now destruct st].
Qed.

End Extraction.

(** *** Inserting and the run *)

Import Eff.

Section WithStore.
Variable unicode_lower : str -> str.
Variable region : str.
Variable utcnow_text : nat -> str.
Variable liquipedia_page : page_outcome.
Variable opgg_page : opgg_outcome.
Variable insert_ok : gmap string PyVal -> bool.

Let insert_one := insert_one insert_ok.
Let insert_to_bronze := insert_to_bronze insert_ok.
Let refused := refused insert_ok.
Let run_ingestion :=
  run_ingestion unicode_lower region utcnow_text liquipedia_page
                opgg_page insert_ok.
Let collected :=
  collected unicode_lower region utcnow_text liquipedia_page opgg_page.

Lemma filed_app (a b : list event) :
  submitted (a ++ b) = submitted a ++ submitted b.
Proof. unfold submitted. apply flat_map_app. Qed.

Lemma opened_app (a b : list event) :
  opened (a ++ b) = opened a ++ opened b.
Proof. unfold opened. apply flat_map_app. Qed.

Lemma warnings_app (a b : list event) :
  warnings (a ++ b) = (warnings a + warnings b)%nat.
Proof. unfold warnings. now rewrite List.filter_app, length_app. Qed.

Lemma insert_one_spec (i : nat) (player : gmap string PyVal)
      (acc : Z * Z) tr :
  exists d,
    insert_one (i, player) acc tr
    = (Ok (if insert_ok player then (fst acc + 1, snd acc)
           else (fst acc, snd acc + 1)), tr ++ d)
    /\ submitted d = [filed player]
    /\ opened d = []
    /\ warnings d = (if insert_ok player then 0 else 1)%nat.
Proof.
  unfold insert_one, BronzeRun.insert_one, insert_bronze_raw, log,
    try_catch, bind, emit, raise, ret, filed.
  cbn [fst snd].
  destruct (insert_ok player); [destruct (i mod 20 =? 0)%nat|];
    cbn; rewrite <- ?app_assoc; cbn;
    (eexists; split; [reflexivity|]; repeat split).
Qed.

Lemma filing_loop_spec (items : list (nat * gmap string PyVal))
      (acc : Z * Z) tr :
  exists d,
    for_each items insert_one acc tr
    = (Ok (fst acc
           + Z.of_nat (length (List.filter insert_ok (map snd items))),
           snd acc
           + Z.of_nat (length (List.filter refused (map snd items)))),
       tr ++ d)
    /\ submitted d = map filed (map snd items)
    /\ opened d = []
    /\ warnings d = length (List.filter refused (map snd items)).
Proof.
  unfold refused, BronzeRun.refused.
  revert acc tr. induction items as [|[i player] rest IH]; intros acc tr.
  - exists []. destruct acc. simpl. unfold ret.
    now rewrite app_nil_r, !Z.add_0_r.
  - cbn [for_each]. unfold bind.
    destruct (insert_one_spec i player acc tr)
      as (d1 & -> & Hs1 & Ho1 & Hw1).
    destruct (IH (if insert_ok player then (fst acc + 1, snd acc)
                  else (fst acc, snd acc + 1)) (tr ++ d1))
      as (d2 & -> & Hs2 & Ho2 & Hw2).
    exists (d1 ++ d2). rewrite <- app_assoc.
    cbn [map snd List.filter].
    split; [|split; [|split]].
    + f_equal. f_equal.
      destruct (insert_ok player); cbn [negb fst snd length];
        f_equal; lia.
    + rewrite filed_app, Hs1, Hs2. reflexivity.
    + rewrite opened_app, Ho1, Ho2. reflexivity.
    + rewrite warnings_app, Hw1, Hw2.
      destruct (insert_ok player); reflexivity.
Qed.

Lemma map_snd_enumerate_from_1 {A} (items : list A) :
  map snd (enumerate_from_1 items) = items.
Proof.
  unfold enumerate_from_1.
  apply (PipelineFacts.map_snd_enumerate_from items 1).
Qed.

Lemma ingestion_submits_every_record_aux
      (records : list (gmap string PyVal)) (st : collector)
      (tr : list event) :
  exists d,
    insert_to_bronze records st tr
    = (Ok (Z.of_nat (length (List.filter insert_ok records)),
           mkCollector
             (players_data st) (scraped_count st)
             (error_count st
              + Z.of_nat (length (List.filter refused records)))),
       tr ++ d)
    /\ submitted d = map filed records
    /\ opened d = [].
Proof.
  unfold insert_to_bronze, BronzeRun.insert_to_bronze, log, bind, emit,
    ret.
  fold insert_one.
  destruct (filing_loop_spec (enumerate_from_1 records)
              (0, error_count st) (tr ++ [ELog Pipeline.INFO]))
    as (d & -> & Hs & Ho & _).
  rewrite map_snd_enumerate_from_1 in *.
  exists ([ELog Pipeline.INFO] ++ d ++ [ELog Pipeline.SUCCESS]).
  cbn [fst snd]. rewrite Z.add_0_l, <- !app_assoc.
  split; [reflexivity|]. split.
  - rewrite !filed_app, Hs. simpl. now rewrite app_nil_r.
  - rewrite !opened_app, Ho. reflexivity.
Qed.

(** X25. [insert_to_bronze] never raises. It hands every record to
    the raw store exactly once, in order, filed under the
    [data_source] of the record (or [unknown]) and its [profile_url]
    (or the empty text). A record the store refuses stops nothing:
    it is logged as a warning and counted in [error_count], and the
    number returned is the number of records the store accepted, so
    that returned count and new errors add up to the number of
    records. *)
Theorem ingestion_submits_every_record
        (records : list (gmap string PyVal)) (st : collector)
        (tr : list event) :
  exists d,
    insert_to_bronze records st tr
    = (Ok (Z.of_nat (length (List.filter insert_ok records)),
           mkCollector
             (players_data st) (scraped_count st)
             (error_count st
              + Z.of_nat (length (List.filter refused records)))),
       tr ++ d)
    /\ submitted d = map filed records
    /\ warnings d = length (List.filter refused records)
    /\ (length (List.filter insert_ok records)
        + length (List.filter refused records))%nat
       = length records.
Proof.
  unfold insert_to_bronze, BronzeRun.insert_to_bronze, log, bind, emit,
    ret.
  fold insert_one.
  destruct (filing_loop_spec (enumerate_from_1 records)
              (0, error_count st) (tr ++ [ELog Pipeline.INFO]))
    as (d & -> & Hs & _ & Hw).
  rewrite map_snd_enumerate_from_1 in *.
  exists ([ELog Pipeline.INFO] ++ d ++ [ELog Pipeline.SUCCESS]).
  cbn [fst snd]. rewrite Z.add_0_l, <- !app_assoc.
  split; [reflexivity|]. split; [|split].
  - rewrite !filed_app, Hs. simpl. now rewrite app_nil_r.
  - rewrite !warnings_app, Hw.
    change (warnings [ELog Pipeline.INFO]) with 0%nat.
    change (warnings [ELog Pipeline.SUCCESS]) with 0%nat. lia.
  - unfold refused, BronzeRun.refused. clear Hs Hw.
    induction records as [|r rest IH]; [reflexivity|].
    cbn [List.filter]. destruct (insert_ok r); cbn [negb length]; lia.
Qed.

Lemma log_sample_spec player tr :
  if has_sample_fields player
  then log_sample player tt tr = (Ok tt, tr ++ [ELog Pipeline.INFO])
  else exists e, log_sample player tt tr = (Raise e, tr).
Proof.
  unfold has_sample_fields, log_sample, log, bind, lift, emit,
    Pipeline.getitem.
  destruct (player !! "nickname") as [v1|]; simpl; [|eauto].
  destruct (player !! "rank") as [v2|]; simpl; [|eauto].
  destruct (player !! "country") as [v3|]; simpl; eauto.
Qed.

Lemma log_samples_spec records tr :
  forallb has_sample_fields records = true ->
  for_each records log_sample tt tr
  = (Ok tt, tr ++ repeat (ELog Pipeline.INFO) (length records)).
Proof.
  revert tr. induction records as [|r rest IH]; intros tr Hall.
  - simpl. unfold ret. now rewrite app_nil_r.
  - cbn [forallb] in Hall. apply andb_true_iff in Hall as [Hr Hrest].
    cbn [for_each length repeat]. unfold bind.
    pose proof (log_sample_spec r tr) as Hs. rewrite Hr in Hs.
    rewrite Hs, (IH _ Hrest), <- app_assoc. reflexivity.
Qed.

Lemma logs_only (n : nat) :
  submitted (repeat (ELog Pipeline.INFO) n) = []
  /\ opened (repeat (ELog Pipeline.INFO) n) = []
  /\ warnings (repeat (ELog Pipeline.INFO) n) = 0%nat.
Proof. induction n as [|n IH]; [auto|]. exact IH. Qed.

Lemma bind_log {A} (level : Pipeline.log_level) (k : unit -> M A) tr :
  bind (log level) k tr = k tt (tr ++ [ELog level]).
Proof. reflexivity. Qed.

Lemma log_step (level : Pipeline.log_level) tr :
  log level tr = (Ok tt, tr ++ [ELog level]).
Proof. reflexivity. Qed.

Lemma bind_step {A B} (m : M A) (k : A -> M B) tr :
  bind m k tr
  = match m tr with
    | (Ok a, tr') => k a tr'
    | (Raise e, tr') => (Raise e, tr')
    end.
Proof. reflexivity. Qed.

Lemma emit_lines_spec (levels : list Pipeline.log_level) tr :
  emit_lines levels tr = (Ok tt, tr ++ map ELog levels).
Proof.
  unfold emit_lines. revert tr.
  induction levels as [|level rest IH]; intros tr.
  - simpl. unfold ret. now rewrite app_nil_r.
  - cbn [for_each map]. rewrite bind_log, IH, <- app_assoc. reflexivity.
Qed.

Lemma lines_only (levels : list Pipeline.log_level) :
  submitted (map ELog levels) = [] /\ opened (map ELog levels) = [].
Proof. induction levels as [|level rest IH]; [auto|]. exact IH. Qed.

(** The collectors with their trace: the records and counters of
    the collector, one page opened and nothing inserted. *)
Lemma liquipedia_traced_spec (game : str) (st : collector) tr :
  exists d,
    scrape_liquipedia_traced liquipedia_page game st tr
    = (Ok (scrape_liquipedia_ranking liquipedia_page st), tr ++ d)
    /\ length (opened d) = 1%nat /\ submitted d = [].
Proof.
  unfold scrape_liquipedia_traced. rewrite bind_log.
  unfold bind at 1, emit at 1.
  destruct liquipedia_page as [| |rows].
  - rewrite bind_log. unfold ret. eexists. rewrite <- !app_assoc.
    split; [reflexivity|]. split; reflexivity.
  - rewrite bind_log. unfold ret. eexists. rewrite <- !app_assoc.
    split; [reflexivity|]. split; reflexivity.
  - rewrite bind_step, bind_log, bind_step, emit_lines_spec, log_step.
    unfold ret. eexists. rewrite <- !app_assoc.
    split; [reflexivity|].
    destruct (lines_only
                (flat_map liquipedia_row_lines
                          (enumerate_from_1 (tail rows)))) as [L1 L2].
    unfold submitted, opened in *. cbn [flat_map app].
    rewrite !flat_map_app, L1, L2. split; reflexivity.
Qed.

Lemma opgg_traced_spec (limit : nat) (st : collector) tr :
  exists d,
    scrape_opgg_traced unicode_lower region utcnow_text opgg_page
                       limit st tr
    = (Ok (scrape_opgg_ranking unicode_lower region utcnow_text
                               opgg_page limit st), tr ++ d)
    /\ length (opened d) = 1%nat /\ submitted d = [].
Proof.
  unfold scrape_opgg_traced. rewrite bind_log.
  unfold bind at 1, emit at 1.
  destruct opgg_page as [|by_attribute by_class] eqn:Hpage.
  - rewrite bind_log. unfold ret. eexists. rewrite <- !app_assoc.
    split; [reflexivity|]. split; reflexivity.
  - rewrite bind_step, bind_log, bind_step, emit_lines_spec, log_step.
    unfold ret. eexists. rewrite <- !app_assoc.
    split; [reflexivity|].
    match goal with
    | |- context [map ELog ?ls] => destruct (lines_only ls) as [L1 L2]
    end.
    unfold submitted, opened in *. cbn [flat_map app].
    rewrite !flat_map_app, L1, L2. split; reflexivity.
Qed.

(** The part of the run that follows the collecting step. *)
Lemma no_data_step (st' : collector) (d0 : list event) tr :
  length (opened d0) = 1%nat -> submitted d0 = [] ->
  exists d,
    (((((((tr ++ [ELog Pipeline.INFO]) ++ [ELog Pipeline.INFO])
           ++ [ELog Pipeline.INFO]) ++ [ELog Pipeline.INFO])
         ++ [ELog Pipeline.INFO]) ++ [ELog Pipeline.INFO]) ++ d0)
      ++ [ELog Pipeline.WARNING]
    = tr ++ d
    /\ length (opened d) = 1%nat
    /\ submitted d = []
    /\ (1 <= warnings d)%nat.
Proof.
  intros Ho Hs.
  exists (repeat (ELog Pipeline.INFO) 6 ++ d0 ++ [ELog Pipeline.WARNING]).
  split; [rewrite <- !app_assoc; reflexivity|].
  unfold submitted, opened, warnings in *. cbn [repeat flat_map app].
  rewrite !flat_map_app, Hs. cbn [flat_map app].
  rewrite app_nil_r.
  split; [exact Ho|]. split; [reflexivity|].
  cbn [List.filter]. rewrite List.filter_app, length_app.
  cbn [List.filter length]. lia.
Qed.

(** X26. What [run_ingestion] does without data. A source name
    other than liquipedia or opgg (in any ASCII case) makes it raise
    [ValueError] before a page is opened and before anything is
    inserted: the trace gains the six opening lines and the error
    line. On a known source whose collector returns no record it
    opens the one page of that source, logs a warning, inserts
    nothing and returns with the counters the collector left. *)
Theorem ingestion_without_data
        (source game : str) (limit : nat) (st : collector)
        (tr : list event) :
  match collected source limit st with
  | None =>
      run_ingestion source game limit st tr
      = (Raise ValueError,
         tr ++ repeat (ELog Pipeline.INFO) 6 ++ [ELog Pipeline.ERROR])
  | Some ([], st') =>
      exists d,
        run_ingestion source game limit st tr = (Ok st', tr ++ d)
        /\ length (opened d) = 1%nat
        /\ submitted d = []
        /\ (1 <= warnings d)%nat
  | Some (_ :: _, _) => True
  end.
Proof.
  unfold run_ingestion, BronzeRun.run_ingestion.
  rewrite !bind_log. unfold try_catch. rewrite bind_step.
  unfold collected, BronzeRun.collected.
  destruct (str_eqb (lower unicode_lower source) (lit "liquipedia")).
  - match goal with
    | |- context [scrape_liquipedia_traced ?p ?g ?s ?t] =>
        destruct (liquipedia_traced_spec g s t) as (d0 & -> & Ho & Hs)
    end.
    destruct (scrape_liquipedia_ranking liquipedia_page st)
      as [[|r records] st']; [|exact I].
    cbn [fst snd]. rewrite bind_log. unfold ret.
    destruct (no_data_step st' d0 tr Ho Hs) as (d & -> & H).
    exists d. split; [reflexivity | exact H].
  - destruct (str_eqb (lower unicode_lower source) (lit "opgg")).
    + match goal with
      | |- context [scrape_opgg_traced _ _ _ _ ?l ?s ?t] =>
          destruct (opgg_traced_spec l s t) as (d0 & -> & Ho & Hs)
      end.
      destruct (scrape_opgg_ranking unicode_lower region utcnow_text
                                    opgg_page limit st)
        as [[|r records] st']; [|exact I].
      cbn [fst snd]. rewrite bind_log. unfold ret.
      destruct (no_data_step st' d0 tr Ho Hs) as (d & -> & H).
      exists d. split; [reflexivity | exact H].
    + unfold raise at 1. rewrite bind_log. unfold raise.
      rewrite <- !app_assoc. reflexivity.
Qed.

(** X27. On a known source whose collector returns records with the
    fields of the sample lines, [run_ingestion] does not raise: it
    opens the one page of the source and hands every collected
    record to the raw store exactly once, in order; a refused record
    only raises the error counter. *)
Theorem ingestion_inserts_what_was_collected
        (source game : str) (limit : nat) (st st' : collector)
        (tr : list event) (records : list (gmap string PyVal)) :
  collected source limit st = Some (records, st') ->
  records <> [] ->
  forallb has_sample_fields (firstn 3 records) = true ->
  exists d,
    run_ingestion source game limit st tr
    = (Ok (mkCollector
             (players_data st') (scraped_count st')
             (error_count st'
              + Z.of_nat (length (List.filter refused records)))),
       tr ++ d)
    /\ submitted d = map filed records
    /\ length (opened d) = 1%nat.
Proof.
  intros Hcollected Hne Hsamples.
  unfold run_ingestion, BronzeRun.run_ingestion.
  rewrite !bind_log. unfold try_catch. rewrite bind_step.
  assert (Hstep :
            exists d0,
              (if str_eqb (lower unicode_lower source) (lit "liquipedia")
               then scrape_liquipedia_traced liquipedia_page game st
               else if str_eqb (lower unicode_lower source) (lit "opgg")
               then scrape_opgg_traced unicode_lower region utcnow_text
                                       opgg_page limit st
               else raise ValueError)
                ((((((tr ++ [ELog Pipeline.INFO])
                       ++ [ELog Pipeline.INFO]) ++ [ELog Pipeline.INFO])
                    ++ [ELog Pipeline.INFO]) ++ [ELog Pipeline.INFO])
                  ++ [ELog Pipeline.INFO])
              = (Ok (records, st'),
                 ((((((tr ++ [ELog Pipeline.INFO])
                        ++ [ELog Pipeline.INFO]) ++ [ELog Pipeline.INFO])
                     ++ [ELog Pipeline.INFO]) ++ [ELog Pipeline.INFO])
                   ++ [ELog Pipeline.INFO]) ++ d0)
              /\ length (opened d0) = 1%nat /\ submitted d0 = []).
  { unfold collected, BronzeRun.collected in Hcollected.
    destruct (str_eqb (lower unicode_lower source) (lit "liquipedia")).
    - injection Hcollected as <-. apply liquipedia_traced_spec.
    - destruct (str_eqb (lower unicode_lower source) (lit "opgg"));
        [|discriminate Hcollected].
      injection Hcollected as <-. apply opgg_traced_spec. }
  destruct Hstep as (d0 & Hstep & Ho0 & Hs0).
  match goal with
  | |- context [match ?m ?t with _ => _ end] =>
      change (m t) with
        ((if str_eqb (lower unicode_lower source) (lit "liquipedia")
          then scrape_liquipedia_traced liquipedia_page game st
          else if str_eqb (lower unicode_lower source) (lit "opgg")
          then scrape_opgg_traced unicode_lower region utcnow_text
                                  opgg_page limit st
          else raise ValueError)
           ((((((tr ++ [ELog Pipeline.INFO])
                  ++ [ELog Pipeline.INFO]) ++ [ELog Pipeline.INFO])
               ++ [ELog Pipeline.INFO]) ++ [ELog Pipeline.INFO])
             ++ [ELog Pipeline.INFO]))
  end.
  rewrite Hstep. cbn [fst snd].
  destruct records as [|r rest]; [now elim Hne|].
  set (records := r :: rest) in *.
  rewrite bind_log, bind_step, (log_samples_spec _ _ Hsamples).
  rewrite bind_step. fold insert_to_bronze.
  match goal with
  | |- context [insert_to_bronze ?r ?s ?t] =>
      destruct (ingestion_submits_every_record_aux r s t)
        as (d & -> & Hs & Ho)
  end.
  rewrite !bind_log. unfold ret. cbn [fst snd].
  eexists. rewrite <- !app_assoc. cbn [app].
  split; [reflexivity|].
  destruct (logs_only (length (firstn 3 records))) as (L1 & L2 & _).
  unfold submitted, opened in *. cbn [flat_map app].
  rewrite !flat_map_app. cbn [flat_map app].
  rewrite !flat_map_app, L1, L2, Hs, Ho, Hs0. cbn [flat_map app].
  rewrite !app_nil_r. split; [reflexivity | exact Ho0].
Qed.

End WithStore.

Import Samples.

Lemma extraction_failures_are_not_counted_witness :
  process_row (row_of_cells same_text (lit "KR") 0 (iso_text 0)
                            unreadable_cells players_page)
              (mkCollector [] 0 0)
  = mkCollector [] 0 0.
Proof.
  destruct (extraction_failures_are_not_counted
              same_text (lit "KR") 0 (iso_text 0) unreadable_cells
              players_page (mkCollector [] 0 0)) as [_ H].
  - simpl. lia.
  - exact H.
Defined.

Lemma ingestion_inserts_what_was_collected_witness :
  exists d final,
    run_ingestion same_text (lit "KR") iso_text_at NoTables leaderboard
                  ranked_only (lit "OPGG") (lit "lol") 100
                  (mkCollector [] 0 0) []
    = (Ok final, [] ++ d)
    /\ length (submitted d) = 2%nat
    /\ error_count final = 2.
Proof.
  pose (scraped := scrape_opgg_ranking same_text (lit "KR") iso_text_at
                     leaderboard 100 (mkCollector [] 0 0)).
  destruct (ingestion_inserts_what_was_collected
              same_text (lit "KR") iso_text_at NoTables leaderboard
              ranked_only (lit "OPGG") (lit "lol") 100
              (mkCollector [] 0 0) (snd scraped) [] (fst scraped))
    as (d & Hrun & Hs & _).
  - reflexivity.
  - discriminate.
  - reflexivity.
  - eexists d, _. split; [exact Hrun|]. split.
    + rewrite Hs. reflexivity.
    + reflexivity.
Defined.

End BronzeRunFacts.
